(** * Expenses edge function: request router, validator, data access and
      the transaction side effect.

    Shallow embedding of the Deno edge function that serves the route
    [expenses] (validateExpense, getExpenses, getExpenseById,
    createExpenseTransaction, createExpense, updateExpense, deleteExpense
    and the router passed to [serve]).

    Modelling conventions
    - a JavaScript [number] that comes out of a JSON body is a finite
      number; it is a rational [Q] here, and only its comparisons with 0
      are used;
    - the literal union types [PaymentStatus], [PaymentMethod] and
      [ExpenseCategory] are inductive types; an optional property is an
      [option] ([None] = the key is absent);
    - the relational store behind the Supabase client is explicit state
      ([Store]); every call to it is recorded in a trace and may be failed
      by the environment ([fault]);
    - a handler is a computation in a state-and-exception monad [Op]:
      [throw]/[try_catch] are the [throw]/[try ... catch] of the source;
    - a response is its status and its body; [new Response] is the
      constructor of the Fetch standard, which refuses a body together
      with a null body status;
    - response headers (content type, CORS) and [console] output carry no
      decision and are left out; the Supabase clients are taken as
      configured. *)

From Stdlib Require Import String Ascii List Bool Arith ZArith QArith Lia.
From Stdlib Require Import Sorted Permutation.
Import ListNotations.
Local Open Scope string_scope.
Local Open Scope list_scope.

(** ** Shared types *)

Inductive PaymentStatus := pending | completed | failed | refunded.
Inductive PaymentMethod := cash | card | bank_transfer | mobile_payment.
Inductive ExpenseCategory :=
  utilities | rent | salaries | maintenance | supplies | taxes | insurance | other.

Definition PaymentStatus_eqb (a b : PaymentStatus) : bool :=
  match a, b with
  | pending, pending | completed, completed
  | failed, failed | refunded, refunded => true
  | _, _ => false
  end.

Definition PaymentStatus_to_string (s : PaymentStatus) : string :=
  match s with
  | pending => "pending" | completed => "completed"
  | failed => "failed" | refunded => "refunded"
  end.

Definition ExpenseCategory_to_string (c : ExpenseCategory) : string :=
  match c with
  | utilities => "utilities" | rent => "rent" | salaries => "salaries"
  | maintenance => "maintenance" | supplies => "supplies" | taxes => "taxes"
  | insurance => "insurance" | other => "other"
  end.

(** [interface Expense] *)
Module Expense.
Record t := mk {
  id : string;
  date : string;
  amount : Q;
  category : ExpenseCategory;
  description : string;
  payment_status : PaymentStatus;
  payment_method : option PaymentMethod;
  invoice_number : option string;
  notes : option string;
  employee_id : string;
  created_at : option string
}.
End Expense.

(** [Partial<Omit<Expense, 'id' | 'created_at'>>]: the body of a POST or
    PUT request.  The create path declares the same fields as required,
    but the body is whatever JSON was sent, and [validateExpense] is what
    checks it. *)
Module Partial.
Record t := mk {
  date : option string;
  amount : option Q;
  category : option ExpenseCategory;
  description : option string;
  payment_status : option PaymentStatus;
  payment_method : option PaymentMethod;
  invoice_number : option string;
  notes : option string;
  employee_id : option string
}.

Definition set_payment_status (p : t) (s : PaymentStatus) : t :=
  mk (date p) (amount p) (category p) (description p) (Some s)
     (payment_method p) (invoice_number p) (notes p) (employee_id p).
End Partial.

(** The [{ id, name }] rows of the employees table. *)
Module Employee.
Record t := mk { id : string; name : string }.
End Employee.

(** [interface ExpenseWithRelations] *)
Module ExpenseWithRelations.
Record t := mk { expense : Expense.t; employee : option Employee.t }.
End ExpenseWithRelations.

(** [interface TransactionData] *)
Module TransactionData.
Record t := mk {
  amount : Q;
  payment_method : PaymentMethod;
  payment_status : PaymentStatus;
  employee_id : string;
  entity_id : string;
  entity_type : string;
  description : string;
  updated_at : string
}.
End TransactionData.

(** [interface ExpenseFilters]; the router casts raw query-string values
    into it, so the two enumerated filters are strings at run time. *)
Module ExpenseFilters.
Record t := mk {
  category : option string;
  startDate : option string;
  endDate : option string;
  paymentStatus : option string
}.
End ExpenseFilters.

(** [interface ExpenseValidation] *)
Module ExpenseValidation.
Record t := mk { isValid : bool; message : option string; status : option Z }.
End ExpenseValidation.

(** ** JavaScript truthiness and the two regular expressions *)

(** [!s] for an optional string: absent or empty. *)
Definition falsy_string (o : option string) : bool :=
  match o with
  | None => true
  | Some s => s =? ""
  end.

(** [!n] for an optional finite number: absent or zero. *)
Definition falsy_number (o : option Q) : bool :=
  match o with
  | None => true
  | Some q => Qeq_bool q 0
  end.

(** [!x] for an optional value of a literal union (no member is falsy). *)
Definition falsy_enum {A : Type} (o : option A) : bool :=
  match o with
  | None => true
  | Some _ => false
  end.

(** [n <= 0], reached only when the number is there. *)
Definition number_le_0 (o : option Q) : bool :=
  match o with
  | None => false
  | Some q => Qle_bool q 0
  end.

Definition in_range (lo hi : nat) (c : ascii) : bool :=
  let n := nat_of_ascii c in (lo <=? n)%nat && (n <=? hi)%nat.

Definition is_digit (c : ascii) : bool := in_range 48 57 c.
Definition is_lower (c : ascii) : bool := in_range 97 122 c.
Definition is_upper (c : ascii) : bool := in_range 65 90 c.

(** [[0-9a-f]] under the [i] flag. *)
Definition is_hex (c : ascii) : bool :=
  is_digit c || in_range 97 102 c || in_range 65 70 c.

(** [[a-zA-Z0-9-]] *)
Definition is_id_char (c : ascii) : bool :=
  is_lower c || is_upper c || is_digit c || (nat_of_ascii c =? 45)%nat.

(** [[0-9a-f]{n}] at the head of [s]: the rest of the input on a match. *)
Fixpoint hex_run (n : nat) (s : string) : option string :=
  match n with
  | O => Some s
  | S n' =>
      match s with
      | String c r => if is_hex c then hex_run n' r else None
      | EmptyString => None
      end
  end.

Definition hyphen (s : string) : option string :=
  match s with
  | String c r => if (nat_of_ascii c =? 45)%nat then Some r else None
  | EmptyString => None
  end.

Definition and_then {A B : Type} (o : option A) (f : A -> option B) : option B :=
  match o with
  | Some a => f a
  | None => None
  end.

(** [/^[0-9a-f]{8}-[0-9a-f]{4}-[0-9a-f]{4}-[0-9a-f]{4}-[0-9a-f]{12}$/i.test(s)] *)
Definition uuidRegex_test (s : string) : bool :=
  match
    and_then (hex_run 8 s) (fun r =>
    and_then (hyphen r) (fun r =>
    and_then (hex_run 4 r) (fun r =>
    and_then (hyphen r) (fun r =>
    and_then (hex_run 4 r) (fun r =>
    and_then (hyphen r) (fun r =>
    and_then (hex_run 4 r) (fun r =>
    and_then (hyphen r) (fun r =>
    hex_run 12 r))))))))
  with
  | Some EmptyString => true
  | _ => false
  end.

Fixpoint all_chars (p : ascii -> bool) (s : string) : bool :=
  match s with
  | EmptyString => true
  | String c r => p c && all_chars p r
  end.

(** [s.match(/^\/[a-zA-Z0-9-]+$/)], as a test. *)
Definition idRoute_match (s : string) : bool :=
  match s with
  | String c r =>
      (nat_of_ascii c =? 47)%nat && negb (r =? "") && all_chars is_id_char r
  | EmptyString => false
  end.

(** ** The validator *)

Definition invalid (msg : string) : ExpenseValidation.t :=
  ExpenseValidation.mk false (Some msg) (Some 400%Z).

Definition validateExpense (expense : Partial.t) : ExpenseValidation.t :=
  if falsy_string (Partial.date expense) then
    invalid "Expense date is required"
  else if falsy_number (Partial.amount expense)
          || number_le_0 (Partial.amount expense) then
    invalid "Amount must be a positive number"
  else if falsy_enum (Partial.category expense) then
    invalid "Category is required"
  else if falsy_string (Partial.description expense) then
    invalid "Description is required"
  else if falsy_string (Partial.employee_id expense) then
    invalid "Employee ID is required"
  else if negb (uuidRegex_test
                  (match Partial.employee_id expense with
                   | Some s => s
                   | None => ""
                   end)) then
    invalid "Invalid employee ID format"
  else
    ExpenseValidation.mk true None None.

(** ** Errors and responses *)

(** What [throw] carries and what the Supabase client hands back in its
    [error] slot: an object with a [message] (and, for store errors, a
    [code]), or some other value. *)
Inductive JsError :=
| ErrorObject (message : string) (code : option string)
| OtherValue.

Definition error_code (e : JsError) : option string :=
  match e with
  | ErrorObject _ c => c
  | OtherValue => None
  end.

(** [error.code === 'PGRST116'] *)
Definition is_PGRST116 (e : JsError) : bool :=
  match error_code e with
  | Some c => c =? "PGRST116"
  | None => false
  end.

Inductive Data :=
| DataNull
| DataCategories (categories : list ExpenseCategory)
| DataExpenses (expenses : list Expense.t)
| DataExpensesWithRelations (expenses : list ExpenseWithRelations.t)
| DataExpense (expense : ExpenseWithRelations.t).

(** The JSON bodies the function sends: [{ data }], [{ error, details }]
    (or a bare [{ error }]) and the placeholder [{ summary: {} }]; a plain
    text is what a helper outside the function may send. *)
Inductive Body :=
| DataBody (data : Data)
| ErrorBody (error : string) (details : option JsError)
| SummaryBody
| TextBody (text : string).

Module Response.
Record t := mk { status : Z; body : Body }.
End Response.

(** [handleError] *)
Definition handleError (error : JsError) : Body :=
  match error with
  | ErrorObject message _ => ErrorBody message (Some error)
  | OtherValue => ErrorBody "An unknown error occurred" (Some error)
  end.

(** [new Response(body, { status, headers })] with a body that is not
    null, which is every use in this file (the body is a
    [JSON.stringify(...)] string).  The constructor of the Fetch standard
    throws a [TypeError] when the status is a null body status. *)
Definition null_body_status (status : Z) : bool :=
  existsb (Z.eqb status) [101; 103; 204; 205; 304]%Z.

Definition new_Response (body : Body) (status : Z) : JsError + Response.t :=
  if null_body_status status
  then inl (ErrorObject "Response with null body status cannot have body" None)
  else inr (Response.mk status body).

Definition createJsonResponse (data : Body) (status : Z) : JsError + Response.t :=
  new_Response data status.

(** [successResponse(data, status = 200)] *)
Definition successResponse (data : Data) (status : option Z)
  : JsError + Response.t :=
  createJsonResponse (DataBody data)
    (match status with Some s => s | None => 200%Z end).

(** [errorResponse(error, status = 400)] *)
Definition errorResponse (error : JsError) (status : option Z)
  : JsError + Response.t :=
  createJsonResponse (handleError error)
    (match status with Some s => s | None => 400%Z end).

Definition methodNotAllowed : JsError + Response.t :=
  errorResponse (ErrorObject "Method not allowed" None) (Some 405%Z).

Definition unauthorized : JsError + Response.t :=
  errorResponse (ErrorObject "Unauthorized" None) (Some 401%Z).

Definition notFound (resource : string) : JsError + Response.t :=
  errorResponse (ErrorObject (resource ++ " not found") None) (Some 404%Z).

(** [String(validation.message)] *)
Definition message_text (o : option string) : string :=
  match o with
  | Some s => s
  | None => "undefined"
  end.

(** ** The relational store *)

Module Store.
Record t := mk {
  expenses : list Expense.t;
  employees : list Employee.t;
  transactions : list TransactionData.t
}.
End Store.

(** A filter of the query builder: [.eq], [.gte], [.lte] on a column. *)
Inductive Predicate :=
| Eq (column value : string)
| Gte (column value : string)
| Lte (column value : string).

(** The calls the handlers issue to the store. *)
Inductive StoreCall :=
| SelectExpenses (filters : list Predicate)
| SelectExpenseById (id : string)
| SelectEmployeesIn (ids : list string)
| SelectEmployeeById (id : string)
| InsertExpense (row : Partial.t)
| UpdateExpense (id : string) (updates : Partial.t)
| DeleteExpense (id : string)
| InsertTransaction (row : TransactionData.t).

Module User.
Record t := mk { id : string }.
End User.

(** What the handlers do not decide: which store calls fail and how, the
    id and timestamp the store gives to a new row, the clock, and the
    identity provider behind [supabase.auth.getUser]. *)
Module Env.
Record t := mk {
  fault : StoreCall -> option JsError;
  generated_id : string;
  db_now : string;
  js_now : string;
  auth_getUser : string -> option User.t
}.
End Env.

(** [.single()]: exactly one row, or the error PGRST116. *)
Definition PGRST116 : JsError :=
  ErrorObject "JSON object requested, multiple (or no) rows returned"
              (Some "PGRST116").

Definition single {A : Type} (rows : list A) : JsError + A :=
  match rows with
  | [r] => inr r
  | _ => inl PGRST116
  end.

Definition column_text (column : string) (e : Expense.t) : option string :=
  if column =? "category" then Some (ExpenseCategory_to_string (Expense.category e))
  else if column =? "date" then Some (Expense.date e)
  else if column =? "payment_status" then
    Some (PaymentStatus_to_string (Expense.payment_status e))
  else None.

(** Dates are ISO strings, compared as text. *)
Definition satisfies (e : Expense.t) (p : Predicate) : bool :=
  match p with
  | Eq c v => match column_text c e with Some x => x =? v | None => false end
  | Gte c v => match column_text c e with Some x => String.leb v x | None => false end
  | Lte c v => match column_text c e with Some x => String.leb x v | None => false end
  end.

Fixpoint insert_date_desc (e : Expense.t) (l : list Expense.t) : list Expense.t :=
  match l with
  | [] => [e]
  | x :: r =>
      if String.leb (Expense.date x) (Expense.date e) then e :: l
      else x :: insert_date_desc e r
  end.

(** [.order("date", { ascending: false })] *)
Definition order_date_desc (l : list Expense.t) : list Expense.t :=
  fold_right insert_date_desc [] l.

Definition has_id (id : string) (e : Expense.t) : bool := Expense.id e =? id.

Definition select_expenses (filters : list Predicate) (s : Store.t) : list Expense.t :=
  order_date_desc
    (filter (fun e => forallb (satisfies e) filters) (Store.expenses s)).

Definition select_expense_by_id (id : string) (s : Store.t) : JsError + Expense.t :=
  single (filter (has_id id) (Store.expenses s)).

Definition select_employees_in (ids : list string) (s : Store.t) : list Employee.t :=
  filter (fun emp => existsb (String.eqb (Employee.id emp)) ids) (Store.employees s).

Definition select_employee_by_id (id : string) (s : Store.t) : JsError + Employee.t :=
  single (filter (fun emp => Employee.id emp =? id) (Store.employees s)).

(** The row an insert makes of a body: the store supplies [id] and
    [created_at]; a required column left out is refused. *)
Definition new_row (id created_at : string) (p : Partial.t) : option Expense.t :=
  match Partial.date p, Partial.amount p, Partial.category p,
        Partial.description p, Partial.payment_status p, Partial.employee_id p with
  | Some d, Some a, Some c, Some ds, Some ps, Some emp =>
      Some (Expense.mk id d a c ds ps (Partial.payment_method p)
              (Partial.invoice_number p) (Partial.notes p) emp (Some created_at))
  | _, _, _, _, _, _ => None
  end.

Definition not_null_violation : JsError :=
  ErrorObject "null value violates not-null constraint" (Some "23502").

Definition insert_expense (id created_at : string) (p : Partial.t) (s : Store.t)
  : (JsError + Expense.t) * Store.t :=
  match new_row id created_at p with
  | Some e =>
      (inr e, Store.mk (Store.expenses s ++ [e]) (Store.employees s)
                       (Store.transactions s))
  | None => (inl not_null_violation, s)
  end.

Definition or_keep {A : Type} (new : option A) (old : A) : A :=
  match new with
  | Some v => v
  | None => old
  end.

Definition or_keep_opt {A : Type} (new : option A) (old : option A) : option A :=
  match new with
  | Some v => Some v
  | None => old
  end.

(** [.update(updates)] on one row: the columns named in [updates] change. *)
Definition apply_updates (u : Partial.t) (e : Expense.t) : Expense.t :=
  Expense.mk (Expense.id e)
    (or_keep (Partial.date u) (Expense.date e))
    (or_keep (Partial.amount u) (Expense.amount e))
    (or_keep (Partial.category u) (Expense.category e))
    (or_keep (Partial.description u) (Expense.description e))
    (or_keep (Partial.payment_status u) (Expense.payment_status e))
    (or_keep_opt (Partial.payment_method u) (Expense.payment_method e))
    (or_keep_opt (Partial.invoice_number u) (Expense.invoice_number e))
    (or_keep_opt (Partial.notes u) (Expense.notes e))
    (or_keep (Partial.employee_id u) (Expense.employee_id e))
    (Expense.created_at e).

Definition update_expense (id : string) (u : Partial.t) (s : Store.t)
  : (JsError + Expense.t) * Store.t :=
  let rows := map (fun e => if has_id id e then apply_updates u e else e)
                  (Store.expenses s) in
  (single (filter (has_id id) rows),
   Store.mk rows (Store.employees s) (Store.transactions s)).

Definition delete_expense (id : string) (s : Store.t) : (JsError + unit) * Store.t :=
  (inr tt,
   Store.mk (filter (fun e => negb (has_id id e)) (Store.expenses s))
            (Store.employees s) (Store.transactions s)).

Definition insert_transaction (row : TransactionData.t) (s : Store.t)
  : (JsError + unit) * Store.t :=
  (inr tt,
   Store.mk (Store.expenses s) (Store.employees s) (Store.transactions s ++ [row])).

(** ** Handlers as computations over the store *)

Module World.
Record t := mk { store : Store.t; trace : list StoreCall }.
End World.

Definition Op (A : Type) : Type := World.t -> (JsError + A) * World.t.

Definition ret {A : Type} (a : A) : Op A := fun w => (inr a, w).

Definition bind {A B : Type} (m : Op A) (f : A -> Op B) : Op B :=
  fun w =>
    match m w with
    | (inr a, w') => f a w'
    | (inl e, w') => (inl e, w')
    end.

Definition throw {A : Type} (e : JsError) : Op A := fun w => (inl e, w).

Definition try_catch {A : Type} (m : Op A) (handler : JsError -> Op A) : Op A :=
  fun w =>
    match m w with
    | (inr a, w') => (inr a, w')
    | (inl e, w') => handler e w'
    end.

(** [return f(...)], where evaluating the call may throw. *)
Definition respond {A : Type} (r : JsError + A) : Op A :=
  match r with
  | inr a => ret a
  | inl e => throw e
  end.

Notation "x <- c ;; k" := (bind c (fun x => k))
  (at level 61, c at next level, right associativity).

(** [Request]: what the router reads of a request.  [pathname] and
    [searchParams] are those of [new URL(req.url)]; [json] is the outcome
    of [request.json()], the message of the error it throws or the parsed
    body. *)
Module Request.
Record t := mk {
  method : string;
  pathname : string;
  searchParams : list (string * string);
  authorization : option string;
  content_type : option string;
  json : string + Partial.t
}.
End Request.

Section Handlers.

Variable env : Env.t.

(** One awaited call on the Supabase client: it never throws, it resolves
    to [{ data, error }]. *)
Definition call {A : Type} (c : StoreCall)
    (sem : Store.t -> (JsError + A) * Store.t) : Op (JsError + A) :=
  fun w =>
    match Env.fault env c with
    | Some e => (inr (inl e), World.mk (World.store w) (World.trace w ++ [c]))
    | None =>
        let (r, s') := sem (World.store w) in
        (inr r, World.mk s' (World.trace w ++ [c]))
    end.

Definition query {A : Type} (f : Store.t -> A) (s : Store.t) : A * Store.t := (f s, s).

(** [getExpenseCategories] *)
Definition getExpenseCategories : Op Response.t :=
  try_catch
    (respond (successResponse
            (DataCategories [utilities; rent; salaries; maintenance;
                             supplies; taxes; insurance; other]) None))
    (fun error => respond (errorResponse error None)).

Definition when_truthy (o : option string) (p : string -> Predicate) : list Predicate :=
  match o with
  | Some v => if v =? "" then [] else [p v]
  | None => []
  end.

(** The query [getExpenses] builds from its filters. *)
Definition filters_query (filters : ExpenseFilters.t) : list Predicate :=
  when_truthy (ExpenseFilters.category filters) (Eq "category")
  ++ when_truthy (ExpenseFilters.startDate filters) (Gte "date")
  ++ when_truthy (ExpenseFilters.endDate filters) (Lte "date")
  ++ when_truthy (ExpenseFilters.paymentStatus filters) (Eq "payment_status").

(** [[...new Set(l)]]: first occurrences, in order. *)
Fixpoint dedup (l : list string) : list string :=
  match l with
  | [] => []
  | x :: r => x :: filter (fun y => negb (y =? x)) (dedup r)
  end.

(** [new Map(employees.map(emp => [emp.id, ...])).get(id) || null]: a later
    entry replaces an earlier one with the same key. *)
Definition employeeMap_get (employees : list Employee.t) (id : string)
  : option Employee.t :=
  find (fun emp => Employee.id emp =? id) (rev employees).

(** [getExpenses] *)
Definition getExpenses (filters : ExpenseFilters.t) : Op Response.t :=
  try_catch
    (let q := filters_query filters in
     r <- call (SelectExpenses q) (query (fun s => inr (select_expenses q s))) ;;
     match r with
     | inl error => throw error
     | inr expenses =>
         match expenses with
         | _ :: _ =>
             let employeeIds :=
               dedup (filter (fun i => negb (i =? ""))
                             (map Expense.employee_id expenses)) in
             match employeeIds with
             | [] => respond (successResponse (DataExpenses expenses) None)
             | _ :: _ =>
                 r2 <- call (SelectEmployeesIn employeeIds)
                            (query (fun s => inr (select_employees_in employeeIds s))) ;;
                 match r2 with
                 | inl employeeError =>
                     respond (successResponse (DataExpenses expenses) None)
                 | inr employees =>
                     let expensesWithEmployees :=
                       map (fun expense =>
                              ExpenseWithRelations.mk expense
                                (if Expense.employee_id expense =? "" then None
                                 else employeeMap_get employees
                                        (Expense.employee_id expense)))
                           expenses in
                     respond (successResponse
                            (DataExpensesWithRelations expensesWithEmployees) None)
                 end
             end
         | [] => respond (successResponse (DataExpenses []) None)
         end
     end)
    (fun error => respond (errorResponse error None)).

(** [getExpenseById] *)
Definition getExpenseById (id : string) : Op Response.t :=
  try_catch
    (r <- call (SelectExpenseById id) (query (select_expense_by_id id)) ;;
     match r with
     | inl error =>
         if is_PGRST116 error then respond (notFound "Expense") else throw error
     | inr expense =>
         r2 <- call (SelectEmployeeById (Expense.employee_id expense))
                    (query (select_employee_by_id (Expense.employee_id expense))) ;;
         match r2 with
         | inl employeeError => throw employeeError
         | inr employee =>
             let expenseWithEmployee :=
               ExpenseWithRelations.mk expense (Some employee) in
             respond (successResponse (DataExpense expenseWithEmployee) None)
         end
     end)
    (fun error => respond (errorResponse error None)).

(** The record [createExpenseTransaction] builds. *)
Definition transactionData (expense : Expense.t) (userId : string)
  : TransactionData.t :=
  TransactionData.mk
    (Expense.amount expense)
    (match Expense.payment_method expense with Some m => m | None => cash end)
    completed
    userId
    (Expense.id expense)
    "expense"
    ("Expense: " ++ Expense.description expense ++ " ("
       ++ ExpenseCategory_to_string (Expense.category expense) ++ ")")
    (Env.js_now env).

(** [createExpenseTransaction]; the callers pass the expense with its
    employee attached, of which only the expense's own fields are read. *)
Definition createExpenseTransaction (expense : Expense.t) (userId : string)
  : Op unit :=
  let row := transactionData expense userId in
  r <- call (InsertTransaction row) (insert_transaction row) ;;
  match r with
  | inl error => throw error
  | inr _ => ret tt
  end.

(** [x.payment_status === "completed"] on a body. *)
Definition is_completed (o : option PaymentStatus) : bool :=
  match o with
  | Some s => PaymentStatus_eqb s completed
  | None => false
  end.

Definition validation_error (validation : ExpenseValidation.t)
  : JsError + Response.t :=
  errorResponse
    (ErrorObject (message_text (ExpenseValidation.message validation)) None)
    (ExpenseValidation.status validation).

(** [createExpense] *)
Definition createExpense (expense : Partial.t) (userId : string) : Op Response.t :=
  try_catch
    (let validation := validateExpense expense in
     if negb (ExpenseValidation.isValid validation) then
       respond (validation_error validation)
     else
       let expense :=
         if falsy_enum (Partial.payment_status expense)
         then Partial.set_payment_status expense pending
         else expense in
       r <- call (InsertExpense expense)
                 (insert_expense (Env.generated_id env) (Env.db_now env) expense) ;;
       match r with
       | inl error => throw error
       | inr newExpense =>
           r2 <- call (SelectEmployeeById (Expense.employee_id newExpense))
                      (query (select_employee_by_id (Expense.employee_id newExpense))) ;;
           match r2 with
           | inl employeeError => throw employeeError
           | inr employee =>
               let expenseWithEmployee :=
                 ExpenseWithRelations.mk newExpense (Some employee) in
               _ <- (if is_completed (Partial.payment_status expense) then
                       try_catch
                         (createExpenseTransaction newExpense userId)
                         (fun transactionError => ret tt)
                     else ret tt) ;;
               respond (successResponse (DataExpense expenseWithEmployee) (Some 201%Z))
           end
       end)
    (fun error => respond (errorResponse error None)).

(** [updateExpense] *)
Definition updateExpense (id : string) (updates : Partial.t) : Op Response.t :=
  try_catch
    (let validation := validateExpense updates in
     if negb (ExpenseValidation.isValid validation) then
       respond (validation_error validation)
     else
       r0 <- call (SelectExpenseById id) (query (select_expense_by_id id)) ;;
       match r0 with
       | inl existingError =>
           if is_PGRST116 existingError then respond (notFound "Expense")
           else throw existingError
       | inr existingExpense =>
           r <- call (UpdateExpense id updates) (update_expense id updates) ;;
           match r with
           | inl error => throw error
           | inr updatedExpense =>
               r2 <- call (SelectEmployeeById (Expense.employee_id updatedExpense))
                          (query (select_employee_by_id
                                    (Expense.employee_id updatedExpense))) ;;
               match r2 with
               | inl employeeError => throw employeeError
               | inr employee =>
                   let expenseWithEmployee :=
                     ExpenseWithRelations.mk updatedExpense (Some employee) in
                   _ <- (if is_completed (Partial.payment_status updates)
                            && negb (PaymentStatus_eqb
                                       (Expense.payment_status existingExpense)
                                       completed)
                         then
                           try_catch
                             (createExpenseTransaction updatedExpense
                                (Expense.employee_id existingExpense))
                             (fun transactionError => ret tt)
                         else ret tt) ;;
                   respond (successResponse (DataExpense expenseWithEmployee) None)
               end
           end
       end)
    (fun error => respond (errorResponse error None)).

(** [deleteExpense] *)
Definition deleteExpense (id : string) : Op Response.t :=
  try_catch
    (r0 <- call (SelectExpenseById id) (query (select_expense_by_id id)) ;;
     match r0 with
     | inl existingError =>
         if is_PGRST116 existingError then respond (notFound "Expense")
         else throw existingError
     | inr existingExpense =>
         if PaymentStatus_eqb (Expense.payment_status existingExpense) completed then
           respond (errorResponse
                      (ErrorObject "Cannot delete an expense with completed payment"
                                   None)
                      (Some 400%Z))
         else
           r <- call (DeleteExpense id) (delete_expense id) ;;
           match r with
           | inl error => throw error
           | inr _ => respond (successResponse DataNull (Some 204%Z))
           end
     end)
    (fun error => respond (errorResponse error None)).

(** ** The router *)

(** The CORS helper of the shared module, [handleCors]: a response for the
    requests it answers itself, nothing for the others. *)
Variable handleCors : Request.t -> option Response.t.

(** [getUserFromRequest]; [authHeader.replace('Bearer ', '')] removes the
    prefix just tested for. *)
Definition getUserFromRequest (request : Request.t) : option User.t :=
  match Request.authorization request with
  | None => None
  | Some authHeader =>
      if (authHeader =? "") || negb (prefix "Bearer " authHeader) then None
      else
        let token := substring 7 (String.length authHeader - 7) authHeader in
        Env.auth_getUser env token
  end.

(** [hay.includes(needle)] *)
Fixpoint includes (needle hay : string) : bool :=
  prefix needle hay
  || match hay with
     | EmptyString => false
     | String _ r => includes needle r
     end.

(** [parseRequestBody]; whatever is thrown inside is an [Error]. *)
Definition parseRequestBody (request : Request.t) : Op Partial.t :=
  try_catch
    (match Request.content_type request with
     | None => throw (ErrorObject "Content-Type must be application/json" None)
     | Some contentType =>
         if (contentType =? "") || negb (includes "application/json" contentType)
         then throw (ErrorObject "Content-Type must be application/json" None)
         else
           match Request.json request with
           | inl syntaxError => throw (ErrorObject syntaxError None)
           | inr body => ret body
           end
     end)
    (fun error =>
       throw (ErrorObject
                ("Failed to parse request body: "
                   ++ match error with
                      | ErrorObject m _ => m
                      | OtherValue => "undefined"
                      end) None)).

(** [params.get(k) || undefined] *)
Definition params_get (params : list (string * string)) (k : string) : option string :=
  match find (fun kv => fst kv =? k) params with
  | Some kv => if snd kv =? "" then None else Some (snd kv)
  | None => None
  end.

(** [pathname.replace(/^\/functions\/v1\//, '')] *)
Definition strip_functions_prefix (pathname : string) : string :=
  if prefix "/functions/v1/" pathname
  then substring 14 (String.length pathname - 14) pathname
  else pathname.

(** [s.split('/')] *)
Fixpoint split_slash (s : string) : list string :=
  match s with
  | EmptyString => [""]
  | String c r =>
      if (nat_of_ascii c =? 47)%nat then "" :: split_slash r
      else
        match split_slash r with
        | x :: l => String c x :: l
        | [] => [String c ""]
        end
  end.

Definition is_root (subRoute : string) : bool :=
  (subRoute =? "") || (subRoute =? "/").

(** The handler passed to [serve]. *)
Definition serve (req : Request.t) : Op Response.t :=
  match handleCors req with
  | Some corsResponse => ret corsResponse
  | None =>
      let pathParts := split_slash (strip_functions_prefix (Request.pathname req)) in
      let mainRoute := nth 0 pathParts "" in
      let subRoute := nth 1 pathParts "" in
      if negb (mainRoute =? "expenses") then
        respond (new_Response (ErrorBody "Not found" None) 404)
      else if subRoute =? "summary" then
        if Request.method req =? "GET" then respond (new_Response SummaryBody 200)
        else respond (new_Response (ErrorBody "Method not allowed" None) 405)
      else
        match getUserFromRequest req with
        | None => respond unauthorized
        | Some user =>
            try_catch
              (if Request.method req =? "GET" then
                 if is_root subRoute then
                   let params := Request.searchParams req in
                   getExpenses
                     (ExpenseFilters.mk (params_get params "category")
                        (params_get params "start_date")
                        (params_get params "end_date")
                        (params_get params "payment_status"))
                 else if subRoute =? "/categories" then getExpenseCategories
                 else if idRoute_match subRoute then
                   getExpenseById (nth 1 (split_slash subRoute) "")
                 else respond methodNotAllowed
               else if (Request.method req =? "POST") && is_root subRoute then
                 data <- parseRequestBody req ;;
                 createExpense data (User.id user)
               else if (Request.method req =? "PUT") && idRoute_match subRoute then
                 data <- parseRequestBody req ;;
                 updateExpense (nth 1 (split_slash subRoute) "") data
               else if (Request.method req =? "DELETE") && idRoute_match subRoute then
                 deleteExpense (nth 1 (split_slash subRoute) "")
               else respond methodNotAllowed)
              (fun error => respond (errorResponse error None))
        end
  end.

End Handlers.

(** Modelled from the spec: handleCors, the CORS helper of the shared
    module, which is imported by the edge function and not part of it.
    Preflight OPTIONS requests are allowed for all origins and answered by
    the helper; every other request is left to the router. *)
Definition preflight_handleCors (req : Request.t) : option Response.t :=
  if Request.method req =? "OPTIONS"
  then Some (Response.mk 200 (TextBody "ok"))
  else None.

(** The names the router gives to the first two segments of the path. *)
Definition pathParts (req : Request.t) : list string :=
  split_slash (strip_functions_prefix (Request.pathname req)).

Definition mainRoute (req : Request.t) : string := nth 0 (pathParts req) "".

Definition subRoute (req : Request.t) : string := nth 1 (pathParts req) "".

(** The request carries a bearer token that the identity provider resolves
    to the user [u]. *)
Definition bearer_token (env : Env.t) (req : Request.t) (u : User.t) : Prop :=
  exists token,
    Request.authorization req = Some ("Bearer " ++ token)%string
    /\ Env.auth_getUser env token = Some u.

Definition get_request (pathname : string) (authorization : option string)
  : Request.t :=
  Request.mk "GET" pathname [] authorization None (inl "Unexpected end of JSON input").

(** ** Sample data *)

Definition no_fault : StoreCall -> option JsError := fun _ => None.

Definition sample_env : Env.t :=
  Env.mk no_fault "e-1" "2024-01-01T00:00:00Z" "2024-01-01T00:00:01.000Z"
    (fun token => if token =? "good-token" then Some (User.mk "user-7") else None).

Definition alice : Employee.t :=
  Employee.mk "11111111-1111-1111-1111-111111111111" "Alice".

Definition rent_body : Partial.t :=
  Partial.mk (Some "2024-01-01") (Some (100 # 1)) (Some rent) (Some "Office rent")
    None None None None (Some "11111111-1111-1111-1111-111111111111").

Definition sample_store : Store.t := Store.mk [] [alice] [].

Definition completed_body : Partial.t :=
  Partial.set_payment_status rent_body completed.

Definition only_payment_status : Partial.t :=
  Partial.mk None None None None (Some completed) None None None None.

Definition rent_expense (status : PaymentStatus) : Expense.t :=
  Expense.mk "e-1" "2024-01-01" (100 # 1) rent "Office rent" status None None None
    "11111111-1111-1111-1111-111111111111" (Some "2024-01-01T00:00:00Z").

Definition bob : Employee.t :=
  Employee.mk "22222222-2222-2222-2222-222222222222" "Bob".

Definition store_with (e : Expense.t) : Store.t := Store.mk [e] [alice; bob] [].

(** A full payload that completes the payment and moves the expense to
    another employee. *)
Definition reassigned_body : Partial.t :=
  Partial.mk (Some "2024-01-01") (Some (100 # 1)) (Some rent) (Some "Office rent")
    (Some completed) None None None (Some "22222222-2222-2222-2222-222222222222").

Definition world0 (s : Store.t) : World.t := World.mk s [].

Definition directory_error : JsError :=
  ErrorObject "employee directory unavailable" (Some "08006").

(** An environment whose store fails every lookup in [employees]. *)
Definition directory_down : Env.t :=
  Env.mk (fun c => match c with
                   | SelectEmployeesIn _ | SelectEmployeeById _ =>
                       Some directory_error
                   | _ => None
                   end)
    "e-1" "2024-01-01T00:00:00Z" "2024-01-01T00:00:01.000Z"
    (Env.auth_getUser sample_env).

Definition no_filters : ExpenseFilters.t := ExpenseFilters.mk None None None None.

(** An environment whose store refuses every insert into [transactions]. *)
Definition ledger_down : Env.t :=
  Env.mk (fun c => match c with
                   | InsertTransaction _ =>
                       Some (ErrorObject "ledger unavailable" (Some "08006"))
                   | _ => None
                   end)
    "e-1" "2024-01-01T00:00:00Z" "2024-01-01T00:00:01.000Z"
    (Env.auth_getUser sample_env).

(** ** The validator's contract, in the words of the specification *)

Inductive Field :=
| FieldDate | FieldAmount | FieldCategory | FieldDescription | FieldEmployeeId.

(** The order in which the fields are checked. *)
Definition rank (f : Field) : nat :=
  match f with
  | FieldDate => 1
  | FieldAmount => 2
  | FieldCategory => 3
  | FieldDescription => 4
  | FieldEmployeeId => 5
  end.

(** A text field is present when it is supplied and not empty. *)
Definition present (o : option string) : Prop :=
  exists s, o = Some s /\ s <> "".

Definition hex_digit (c : ascii) : bool :=
  existsb (Ascii.eqb c) (list_ascii_of_string "0123456789abcdefABCDEF").

Definition hex_group (n : nat) (g : string) : Prop :=
  String.length g = n /\ all_chars hex_digit g = true.

(** The UUID shape: five groups of 8, 4, 4, 4 and 12 hexadecimal digits of
    either case, separated by hyphens. *)
Definition uuid_shape (s : string) : Prop :=
  exists a b c d e,
    s = (a ++ "-" ++ b ++ "-" ++ c ++ "-" ++ d ++ "-" ++ e)%string
    /\ hex_group 8 a /\ hex_group 4 b /\ hex_group 4 c
    /\ hex_group 4 d /\ hex_group 12 e.

(** The five checks of the validator. *)
Definition check (f : Field) (e : Partial.t) : Prop :=
  match f with
  | FieldDate => present (Partial.date e)
  | FieldAmount => exists a, Partial.amount e = Some a /\ (0 < a)%Q
  | FieldCategory => exists c, Partial.category e = Some c
  | FieldDescription => present (Partial.description e)
  | FieldEmployeeId =>
      present (Partial.employee_id e)
      /\ exists s, Partial.employee_id e = Some s /\ uuid_shape s
  end.

(** [f] is the first check that fails on [e]. *)
Definition first_failing (e : Partial.t) (f : Field) : Prop :=
  ~ check f e /\ forall g, (rank g < rank f)%nat -> check g e.

(** The field a failure message of the validator is about. *)
Definition field_of_message (msg : string) : option Field :=
  if msg =? "Expense date is required" then Some FieldDate
  else if msg =? "Amount must be a positive number" then Some FieldAmount
  else if msg =? "Category is required" then Some FieldCategory
  else if msg =? "Description is required" then Some FieldDescription
  else if msg =? "Employee ID is required" then Some FieldEmployeeId
  else if msg =? "Invalid employee ID format" then Some FieldEmployeeId
  else None.

Definition valid : ExpenseValidation.t := ExpenseValidation.mk true None None.

(** The test the source makes for each field. *)
Definition passes (f : Field) (e : Partial.t) : bool :=
  match f with
  | FieldDate => negb (falsy_string (Partial.date e))
  | FieldAmount =>
      negb (falsy_number (Partial.amount e) || number_le_0 (Partial.amount e))
  | FieldCategory => negb (falsy_enum (Partial.category e))
  | FieldDescription => negb (falsy_string (Partial.description e))
  | FieldEmployeeId =>
      negb (falsy_string (Partial.employee_id e))
      && uuidRegex_test (match Partial.employee_id e with
                         | Some s => s
                         | None => ""
                         end)
  end.

(** ** Observations on a run *)

(** The rows the run asked the store to insert into [transactions]. *)
Definition transaction_inserts (t : list StoreCall) : list TransactionData.t :=
  flat_map (fun c => match c with
                     | InsertTransaction row => [row]
                     | _ => []
                     end) t.

(** Their [(entity_type, entity_id)]. *)
Definition ledger_keys (t : list StoreCall) : list (string * string) :=
  map (fun row => (TransactionData.entity_type row, TransactionData.entity_id row))
      (transaction_inserts t).

(** Those of them the store did not refuse. *)
Definition accepted (env : Env.t) (rows : list TransactionData.t)
  : list TransactionData.t :=
  filter (fun row => match Env.fault env (InsertTransaction row) with
                     | Some _ => false
                     | None => true
                     end) rows.

(** The expense carried by a success response of the given status. *)
Definition mutated_expense (status : Z) (r : JsError + Response.t)
  : option Expense.t :=
  match r with
  | inr resp =>
      match Response.body resp with
      | DataBody (DataExpense x) =>
          if (Response.status resp =? status)%Z
          then Some (ExpenseWithRelations.expense x) else None
      | _ => None
      end
  | inl _ => None
  end.

(** (a) the create succeeded and the new expense is completed. *)
Definition create_trigger (r : JsError + Response.t) : option Expense.t :=
  match mutated_expense 201 r with
  | Some e =>
      if PaymentStatus_eqb (Expense.payment_status e) completed
      then Some e else None
  | None => None
  end.

(** (b) the update succeeded, the payload says completed and the row
    stored before the update did not. *)
Definition update_trigger (before : Store.t) (id : string) (updates : Partial.t)
    (r : JsError + Response.t) : option (Expense.t * Expense.t) :=
  match mutated_expense 200 r, select_expense_by_id id before with
  | Some e, inr old =>
      if is_completed (Partial.payment_status updates)
         && negb (PaymentStatus_eqb (Expense.payment_status old) completed)
      then Some (old, e) else None
  | _, _ => None
  end.

(** A column after an update: the supplied value, or the value before. *)
Definition applied {A : Type} (supplied : option A) (before after : A) : Prop :=
  match supplied with
  | Some v => after = v
  | None => after = before
  end.

Definition applied_opt {A : Type} (supplied : option A) (before after : option A)
  : Prop :=
  match supplied with
  | Some v => after = Some v
  | None => after = before
  end.

(** The status of the response a run returned, if it returned one. *)
Definition status_of (r : JsError + Response.t) : option Z :=
  match r with
  | inr resp => Some (Response.status resp)
  | inl _ => None
  end.

(** The expenses a list response carries, with or without employees. *)
Definition listed_expenses (r : JsError + Response.t) : option (list Expense.t) :=
  match r with
  | inr resp =>
      match Response.body resp with
      | DataBody (DataExpenses l) => Some l
      | DataBody (DataExpensesWithRelations l) =>
          Some (map ExpenseWithRelations.expense l)
      | _ => None
      end
  | inl _ => None
  end.

(** The body a create inserts: the body received, with the payment
    status set to pending when it has none. *)
Definition with_default_status (body : Partial.t) : Partial.t :=
  if falsy_enum (Partial.payment_status body)
  then Partial.set_payment_status body pending
  else body.

(** What the lookup of an expense by id gives a handler: the failure of
    the call, or the answer of [.single()]. *)
Definition expense_lookup (env : Env.t) (id : string) (s : Store.t)
  : JsError + Expense.t :=
  match Env.fault env (SelectExpenseById id) with
  | Some j => inl j
  | None => select_expense_by_id id s
  end.

(** The answer of the by-id handlers to a failed lookup. *)
Definition lookup_failure_answer (j : JsError) : Response.t :=
  if is_PGRST116 j
  then Response.mk 404 (ErrorBody "Expense not found"
                          (Some (ErrorObject "Expense not found" None)))
  else Response.mk 400 (handleError j).

(** A store with two rows under one id. *)
Definition twin_store : Store.t :=
  Store.mk [rent_expense pending; rent_expense completed] [alice] [].

(** A payload that changes the amount and completes the payment by card. *)
Definition repriced_body : Partial.t :=
  Partial.mk (Some "2024-01-01") (Some (250 # 1)) (Some rent) (Some "Office rent")
    (Some completed) (Some card) None None
    (Some "11111111-1111-1111-1111-111111111111").

(** A path segment: a string without a slash. *)
Definition no_slash (s : string) : bool :=
  all_chars (fun c => negb (nat_of_ascii c =? 47)%nat) s.

(** [parts.join('/')] *)
Definition join_slash (parts : list string) : string := String.concat "/" parts.

(** A filter that is absent or empty lets every expense through. *)
Definition passes_filter (o : option string) (p : string -> bool) : bool :=
  match o with
  | Some v => (v =? "") || p v
  | None => true
  end.

(** An expense matches the filters of a list request: its category and
    payment status are the ones asked for and its date lies between the
    two bounds, both included. *)
Definition matches_filters (f : ExpenseFilters.t) (e : Expense.t) : bool :=
  passes_filter (ExpenseFilters.category f)
    (fun v => ExpenseCategory_to_string (Expense.category e) =? v)
  && passes_filter (ExpenseFilters.startDate f)
       (fun v => String.leb v (Expense.date e))
  && passes_filter (ExpenseFilters.endDate f)
       (fun v => String.leb (Expense.date e) v)
  && passes_filter (ExpenseFilters.paymentStatus f)
       (fun v => PaymentStatus_to_string (Expense.payment_status e) =? v).

(** [a] comes before [b] in a list by date descending. *)
Definition date_desc (a b : Expense.t) : Prop :=
  String.leb (Expense.date b) (Expense.date a) = true.

(** The employees a list response attaches, if it attaches any. *)
Definition listed_relations (r : JsError + Response.t)
  : option (list ExpenseWithRelations.t) :=
  match r with
  | inr resp =>
      match Response.body resp with
      | DataBody (DataExpensesWithRelations l) => Some l
      | _ => None
      end
  | inl _ => None
  end.

(** The ids a run asked the employees table for in one batch. *)
Definition batch_lookups (t : list StoreCall) : list (list string) :=
  flat_map (fun c => match c with
                     | SelectEmployeesIn ids => [ids]
                     | _ => []
                     end) t.

Definition february_expense : Expense.t :=
  Expense.mk "e-2" "2024-02-01" (40 # 1) utilities "Water" completed (Some cash)
    None None "" (Some "2024-02-01T00:00:00Z").

Definition two_expenses : Store.t :=
  Store.mk [rent_expense pending; february_expense] [alice; bob] [].

(** The invariant of a stored expense: a date and a description that are
    not empty, a positive amount, an employee id of the UUID shape. *)
Definition well_formed (e : Expense.t) : Prop :=
  Expense.date e <> ""
  /\ (0 < Expense.amount e)%Q
  /\ Expense.description e <> ""
  /\ uuid_shape (Expense.employee_id e).

(** ** The expenses service of the front end

    The functions of the service call the core API ([expensesApi]), which
    is imported: its six functions are parameters here.  A call of the
    API resolves to a response [{ data?, error? }] or rejects; a function
    of the service returns or throws. *)
Module ExpensesService.

(** [interface CreateExpenseRequest] *)
Module CreateExpenseRequest.
Record t := mk {
  date : string;
  amount : Q;
  category : string;
  description : string;
  payment_status : string;
  payment_method : option string;
  invoice_number : option string;
  notes : option string
}.
End CreateExpenseRequest.

(** [interface UpdateExpenseRequest] *)
Module UpdateExpenseRequest.
Record t := mk {
  date : option string;
  amount : option Q;
  category : option string;
  description : option string;
  payment_status : option string;
  payment_method : option string;
  invoice_number : option string;
  notes : option string
}.
End UpdateExpenseRequest.

(** The object [createExpense] hands to the API. *)
Module CreateData.
Record t := mk {
  category : string;
  amount : Q;
  description : string;
  payment_status : string;
  payment_date : string;
  receipt_number : option string;
  created_by : string
}.
End CreateData.

(** The object [updateExpense] hands to the API: a key is there or not. *)
Module UpdateData.
Record t := mk {
  category : option string;
  amount : option Q;
  description : option string;
  payment_status : option string;
  payment_date : option string;
  receipt_number : option string
}.
End UpdateData.

(** [{ data?, error? }] *)
Module ApiResponse.
Record t (A : Type) := mk { data : option A; error : option string }.
Arguments mk {A}.
Arguments data {A}.
Arguments error {A}.
End ApiResponse.

(** [...(s && { key: s })] for an optional string: the key is there when
    the string is there and not empty. *)
Definition truthy_string (o : option string) : option string :=
  match o with
  | Some s => if s =? "" then None else Some s
  | None => None
  end.

(** The same for an optional number: there and not zero. *)
Definition truthy_number (o : option Q) : option Q :=
  match o with
  | Some q => if Qeq_bool q 0 then None else Some q
  | None => None
  end.

(** [if (response.error) throw new Error(response.error.message)], then
    the continuation on the data; [catch (err) { ...; throw err }] throws
    again what was caught, which leaves the outcome as it is. *)
Definition settle {A B : Type} (call : JsError + ApiResponse.t A)
    (result : option A -> B) : JsError + B :=
  match call with
  | inl rejected => inl rejected
  | inr response =>
      match ApiResponse.error response with
      | Some message => inl (ErrorObject message None)
      | None => inr (result (ApiResponse.data response))
      end
  end.

Section Api.

Variable Expense : Type.
Variable Filters : Type.
Variable api_getExpenses : option Filters -> JsError + ApiResponse.t (list Expense).
Variable api_getExpenseById : string -> JsError + ApiResponse.t Expense.
Variable api_getExpenseCategories : JsError + ApiResponse.t (list string).
Variable api_createExpense : CreateData.t -> JsError + ApiResponse.t Expense.
Variable api_updateExpense : string -> UpdateData.t -> JsError + ApiResponse.t Expense.
Variable api_deleteExpense : string -> JsError + ApiResponse.t unit.

(** [fetchExpenses]: [response.data || []] *)
Definition fetchExpenses (filters : option Filters) : JsError + list Expense :=
  settle (api_getExpenses filters)
    (fun data => match data with Some l => l | None => [] end).

(** [fetchExpenseById]: [response.data || null] *)
Definition fetchExpenseById (id : string) : JsError + option Expense :=
  settle (api_getExpenseById id) (fun data => data).

(** [fetchExpenseCategories]: [response.data || []] *)
Definition fetchExpenseCategories : JsError + list string :=
  settle api_getExpenseCategories
    (fun data => match data with Some l => l | None => [] end).

(** The object literal of [createExpense]. *)
Definition create_data (expense : CreateExpenseRequest.t) : CreateData.t :=
  CreateData.mk
    (CreateExpenseRequest.category expense)
    (CreateExpenseRequest.amount expense)
    (CreateExpenseRequest.description expense)
    (CreateExpenseRequest.payment_status expense)
    (CreateExpenseRequest.date expense)
    (CreateExpenseRequest.invoice_number expense)
    "".

(** [createExpense]: [response.data!] *)
Definition createExpense (expense : CreateExpenseRequest.t)
  : JsError + option Expense :=
  settle (api_createExpense (create_data expense)) (fun data => data).

(** The object literal of [updateExpense]. *)
Definition update_data (expense : UpdateExpenseRequest.t) : UpdateData.t :=
  UpdateData.mk
    (truthy_string (UpdateExpenseRequest.category expense))
    (truthy_number (UpdateExpenseRequest.amount expense))
    (truthy_string (UpdateExpenseRequest.description expense))
    (truthy_string (UpdateExpenseRequest.payment_status expense))
    (truthy_string (UpdateExpenseRequest.date expense))
    (truthy_string (UpdateExpenseRequest.invoice_number expense)).

(** [updateExpense]: [response.data!] *)
Definition updateExpense (id : string) (expense : UpdateExpenseRequest.t)
  : JsError + option Expense :=
  settle (api_updateExpense id (update_data expense)) (fun data => data).

(** [deleteExpense] *)
Definition deleteExpense (id : string) : JsError + unit :=
  settle (api_deleteExpense id) (fun _ => tt).

End Api.

(** Two update requests say the same to the API: they agree on the six
    fields it is sent, a field that is empty or zero counting as absent. *)
Definition same_update (a b : UpdateExpenseRequest.t) : Prop :=
  truthy_string (UpdateExpenseRequest.category a)
  = truthy_string (UpdateExpenseRequest.category b)
  /\ truthy_number (UpdateExpenseRequest.amount a)
     = truthy_number (UpdateExpenseRequest.amount b)
  /\ truthy_string (UpdateExpenseRequest.description a)
     = truthy_string (UpdateExpenseRequest.description b)
  /\ truthy_string (UpdateExpenseRequest.payment_status a)
     = truthy_string (UpdateExpenseRequest.payment_status b)
  /\ truthy_string (UpdateExpenseRequest.date a)
     = truthy_string (UpdateExpenseRequest.date b)
  /\ truthy_string (UpdateExpenseRequest.invoice_number a)
     = truthy_string (UpdateExpenseRequest.invoice_number b).

End ExpensesService.

(** ** The form field components

    [FormMessage] is a function of its props and of the context a
    [FormField] provides.  A React node is a value of a type
    [Node] with its JavaScript truthiness; what a component returns is
    described by what it shows. *)
Module FormField.

(** An entry of [form.formState.errors], or the [error] prop. *)
Module FieldError.
Record t := mk { message : option string }.
End FieldError.

(** [FormFieldContextValue]: the name of the field and, of the form, the
    errors of its state. *)
Module Context.
Record t := mk { name : string; errors : string -> option FieldError.t }.
End Context.

Section Components.

Variable Node : Type.
Variable truthy : Node -> bool.

(** What [FormMessage] returns: nothing, or a paragraph with the children
    or with a message. *)
Inductive Shown :=
| Nothing
| Children (children : Node)
| Message (message : string).

(** [useFormField] *)
Definition useFormField (context : option Context.t) : JsError + Context.t :=
  match context with
  | Some c => inr c
  | None => inl (ErrorObject "useFormField must be used within a FormField" None)
  end.

Definition shown_children (children : option Node) : option Node :=
  match children with
  | Some n => if truthy n then Some n else None
  | None => None
  end.

(** [FormMessage]; the [error] prop, when given, is an object. *)
Definition FormMessage (context : option Context.t) (error : option FieldError.t)
    (children : option Node) : JsError + Shown :=
  match useFormField context with
  | inl e => inl e
  | inr c =>
      let fieldError :=
        match error with
        | Some e => Some e
        | None => Context.errors c (Context.name c)
        end in
      let message :=
        match fieldError with
        | Some e => FieldError.message e
        | None => None
        end in
      match shown_children children, ExpensesService.truthy_string message with
      | None, None => inr Nothing
      | Some n, _ => inr (Children n)
      | None, Some m => inr (Message m)
      end
  end.

End Components.

End FormField.

(* ================================================================== *)
(** * Properties *)
(* ================================================================== *)

(** ** Characters and the UUID pattern *)

Lemma is_hex_hex_digit (c : ascii) : is_hex c = hex_digit c.
Proof. destruct c as [[] [] [] [] [] [] [] []]; reflexivity. Qed.

Lemma all_chars_ext (p q : ascii -> bool) (s : string) :
  (forall c, p c = q c) -> all_chars p s = all_chars q s.
Proof.
  intros E. induction s as [|c s IH]; simpl; [reflexivity|].
  now rewrite E, IH.
Qed.

Lemma hyphen_char (c : ascii) :
  (nat_of_ascii c =? 45)%nat = true <-> c = "-"%char.
Proof.
  rewrite Nat.eqb_eq. split.
  - intros H. rewrite <- (ascii_nat_embedding c), H. reflexivity.
  - intros ->. reflexivity.
Qed.

Lemma hyphen_spec (s r : string) :
  hyphen s = Some r <-> s = String "-" r.
Proof.
  destruct s as [|c s]; simpl.
  - split; discriminate.
  - destruct (nat_of_ascii c =? 45)%nat eqn:E.
    + apply hyphen_char in E. subst c. split; intros H; inversion H; reflexivity.
    + split; [discriminate|]. intros H. inversion H; subst.
      discriminate E.
Qed.

Lemma hyphen_append (r : string) : hyphen ("-" ++ r) = Some r.
Proof. reflexivity. Qed.

Lemma hex_run_spec (n : nat) : forall s r,
  hex_run n s = Some r <->
  exists g, s = (g ++ r)%string /\ String.length g = n /\ all_chars is_hex g = true.
Proof.
  induction n as [|n IH]; intros s r; simpl.
  - split.
    + intros H. inversion H; subst. exists ""; auto.
    + intros (g & -> & L & _). destruct g; [reflexivity|discriminate].
  - destruct s as [|c s].
    + split; [discriminate|]. intros (g & E & L & _).
      destruct g; discriminate.
    + destruct (is_hex c) eqn:Hc.
      * rewrite IH. split.
        -- intros (g & -> & L & A). exists (String c g). simpl.
           rewrite Hc, A, L. auto.
        -- intros (g & E & L & A). destruct g as [|c' g]; [discriminate|].
           simpl in *. inversion E; subst. rewrite Hc in A.
           exists g. repeat split; auto.
      * split; [discriminate|]. intros (g & E & L & A).
        destruct g as [|c' g]; [discriminate|]. simpl in *.
        inversion E; subst. rewrite Hc in A. discriminate.
Qed.

Lemma hex_group_run (n : nat) (g r : string) :
  hex_group n g -> hex_run n (g ++ r) = Some r.
Proof.
  intros [L A]. apply hex_run_spec. exists g. repeat split; auto.
  rewrite <- A. apply all_chars_ext, is_hex_hex_digit.
Qed.

Lemma run_hex_group (n : nat) (s r : string) :
  hex_run n s = Some r -> exists g, s = (g ++ r)%string /\ hex_group n g.
Proof.
  intros H. apply hex_run_spec in H as (g & E & L & A).
  exists g. repeat split; auto.
  rewrite <- A. symmetry. apply all_chars_ext, is_hex_hex_digit.
Qed.

Lemma append_empty_r (s : string) : (s ++ "")%string = s.
Proof. induction s as [|c s IH]; simpl; [reflexivity|now rewrite IH]. Qed.

(** The test of the source accepts exactly the strings of the UUID shape. *)
Lemma uuidRegex_test_spec (s : string) :
  uuidRegex_test s = true <-> uuid_shape s.
Proof.
  unfold uuidRegex_test, uuid_shape. split.
  - destruct (hex_run 8 s) as [r1|] eqn:E1; cbn [and_then]; [|discriminate].
    destruct (hyphen r1) as [r2|] eqn:E2; cbn [and_then]; [|discriminate].
    destruct (hex_run 4 r2) as [r3|] eqn:E3; cbn [and_then]; [|discriminate].
    destruct (hyphen r3) as [r4|] eqn:E4; cbn [and_then]; [|discriminate].
    destruct (hex_run 4 r4) as [r5|] eqn:E5; cbn [and_then]; [|discriminate].
    destruct (hyphen r5) as [r6|] eqn:E6; cbn [and_then]; [|discriminate].
    destruct (hex_run 4 r6) as [r7|] eqn:E7; cbn [and_then]; [|discriminate].
    destruct (hyphen r7) as [r8|] eqn:E8; cbn [and_then]; [|discriminate].
    destruct (hex_run 12 r8) as [r9|] eqn:E9; cbn [and_then]; [|discriminate].
    destruct r9; [|discriminate]. intros _.
    apply run_hex_group in E1 as (a & -> & Ha).
    apply run_hex_group in E3 as (b & -> & Hb).
    apply run_hex_group in E5 as (c & -> & Hc).
    apply run_hex_group in E7 as (d & -> & Hd).
    apply run_hex_group in E9 as (e & -> & He).
    apply hyphen_spec in E2, E4, E6, E8. subst.
    exists a, b, c, d, e. rewrite append_empty_r. simpl. auto 10.
  - intros (a & b & c & d & e & -> & Ha & Hb & Hc & Hd & He).
    rewrite (hex_group_run 8 a _ Ha). cbn [and_then].
    rewrite hyphen_append. cbn [and_then].
    rewrite (hex_group_run 4 b _ Hb). cbn [and_then].
    rewrite hyphen_append. cbn [and_then].
    rewrite (hex_group_run 4 c _ Hc). cbn [and_then].
    rewrite hyphen_append. cbn [and_then].
    rewrite (hex_group_run 4 d _ Hd). cbn [and_then].
    rewrite hyphen_append. cbn [and_then].
    rewrite <- (append_empty_r e) at 1.
    rewrite (hex_group_run 12 e _ He). reflexivity.
Qed.

(** ** The validator *)

Lemma falsy_string_present (o : option string) :
  falsy_string o = false <-> present o.
Proof.
  unfold present. destruct o as [s|]; simpl.
  - rewrite String.eqb_neq. split.
    + intros H. exists s. auto.
    + intros (s' & E & N). inversion E; subst. exact N.
  - split; [discriminate|]. intros (s & E & _). discriminate.
Qed.

Lemma positive_amount (o : option Q) :
  falsy_number o || number_le_0 o = false <-> exists a, o = Some a /\ (0 < a)%Q.
Proof.
  destruct o as [a|]; simpl.
  - rewrite orb_false_iff. split.
    + intros [_ L]. exists a. split; [reflexivity|].
      apply Qnot_le_lt. intros C. apply Qle_bool_iff in C. congruence.
    + intros (a' & E & P). inversion E; subst a'. split.
      * destruct (Qeq_bool a 0) eqn:Z; [|reflexivity].
        apply Qeq_bool_iff in Z. rewrite Z in P. now apply Qlt_irrefl in P.
      * destruct (Qle_bool a 0) eqn:L; [|reflexivity].
        apply Qle_bool_iff in L. now apply Qlt_not_le in P.
  - split; [discriminate|]. intros (a & E & _). discriminate.
Qed.

Lemma passes_check (f : Field) (e : Partial.t) :
  passes f e = true <-> check f e.
Proof.
  destruct f; simpl.
  - rewrite negb_true_iff. apply falsy_string_present.
  - rewrite negb_true_iff. apply positive_amount.
  - destruct (Partial.category e) as [c|]; simpl.
    + split; eauto.
    + split; [discriminate|]. intros [c E]. discriminate.
  - rewrite negb_true_iff. apply falsy_string_present.
  - rewrite andb_true_iff, negb_true_iff, falsy_string_present.
    rewrite uuidRegex_test_spec. split.
    + intros [P U]. split; [exact P|].
      destruct P as (s & E & N). rewrite E in U. eauto.
    + intros [P (s & E & U)]. split; [exact P|]. rewrite E. exact U.
Qed.

Lemma passes_false_check (f : Field) (e : Partial.t) :
  passes f e = false <-> ~ check f e.
Proof.
  rewrite <- passes_check. destruct (passes f e); split; congruence.
Qed.

(** The validator, read as a cascade over the five tests. *)
Lemma validateExpense_cascade (e : Partial.t) :
  validateExpense e =
  if negb (passes FieldDate e) then invalid "Expense date is required"
  else if negb (passes FieldAmount e) then invalid "Amount must be a positive number"
  else if negb (passes FieldCategory e) then invalid "Category is required"
  else if negb (passes FieldDescription e) then invalid "Description is required"
  else if negb (passes FieldEmployeeId e) then
    invalid (if falsy_string (Partial.employee_id e)
             then "Employee ID is required" else "Invalid employee ID format")
  else valid.
Proof.
  unfold validateExpense, passes, valid.
  destruct (falsy_string (Partial.date e)); [reflexivity|].
  destruct (falsy_number (Partial.amount e) || number_le_0 (Partial.amount e));
    [reflexivity|].
  destruct (falsy_enum (Partial.category e)); [reflexivity|].
  destruct (falsy_string (Partial.description e)); [reflexivity|].
  destruct (falsy_string (Partial.employee_id e)); [reflexivity|].
  simpl. destruct (uuidRegex_test _); reflexivity.
Qed.

Lemma validateExpense_valid_iff (e : Partial.t) :
  ExpenseValidation.isValid (validateExpense e) = true <->
  forall f, passes f e = true.
Proof.
  rewrite validateExpense_cascade. split.
  - intros H f.
    destruct (passes FieldDate e) eqn:P1; [|discriminate H].
    destruct (passes FieldAmount e) eqn:P2; [|discriminate H].
    destruct (passes FieldCategory e) eqn:P3; [|discriminate H].
    destruct (passes FieldDescription e) eqn:P4; [|discriminate H].
    destruct (passes FieldEmployeeId e) eqn:P5; [|discriminate H].
    destruct f; assumption.
  - intros H.
    rewrite (H FieldDate), (H FieldAmount), (H FieldCategory),
            (H FieldDescription), (H FieldEmployeeId).
    reflexivity.
Qed.

(** A refusal of the validator is a 400 with the validator's message. *)
Lemma validation_error_400 (p : Partial.t) :
  ExpenseValidation.isValid (validateExpense p) = false ->
  exists msg,
    validateExpense p = ExpenseValidation.mk false (Some msg) (Some 400%Z)
    /\ validation_error (validateExpense p)
       = inr (Response.mk 400 (ErrorBody msg (Some (ErrorObject msg None)))).
Proof.
  rewrite validateExpense_cascade. unfold valid, invalid.
  destruct (passes FieldDate p); cbn [negb];
    [|intros _; eexists; split; reflexivity].
  destruct (passes FieldAmount p); cbn [negb];
    [|intros _; eexists; split; reflexivity].
  destruct (passes FieldCategory p); cbn [negb];
    [|intros _; eexists; split; reflexivity].
  destruct (passes FieldDescription p); cbn [negb];
    [|intros _; eexists; split; reflexivity].
  destruct (passes FieldEmployeeId p); cbn [negb];
    [discriminate|intros _; eexists; split; reflexivity].
Qed.

(** C4.  The validator checks, in this order and stopping at the first
    failure: date present, amount present and positive, category present,
    description present, employee id present and of the UUID shape (a text
    field counts as present when it is supplied and not empty).  A payload
    that passes the five checks is valid; otherwise the answer is status
    400 with a message about the first check that fails. *)
Theorem validateExpense_checks_in_order (e : Partial.t) :
  ((forall f, check f e) -> validateExpense e = valid)
  /\ (forall f, first_failing e f ->
        exists msg,
          validateExpense e = ExpenseValidation.mk false (Some msg) (Some 400%Z)
          /\ field_of_message msg = Some f).
Proof.
  split.
  - intros A. rewrite validateExpense_cascade.
    rewrite (proj2 (passes_check FieldDate e) (A _)),
            (proj2 (passes_check FieldAmount e) (A _)),
            (proj2 (passes_check FieldCategory e) (A _)),
            (proj2 (passes_check FieldDescription e) (A _)),
            (proj2 (passes_check FieldEmployeeId e) (A _)).
    reflexivity.
  - intros f [F B]. apply passes_false_check in F.
    assert (P : forall g, (rank g < rank f)%nat -> passes g e = true)
      by (intros g L; apply passes_check, B, L).
    rewrite validateExpense_cascade.
    destruct f; simpl in P; rewrite F;
      repeat match goal with
             | |- context [passes ?g e] =>
                 rewrite (P g) by (simpl; lia)
             end; cbn [negb]; unfold invalid.
    + eexists; split; reflexivity.
    + eexists; split; reflexivity.
    + eexists; split; reflexivity.
    + eexists; split; reflexivity.
    + destruct (falsy_string (Partial.employee_id e));
        eexists; split; reflexivity.
Qed.

(** A valid body, and a body whose first failing check is the amount (the
    category is missing as well). *)
Lemma validateExpense_checks_in_order_witness :
  validateExpense rent_body = valid
  /\ exists msg,
       validateExpense
         (Partial.mk (Some "2024-01-01") (Some (0 # 1)) None (Some "Office rent")
            None None None None None)
       = ExpenseValidation.mk false (Some msg) (Some 400%Z)
       /\ field_of_message msg = Some FieldAmount.
Proof.
  split.
  - apply (proj1 (validateExpense_checks_in_order rent_body)).
    intros f. apply passes_check. destruct f; reflexivity.
  - apply (proj2 (validateExpense_checks_in_order _) FieldAmount).
    split.
    + apply passes_false_check. reflexivity.
    + intros g L. apply passes_check.
      destruct g; simpl in L; try reflexivity; lia.
Defined.

(** ** Running a handler *)

Lemma new_row_Some (i c : string) (p : Partial.t) (e : Expense.t) :
  new_row i c p = Some e ->
  Expense.id e = i
  /\ Partial.payment_status p = Some (Expense.payment_status e)
  /\ Partial.employee_id p = Some (Expense.employee_id e).
Proof.
  unfold new_row.
  destruct (Partial.date p), (Partial.amount p), (Partial.category p),
    (Partial.description p), (Partial.payment_status p), (Partial.employee_id p);
    try discriminate.
  intros H. inversion H; subst; cbn. auto.
Qed.

Lemma apply_updates_id (u : Partial.t) (e : Expense.t) :
  Expense.id (apply_updates u e) = Expense.id e.
Proof. reflexivity. Qed.

Lemma filter_has_id_updated (id : string) (u : Partial.t) (l : list Expense.t) :
  filter (has_id id) (map (fun e => if has_id id e then apply_updates u e else e) l)
  = map (apply_updates u) (filter (has_id id) l).
Proof.
  induction l as [|e l IH]; simpl; [reflexivity|].
  destruct (has_id id e) eqn:H; simpl.
  - unfold has_id in *. rewrite apply_updates_id, H. simpl. now rewrite IH.
  - rewrite H. exact IH.
Qed.

Lemma single_inr {A : Type} (l : list A) (a : A) :
  single l = inr a -> l = [a].
Proof.
  destruct l as [|x [|y l]]; simpl; intros H; inversion H; reflexivity.
Qed.

(** On an id that names one row, the store's update returns that row with
    the updates applied. *)
Lemma update_expense_existing (id : string) (u : Partial.t) (s : Store.t)
    (old : Expense.t) :
  select_expense_by_id id s = inr old ->
  update_expense id u s =
  (inr (apply_updates u old),
   Store.mk (map (fun e => if has_id id e then apply_updates u e else e)
                 (Store.expenses s))
            (Store.employees s) (Store.transactions s)).
Proof.
  unfold select_expense_by_id, update_expense. intros H.
  apply single_inr in H. now rewrite filter_has_id_updated, H.
Qed.

Arguments PaymentStatus_eqb : simpl never.
Arguments is_completed : simpl never.
Arguments update_expense : simpl never.

(** One step of symbolic execution: decide the next test the handler makes. *)
Ltac step :=
  match goal with
  | H : ?x = _ |- context [match ?x with _ => _ end] => rewrite H
  | H : ?x = _ |- context [if ?x then _ else _] => rewrite H
  | |- context [ExpenseValidation.isValid (validateExpense ?b)] =>
      let V := fresh "V" in
      let msg := fresh "msg" in
      let R := fresh "R" in
      destruct (ExpenseValidation.isValid (validateExpense b)) eqn:V;
      [|destruct (validation_error_400 b V) as (msg & _ & R); rewrite R]
  | |- context [falsy_enum (Partial.payment_status ?b)] =>
      destruct (Partial.payment_status b) eqn:?
  | |- context [match Env.fault ?e ?c with _ => _ end] =>
      destruct (Env.fault e c) eqn:?
  | |- context [match new_row ?a ?b ?c with _ => _ end] =>
      destruct (new_row a b c) eqn:?
  | H : select_expense_by_id ?id ?s = inr _ |- context [update_expense ?id ?u ?s] =>
      rewrite (update_expense_existing id u s _ H)
  | |- context [match select_employee_by_id ?a ?b with _ => _ end] =>
      destruct (select_employee_by_id a b) eqn:?
  | |- context [match select_expense_by_id ?a ?b with _ => _ end] =>
      destruct (select_expense_by_id a b) eqn:?
  | |- context [if is_PGRST116 ?e then _ else _] =>
      destruct (is_PGRST116 e) eqn:?
  | |- context [if is_completed ?e then _ else _] =>
      destruct (is_completed e) eqn:?
  | |- context [if is_completed ?e && ?c then _ else _] =>
      destruct (is_completed e && c) eqn:?
  | |- context [if PaymentStatus_eqb ?a ?b then _ else _] =>
      destruct (PaymentStatus_eqb a b) eqn:?
  end.

Ltac exec :=
  unfold createExpense, updateExpense, deleteExpense, getExpenseById,
    createExpenseTransaction, try_catch, bind, call, throw, ret, respond,
    query, insert_expense, insert_transaction, delete_expense, world0;
  cbn; repeat (step; cbn).

Lemma mutated_expense_error (st st' : Z) (j : JsError) :
  mutated_expense st (inr (Response.mk st' (handleError j))) = None.
Proof. destruct j; reflexivity. Qed.

Lemma create_trigger_error (st : Z) (j : JsError) :
  create_trigger (inr (Response.mk st (handleError j))) = None.
Proof. unfold create_trigger. now rewrite mutated_expense_error. Qed.

Lemma update_trigger_error (s : Store.t) (id : string) (u : Partial.t)
    (st : Z) (j : JsError) :
  update_trigger s id u (inr (Response.mk st (handleError j))) = None.
Proof. unfold update_trigger. now rewrite mutated_expense_error. Qed.

Lemma is_completed_Some (st : PaymentStatus) :
  is_completed (Some st) = PaymentStatus_eqb st completed.
Proof. reflexivity. Qed.

Lemma PaymentStatus_eqb_eq (a b : PaymentStatus) :
  PaymentStatus_eqb a b = true <-> a = b.
Proof. destruct a, b; vm_compute; split; congruence. Qed.

Lemma PaymentStatus_eqb_neq (a b : PaymentStatus) :
  PaymentStatus_eqb a b = false <-> a <> b.
Proof. destruct a, b; vm_compute; split; congruence. Qed.

(** What the run learnt about payment statuses, as equations. *)
Ltac status_facts :=
  repeat match goal with
         | H : new_row _ _ _ = Some _ |- _ =>
             apply new_row_Some in H; cbn in H; destruct H as (? & ? & ?)
         | H : Partial.payment_status ?b = _, H' : context [Partial.payment_status ?b] |- _ =>
             rewrite H in H'
         | H : is_completed (Some _) = _ |- _ => rewrite is_completed_Some in H
         | H : is_completed None = _ |- _ => unfold is_completed in H
         | H : PaymentStatus_eqb _ _ = true |- _ => apply PaymentStatus_eqb_eq in H
         | H : PaymentStatus_eqb _ _ = false |- _ => apply PaymentStatus_eqb_neq in H
         | H : _ && _ = true |- _ => apply andb_true_iff in H; destruct H
         | H : negb _ = true |- _ => apply negb_true_iff in H
         | H : negb _ = false |- _ => apply negb_false_iff in H
         | H : Some _ = Some _ |- _ => inversion H; clear H
         end.

(** The transaction inserts of a create: one, for the new expense and in
    the name of the caller, exactly when the create succeeded with a
    completed expense. *)
Lemma createExpense_transaction_inserts (env : Env.t) (s : Store.t)
    (body : Partial.t) (userId : string) :
  let (r, w) := createExpense env body userId (world0 s) in
  transaction_inserts (World.trace w) =
  match create_trigger r with
  | Some e => [transactionData env e userId]
  | None => []
  end.
Proof.
  exec; rewrite ?create_trigger_error; try reflexivity;
    status_facts; congruence.
Qed.

(** The transaction inserts of an update: one, for the updated expense and
    in the name of the employee of the row stored before, exactly when the
    update succeeded, the payload says completed and that row did not. *)
Lemma updateExpense_transaction_inserts (env : Env.t) (s : Store.t)
    (id : string) (updates : Partial.t) :
  let (r, w) := updateExpense env id updates (world0 s) in
  transaction_inserts (World.trace w) =
  match update_trigger s id updates r with
  | Some (old, e) => [transactionData env e (Expense.employee_id old)]
  | None => []
  end.
Proof.
  exec; rewrite ?update_trigger_error; try reflexivity;
    unfold update_trigger; cbn;
    repeat match goal with
           | H : select_expense_by_id _ _ = _ |- _ => rewrite H
           | H : is_completed _ && _ = _ |- _ => rewrite H
           end; reflexivity.
Qed.

(** The [transactions] table after a create or an update: the table
    before, followed by the inserts the store accepted. *)
Lemma createExpense_transactions_table (env : Env.t) (s : Store.t)
    (body : Partial.t) (userId : string) :
  let (r, w) := createExpense env body userId (world0 s) in
  Store.transactions (World.store w) =
  Store.transactions s ++ accepted env (transaction_inserts (World.trace w)).
Proof.
  exec; unfold accepted; cbn;
    repeat match goal with
           | H : Env.fault _ (InsertTransaction _) = _ |- _ => rewrite H
           end;
    now rewrite ?app_nil_r.
Qed.

Lemma updateExpense_transactions_table (env : Env.t) (s : Store.t)
    (id : string) (updates : Partial.t) :
  let (r, w) := updateExpense env id updates (world0 s) in
  Store.transactions (World.store w) =
  Store.transactions s ++ accepted env (transaction_inserts (World.trace w)).
Proof.
  exec; unfold accepted; cbn;
    repeat match goal with
           | H : Env.fault _ (InsertTransaction _) = _ |- _ => rewrite H
           end;
    now rewrite ?app_nil_r.
Qed.

(** The other operations leave the ledger alone. *)
Lemma getExpenses_no_transaction (env : Env.t) (s : Store.t)
    (filters : ExpenseFilters.t) :
  let (r, w) := getExpenses env filters (world0 s) in
  transaction_inserts (World.trace w) = []
  /\ Store.transactions (World.store w) = Store.transactions s.
Proof.
  unfold getExpenses, try_catch, bind, call, throw, ret, query, world0. cbn.
  destruct (Env.fault env _); cbn; [auto|].
  destruct (select_expenses _ s); cbn; [auto|].
  destruct (dedup _); cbn; [auto|].
  destruct (Env.fault env _); cbn; auto.
Qed.

Lemma getExpenseById_no_transaction (env : Env.t) (s : Store.t) (id : string) :
  let (r, w) := getExpenseById env id (world0 s) in
  transaction_inserts (World.trace w) = []
  /\ Store.transactions (World.store w) = Store.transactions s.
Proof. exec; auto. Qed.

Lemma deleteExpense_no_transaction (env : Env.t) (s : Store.t) (id : string) :
  let (r, w) := deleteExpense env id (world0 s) in
  transaction_inserts (World.trace w) = []
  /\ Store.transactions (World.store w) = Store.transactions s.
Proof. exec; auto. Qed.

Lemma getExpenseCategories_no_transaction (s : Store.t) :
  let (r, w) := getExpenseCategories (world0 s) in
  transaction_inserts (World.trace w) = []
  /\ Store.transactions (World.store w) = Store.transactions s.
Proof. cbn. auto. Qed.

(** ** When the ledger is written *)

Lemma update_trigger_completed (s : Store.t) (id : string) (updates : Partial.t)
    (r : JsError + Response.t) (old : Expense.t) :
  select_expense_by_id id s = inr old ->
  Expense.payment_status old = completed ->
  update_trigger s id updates r = None.
Proof.
  intros E C. unfold update_trigger. rewrite E, C.
  destruct (mutated_expense 200 r); [|reflexivity].
  now rewrite andb_comm.
Qed.

(** C1.  A transaction row is written exactly when (a) a create succeeds
    and the new expense is completed, or (b) an update succeeds, its
    payload says completed and the row stored before did not.  In these
    cases the run asks the store for exactly one insert, with entity_type
    "expense" and the id of the expense as entity_id; in every other case,
    and in every other operation, it asks for none.  The transactions
    table is the table before followed by the inserts the store accepted.
    An update of a row that is already completed writes nothing. *)
Theorem transaction_written_exactly_on_trigger (env : Env.t) (s : Store.t) :
  (forall body userId,
      let (r, w) := createExpense env body userId (world0 s) in
      ledger_keys (World.trace w) =
      match create_trigger r with
      | Some e => [("expense", Expense.id e)]
      | None => []
      end
      /\ Store.transactions (World.store w) =
         Store.transactions s ++ accepted env (transaction_inserts (World.trace w)))
  /\ (forall id updates,
      let (r, w) := updateExpense env id updates (world0 s) in
      ledger_keys (World.trace w) =
      match update_trigger s id updates r with
      | Some (_, e) => [("expense", Expense.id e)]
      | None => []
      end
      /\ Store.transactions (World.store w) =
         Store.transactions s ++ accepted env (transaction_inserts (World.trace w)))
  /\ (forall id updates old,
      select_expense_by_id id s = inr old ->
      Expense.payment_status old = completed ->
      let (r, w) := updateExpense env id updates (world0 s) in
      transaction_inserts (World.trace w) = []
      /\ Store.transactions (World.store w) = Store.transactions s)
  /\ (forall filters,
      let (r, w) := getExpenses env filters (world0 s) in
      transaction_inserts (World.trace w) = []
      /\ Store.transactions (World.store w) = Store.transactions s)
  /\ (forall id,
      let (r, w) := getExpenseById env id (world0 s) in
      transaction_inserts (World.trace w) = []
      /\ Store.transactions (World.store w) = Store.transactions s)
  /\ (forall id,
      let (r, w) := deleteExpense env id (world0 s) in
      transaction_inserts (World.trace w) = []
      /\ Store.transactions (World.store w) = Store.transactions s)
  /\ (let (r, w) := getExpenseCategories (world0 s) in
      transaction_inserts (World.trace w) = []
      /\ Store.transactions (World.store w) = Store.transactions s).
Proof.
  split; [|split; [|split; [|split; [|split; [|split]]]]].
  - intros body userId.
    pose proof (createExpense_transaction_inserts env s body userId) as H.
    pose proof (createExpense_transactions_table env s body userId) as T.
    destruct (createExpense env body userId (world0 s)) as [r w].
    split; [|exact T].
    unfold ledger_keys. rewrite H. destruct (create_trigger r); reflexivity.
  - intros id updates.
    pose proof (updateExpense_transaction_inserts env s id updates) as H.
    pose proof (updateExpense_transactions_table env s id updates) as T.
    destruct (updateExpense env id updates (world0 s)) as [r w].
    split; [|exact T].
    unfold ledger_keys. rewrite H.
    destruct (update_trigger s id updates r) as [[old e]|]; reflexivity.
  - intros id updates old E C.
    pose proof (updateExpense_transaction_inserts env s id updates) as H.
    pose proof (updateExpense_transactions_table env s id updates) as T.
    destruct (updateExpense env id updates (world0 s)) as [r w].
    rewrite (update_trigger_completed s id updates r old E C) in H.
    rewrite H in T. cbn in T. rewrite app_nil_r in T. auto.
  - intros filters. apply getExpenses_no_transaction.
  - intros id. apply getExpenseById_no_transaction.
  - intros id. apply deleteExpense_no_transaction.
  - apply getExpenseCategories_no_transaction.
Qed.

(** A completed row updated with a payload that says completed again. *)
Lemma transaction_written_exactly_on_trigger_witness :
  select_expense_by_id "e-1" (store_with (rent_expense completed))
  = inr (rent_expense completed)
  /\ Expense.payment_status (rent_expense completed) = completed
  /\ (let (r, w) := updateExpense sample_env "e-1" completed_body
                      (world0 (store_with (rent_expense completed))) in
      transaction_inserts (World.trace w) = []
      /\ Store.transactions (World.store w)
         = Store.transactions (store_with (rent_expense completed))).
Proof.
  split; [reflexivity|]. split; [reflexivity|].
  apply (proj1 (proj2 (proj2
           (transaction_written_exactly_on_trigger sample_env
              (store_with (rent_expense completed)))))
           "e-1" completed_body (rent_expense completed));
    reflexivity.
Defined.

(** ** A failed ledger write *)

(** Which call of a short trace a given transaction insert is. *)
Ltac find_insert H :=
  cbn in H;
  repeat match type of H with
         | _ \/ _ => destruct H as [H|H]
         | False => contradiction
         | InsertTransaction _ = InsertTransaction _ => inversion H; subst; clear H
         | _ = _ => discriminate H
         end.

(** C7.  When the transaction insert of a create or of an update fails,
    the caller still gets the success response (201 for a create, 200 for
    an update) with the written expense; the expense stays written, the
    transactions table is as before, and the failed insert is the last
    call the run makes to the store: nothing is undone. *)
Theorem transaction_failure_not_surfaced (env : Env.t) (s : Store.t) :
  (forall body userId row j r w,
      createExpense env body userId (world0 s) = (r, w) ->
      In (InsertTransaction row) (World.trace w) ->
      Env.fault env (InsertTransaction row) = Some j ->
      exists e emp,
        r = inr (Response.mk 201
                   (DataBody (DataExpense (ExpenseWithRelations.mk e (Some emp)))))
        /\ Store.expenses (World.store w) = Store.expenses s ++ [e]
        /\ Store.transactions (World.store w) = Store.transactions s
        /\ exists t, World.trace w = t ++ [InsertTransaction row])
  /\ (forall id updates row j r w,
      updateExpense env id updates (world0 s) = (r, w) ->
      In (InsertTransaction row) (World.trace w) ->
      Env.fault env (InsertTransaction row) = Some j ->
      exists old emp,
        select_expense_by_id id s = inr old
        /\ r = inr (Response.mk 200
                      (DataBody (DataExpense
                         (ExpenseWithRelations.mk (apply_updates updates old)
                                                  (Some emp)))))
        /\ Store.expenses (World.store w) =
           map (fun e => if has_id id e then apply_updates updates e else e)
               (Store.expenses s)
        /\ Store.transactions (World.store w) = Store.transactions s
        /\ exists t, World.trace w = t ++ [InsertTransaction row]).
Proof.
  split.
  - intros body userId row j r w. exec.
    all: intros E I F; inversion E; subst; clear E; find_insert I; try congruence.
    all: do 2 eexists; repeat split; eexists; cbn;
      match goal with |- [?a; ?b; ?c] = _ => instantiate (1 := [a; b]) end;
      reflexivity.
  - intros id updates row j r w. exec.
    all: intros E I F; inversion E; subst; clear E; find_insert I; try congruence.
    all: do 2 eexists; repeat split; eexists; cbn;
      match goal with |- [?a; ?b; ?c; ?d] = _ => instantiate (1 := [a; b; c]) end;
      reflexivity.
Qed.

(** A completed create and a completing update against a store whose
    ledger is down. *)
Lemma transaction_failure_not_surfaced_witness :
  (exists e emp,
      fst (createExpense ledger_down completed_body "user-7" (world0 sample_store))
      = inr (Response.mk 201
               (DataBody (DataExpense (ExpenseWithRelations.mk e (Some emp)))))
      /\ Expense.payment_status e = completed)
  /\ (exists emp,
      fst (updateExpense ledger_down "e-1" completed_body
             (world0 (store_with (rent_expense pending))))
      = inr (Response.mk 200
               (DataBody (DataExpense
                  (ExpenseWithRelations.mk
                     (apply_updates completed_body (rent_expense pending))
                     (Some emp)))))).
Proof.
  split.
  - edestruct (proj1 (transaction_failure_not_surfaced ledger_down sample_store)
                 completed_body "user-7")
      as (e & emp & R & X & _).
    + reflexivity.
    + cbn. right. right. left. reflexivity.
    + reflexivity.
    + exists e, emp. split; [exact R|].
      cbn in X. inversion X. reflexivity.
  - edestruct (proj2 (transaction_failure_not_surfaced ledger_down
                        (store_with (rent_expense pending)))
                 "e-1" completed_body)
      as (old & emp & O & R & _).
    + reflexivity.
    + cbn. right. right. right. left. reflexivity.
    + reflexivity.
    + exists emp. cbn in O. inversion O. subst old. exact R.
Defined.

(** ** Creating an expense *)

(** A body the validator accepts has every column a row needs, once its
    payment status is set. *)
Lemma valid_new_row (i c : string) (body : Partial.t) (st : PaymentStatus) :
  ExpenseValidation.isValid (validateExpense body) = true ->
  exists e, new_row i c (Partial.set_payment_status body st) = Some e.
Proof.
  intros V. rewrite validateExpense_valid_iff in V.
  pose proof (V FieldDate) as D. pose proof (V FieldAmount) as A.
  pose proof (V FieldCategory) as C. pose proof (V FieldDescription) as Ds.
  pose proof (V FieldEmployeeId) as E.
  unfold passes, new_row in *. cbn.
  destruct (Partial.date body); [|discriminate D].
  destruct (Partial.amount body); [|discriminate A].
  destruct (Partial.category body); [|discriminate C].
  destruct (Partial.description body); [|discriminate Ds].
  destruct (Partial.employee_id body); [|discriminate E].
  eauto.
Qed.

(** C8.  A valid create payload without payment_status is stored and
    returned with payment_status "pending", the answer is 201, and no
    transaction is written (here the store accepts the insert and finds
    the employee the payload names).  Whatever the store does, a create
    without payment_status asks for no transaction insert, and an expense
    it returns is pending. *)
Theorem create_defaults_to_pending (env : Env.t) (s : Store.t)
    (body : Partial.t) (userId : string) :
  Partial.payment_status body = None ->
  (forall eid emp,
      ExpenseValidation.isValid (validateExpense body) = true ->
      Partial.employee_id body = Some eid ->
      Env.fault env (InsertExpense (Partial.set_payment_status body pending)) = None ->
      Env.fault env (SelectEmployeeById eid) = None ->
      select_employee_by_id eid s = inr emp ->
      exists e w,
        createExpense env body userId (world0 s)
        = (inr (Response.mk 201
                  (DataBody (DataExpense (ExpenseWithRelations.mk e (Some emp))))),
           w)
        /\ Expense.payment_status e = pending
        /\ Store.expenses (World.store w) = Store.expenses s ++ [e]
        /\ transaction_inserts (World.trace w) = []
        /\ Store.transactions (World.store w) = Store.transactions s)
  /\ (let (r, w) := createExpense env body userId (world0 s) in
      transaction_inserts (World.trace w) = []
      /\ Store.transactions (World.store w) = Store.transactions s
      /\ forall e, mutated_expense 201 r = Some e ->
                   Expense.payment_status e = pending).
Proof.
  intros P. split.
  - intros eid emp V E FI FE L.
    destruct (valid_new_row (Env.generated_id env) (Env.db_now env) body pending V)
      as [e N].
    pose proof (new_row_Some _ _ _ _ N) as (_ & PS & EI).
    cbn in PS, EI. rewrite E in EI. inversion PS. inversion EI. subst eid.
    unfold select_employee_by_id in L.
    exists e. eexists.
    unfold createExpense, try_catch, bind, call, throw, ret, query,
      insert_expense, world0.
    rewrite V, P. cbn [negb falsy_enum]. rewrite FI, N. cbn.
    rewrite FE. unfold select_employee_by_id. cbn. rewrite L. cbn.
    change (is_completed (Some pending)) with false. cbn.
    repeat split; auto.
  - exec; repeat split; cbn; try discriminate; status_facts;
      try match goal with |- context [handleError ?j] => destruct j end;
      cbn; try discriminate;
      intros e' H'; inversion H'; subst; congruence.
Qed.

(** The scenario of the specification: the rent of the office, without a
    payment status, for an employee the store knows. *)
Lemma create_defaults_to_pending_witness :
  exists e w,
    createExpense sample_env rent_body "user-7" (world0 sample_store)
    = (inr (Response.mk 201
              (DataBody (DataExpense (ExpenseWithRelations.mk e (Some alice))))),
       w)
    /\ Expense.payment_status e = pending
    /\ Store.expenses (World.store w) = Store.expenses sample_store ++ [e]
    /\ transaction_inserts (World.trace w) = []
    /\ Store.transactions (World.store w) = Store.transactions sample_store.
Proof.
  apply (proj1 (create_defaults_to_pending sample_env sample_store rent_body
                  "user-7" eq_refl)
           "11111111-1111-1111-1111-111111111111" alice);
    reflexivity.
Defined.

(** ** Deleting an expense *)

(** Rewrite with what is known about the next test, then simplify. *)
Ltac known :=
  match goal with
  | H : ?x = _ |- context [match ?x with _ => _ end] => rewrite H
  | H : ?x = _ |- context [if ?x then _ else _] => rewrite H
  | H : ?x = _ |- context [if negb ?x then _ else _] => rewrite H
  end.

Ltac drive :=
  unfold createExpense, updateExpense, deleteExpense, getExpenseById,
    createExpenseTransaction, try_catch, bind, call, throw, ret, respond,
    query, insert_expense, insert_transaction, delete_expense, world0;
  cbn; repeat (known; cbn).

(** C5.  What [deleteExpense] does (the store answering its calls
    without a failure of its own).  An existing expense whose payment is
    completed: refused with status 400, the store left as it was.  An id
    that names no row: 404 "Expense not found".  An existing expense with
    any other payment status: the row is removed (the other rows stay),
    but the answer is not 204: [successResponse(null, 204)] passes the
    body [{"data":null}] to the Response constructor together with a null
    body status, the constructor throws, and the handler's own [catch]
    answers 400 with that error. *)
Theorem delete_removes_but_answers_400 (env : Env.t) (s : Store.t) (id : string) :
  Env.fault env (SelectExpenseById id) = None ->
  (forall e,
      select_expense_by_id id s = inr e ->
      Expense.payment_status e = completed ->
      deleteExpense env id (world0 s)
      = (inr (Response.mk 400
                (ErrorBody "Cannot delete an expense with completed payment"
                   (Some (ErrorObject
                            "Cannot delete an expense with completed payment" None)))),
         World.mk s [SelectExpenseById id]))
  /\ (forall e,
      select_expense_by_id id s = inr e ->
      Expense.payment_status e <> completed ->
      Env.fault env (DeleteExpense id) = None ->
      exists w,
        deleteExpense env id (world0 s)
        = (inr (Response.mk 400
                  (ErrorBody "Response with null body status cannot have body"
                     (Some (ErrorObject
                              "Response with null body status cannot have body"
                              None)))),
           w)
        /\ (forall x, In x (Store.expenses (World.store w)) <->
                      In x (Store.expenses s) /\ Expense.id x <> id)
        /\ Store.employees (World.store w) = Store.employees s
        /\ Store.transactions (World.store w) = Store.transactions s)
  /\ (filter (has_id id) (Store.expenses s) = [] ->
      deleteExpense env id (world0 s)
      = (inr (Response.mk 404
                (ErrorBody "Expense not found"
                   (Some (ErrorObject "Expense not found" None)))),
         World.mk s [SelectExpenseById id])).
Proof.
  intros F. split; [|split].
  - intros e E C. apply PaymentStatus_eqb_eq in C. drive. reflexivity.
  - intros e E C D. apply PaymentStatus_eqb_neq in C.
    eexists. drive. split; [reflexivity|]. cbn.
    split; [|split; reflexivity].
    intros x. rewrite filter_In. unfold has_id.
    rewrite negb_true_iff, String.eqb_neq. reflexivity.
  - intros N. unfold select_expense_by_id in *.
    unfold deleteExpense, try_catch, bind, call, throw, ret, respond, query,
      world0, select_expense_by_id.
    cbn. rewrite F, N. reflexivity.
Qed.

(** A completed row, a pending row and a missing row. *)
Lemma delete_removes_but_answers_400_witness :
  fst (deleteExpense sample_env "e-1" (world0 (store_with (rent_expense completed))))
  = inr (Response.mk 400
           (ErrorBody "Cannot delete an expense with completed payment"
              (Some (ErrorObject
                       "Cannot delete an expense with completed payment" None))))
  /\ (exists w,
        deleteExpense sample_env "e-1" (world0 (store_with (rent_expense pending)))
        = (inr (Response.mk 400
                  (ErrorBody "Response with null body status cannot have body"
                     (Some (ErrorObject
                              "Response with null body status cannot have body"
                              None)))),
           w)
        /\ Store.expenses (World.store w) = [])
  /\ fst (deleteExpense sample_env "e-2" (world0 (store_with (rent_expense pending))))
     = inr (Response.mk 404
              (ErrorBody "Expense not found"
                 (Some (ErrorObject "Expense not found" None)))).
Proof.
  split; [|split].
  - rewrite (proj1 (delete_removes_but_answers_400 sample_env
                      (store_with (rent_expense completed)) "e-1" eq_refl)
               (rent_expense completed) eq_refl eq_refl).
    reflexivity.
  - destruct (proj1 (proj2 (delete_removes_but_answers_400 sample_env
                              (store_with (rent_expense pending)) "e-1" eq_refl))
                (rent_expense pending) eq_refl)
      as (w & R & I & _).
    + discriminate.
    + reflexivity.
    + exists w. split; [exact R|].
      destruct (Store.expenses (World.store w)) as [|x l] eqn:X; [reflexivity|].
      destruct (proj1 (I x) (or_introl eq_refl)) as [[<-|[]] N].
      now contradiction N.
  - rewrite (proj2 (proj2 (delete_removes_but_answers_400 sample_env
                             (store_with (rent_expense pending)) "e-2" eq_refl))
               eq_refl).
    reflexivity.
Defined.

(** ** Updating an expense *)

(** C2 as stated fails: a payload with nothing but a payment status, sent
    for an existing pending expense, is refused by the validator and
    nothing is changed. *)
Lemma update_only_payment_status_rejected :
  updateExpense sample_env "e-1" only_payment_status
    (world0 (store_with (rent_expense pending)))
  = (inr (Response.mk 400
            (ErrorBody "Expense date is required"
               (Some (ErrorObject "Expense date is required" None)))),
     world0 (store_with (rent_expense pending))).
Proof. reflexivity. Qed.

(** C2, as the code has it.  For an existing expense id the update takes
    a payload only if the validator accepts it, that is, if it supplies the
    date, a positive amount, the category, the description and an employee
    id of the UUID shape; payment_status, payment_method, invoice_number
    and notes may be left out.  A payload the validator refuses is answered
    400 and changes nothing.  For an accepted payload (the store answering
    the calls and knowing the employee) the answer is 200 with the updated
    expense, every supplied field has the supplied value, every omitted
    field, the id and created_at are as before, and the other rows are
    untouched. *)
Theorem update_applies_validated_payload (env : Env.t) (s : Store.t)
    (id : string) (updates : Partial.t) (old : Expense.t) :
  select_expense_by_id id s = inr old ->
  (ExpenseValidation.isValid (validateExpense updates) = false ->
   exists msg,
     updateExpense env id updates (world0 s)
     = (inr (Response.mk 400 (ErrorBody msg (Some (ErrorObject msg None)))),
        world0 s))
  /\ (forall emp,
      ExpenseValidation.isValid (validateExpense updates) = true ->
      Env.fault env (SelectExpenseById id) = None ->
      Env.fault env (UpdateExpense id updates) = None ->
      Env.fault env
        (SelectEmployeeById (Expense.employee_id (apply_updates updates old))) = None ->
      select_employee_by_id
        (Expense.employee_id (apply_updates updates old)) s = inr emp ->
      exists new w,
        updateExpense env id updates (world0 s)
        = (inr (Response.mk 200
                  (DataBody (DataExpense (ExpenseWithRelations.mk new (Some emp))))),
           w)
        /\ select_expense_by_id id (World.store w) = inr new
        /\ Store.expenses (World.store w)
           = map (fun e => if has_id id e then new else e) (Store.expenses s)
        /\ Expense.id new = Expense.id old
        /\ Expense.created_at new = Expense.created_at old
        /\ applied (Partial.date updates) (Expense.date old) (Expense.date new)
        /\ applied (Partial.amount updates) (Expense.amount old) (Expense.amount new)
        /\ applied (Partial.category updates)
             (Expense.category old) (Expense.category new)
        /\ applied (Partial.description updates)
             (Expense.description old) (Expense.description new)
        /\ applied (Partial.payment_status updates)
             (Expense.payment_status old) (Expense.payment_status new)
        /\ applied (Partial.employee_id updates)
             (Expense.employee_id old) (Expense.employee_id new)
        /\ applied_opt (Partial.payment_method updates)
             (Expense.payment_method old) (Expense.payment_method new)
        /\ applied_opt (Partial.invoice_number updates)
             (Expense.invoice_number old) (Expense.invoice_number new)
        /\ applied_opt (Partial.notes updates)
             (Expense.notes old) (Expense.notes new)).
Proof.
  intros E. split.
  - intros V. destruct (validation_error_400 updates V) as (msg & _ & R).
    exists msg. unfold updateExpense, try_catch, ret. rewrite V. cbn [negb].
    now rewrite R.
  - intros emp V F1 F2 F3 L.
    exists (apply_updates updates old).
    assert (R : exists w,
               updateExpense env id updates (world0 s)
               = (inr (Response.mk 200
                         (DataBody (DataExpense
                            (ExpenseWithRelations.mk (apply_updates updates old)
                                                     (Some emp))))), w)
               /\ Store.expenses (World.store w)
                  = map (fun e => if has_id id e then apply_updates updates e else e)
                        (Store.expenses s)).
    { unfold select_employee_by_id in L. cbn in F3, L.
      destruct (is_completed (Partial.payment_status updates)
                && negb (PaymentStatus_eqb (Expense.payment_status old) completed))
        eqn:T;
        [destruct (Env.fault env
                     (InsertTransaction
                        (transactionData env (apply_updates updates old)
                           (Expense.employee_id old)))) eqn:FT|];
        eexists;
        unfold updateExpense, createExpenseTransaction, try_catch, bind, call,
          throw, ret, query, world0, insert_transaction;
        rewrite V; cbn [negb]; cbn; rewrite F1; cbn; rewrite E; cbn; rewrite F2;
        rewrite (update_expense_existing id updates s old E); cbn;
        rewrite F3; cbn; unfold select_employee_by_id; cbn; rewrite L; cbn;
        rewrite T; cbn; rewrite ?FT; cbn; split; reflexivity. }
    destruct R as (w & R & X). exists w.
    split; [exact R|]. split; [|split].
    + unfold select_expense_by_id. rewrite X, filter_has_id_updated.
      unfold select_expense_by_id in E. apply single_inr in E. now rewrite E.
    + rewrite X. apply map_ext_in. intros e I.
      destruct (has_id id e) eqn:H; [|reflexivity].
      unfold select_expense_by_id in E. apply single_inr in E.
      assert (I' : In e (filter (has_id id) (Store.expenses s)))
        by (apply filter_In; auto).
      rewrite E in I'. destruct I' as [<-|[]]. reflexivity.
    + unfold applied, applied_opt, apply_updates. cbn.
      destruct (Partial.date updates), (Partial.amount updates),
        (Partial.category updates), (Partial.description updates),
        (Partial.payment_status updates), (Partial.employee_id updates),
        (Partial.payment_method updates), (Partial.invoice_number updates),
        (Partial.notes updates); cbn; auto 20.
Qed.

(** A refused payload and an accepted one, for the same pending row. *)
Lemma update_applies_validated_payload_witness :
  (exists msg,
      updateExpense sample_env "e-1" only_payment_status
        (world0 (store_with (rent_expense pending)))
      = (inr (Response.mk 400 (ErrorBody msg (Some (ErrorObject msg None)))),
         world0 (store_with (rent_expense pending))))
  /\ (exists new w,
        updateExpense sample_env "e-1" completed_body
          (world0 (store_with (rent_expense pending)))
        = (inr (Response.mk 200
                  (DataBody (DataExpense (ExpenseWithRelations.mk new (Some alice))))),
           w)
        /\ Expense.payment_status new = completed
        /\ Expense.notes new = None).
Proof.
  split.
  - apply (proj1 (update_applies_validated_payload sample_env
                    (store_with (rent_expense pending)) "e-1" only_payment_status
                    (rent_expense pending) eq_refl)).
    reflexivity.
  - destruct (proj2 (update_applies_validated_payload sample_env
                       (store_with (rent_expense pending)) "e-1" completed_body
                       (rent_expense pending) eq_refl)
                alice eq_refl eq_refl eq_refl eq_refl eq_refl)
      as (new & w & R & _ & _ & _ & _ & _ & _ & _ & _ & PS & _ & _ & _ & N).
    exists new, w. cbn in PS, N. auto.
Defined.

(** ** A failed employee lookup *)

(** C9.  A list call whose expense query succeeds and whose batch
    employee lookup fails still answers 200 with the bare expenses; a
    getById call on an existing expense whose employee lookup fails (the
    store fails the call, or finds no such employee) answers with that
    error, status 400, and no expense. *)
Theorem employee_lookup_failure_asymmetry (env : Env.t) (s : Store.t) :
  (forall filters ids j r w,
      getExpenses env filters (world0 s) = (r, w) ->
      Env.fault env (SelectExpenses (filters_query filters)) = None ->
      In (SelectEmployeesIn ids) (World.trace w) ->
      Env.fault env (SelectEmployeesIn ids) = Some j ->
      r = inr (Response.mk 200
                 (DataBody (DataExpenses
                              (select_expenses (filters_query filters) s)))))
  /\ (forall id e j,
      Env.fault env (SelectExpenseById id) = None ->
      select_expense_by_id id s = inr e ->
      Env.fault env (SelectEmployeeById (Expense.employee_id e)) = Some j ->
      fst (getExpenseById env id (world0 s))
      = inr (Response.mk 400 (handleError j)))
  /\ (forall id e j,
      Env.fault env (SelectExpenseById id) = None ->
      select_expense_by_id id s = inr e ->
      Env.fault env (SelectEmployeeById (Expense.employee_id e)) = None ->
      select_employee_by_id (Expense.employee_id e) s = inl j ->
      fst (getExpenseById env id (world0 s))
      = inr (Response.mk 400 (handleError j))).
Proof.
  split; [|split].
  - intros filters ids j r w R Q I F. revert R I.
    unfold getExpenses, try_catch, bind, call, throw, ret, query, world0.
    rewrite Q. cbn.
    destruct (select_expenses (filters_query filters) s) as [|x l] eqn:S; cbn.
    { intros R I. inversion R; subst. find_insert I. }
    destruct (dedup _) as [|i rest] eqn:Ids; cbn.
    { intros R I. inversion R; subst. find_insert I. }
    destruct (Env.fault env (SelectEmployeesIn (i :: rest))) eqn:FE; cbn.
    + intros R I. inversion R; subst. reflexivity.
    + intros R I. inversion R; subst. cbn in I.
      destruct I as [I|[I|[]]]; [discriminate I|].
      inversion I; subst. congruence.
  - intros id e j F E FE. drive. reflexivity.
  - intros id e j F E FE L. drive. reflexivity.
Qed.

(** One stored expense and an employee table that cannot be read. *)
Lemma employee_lookup_failure_asymmetry_witness :
  fst (getExpenses directory_down no_filters
         (world0 (store_with (rent_expense pending))))
  = inr (Response.mk 200 (DataBody (DataExpenses [rent_expense pending])))
  /\ fst (getExpenseById directory_down "e-1"
            (world0 (store_with (rent_expense pending))))
     = inr (Response.mk 400
              (ErrorBody "employee directory unavailable" (Some directory_error))).
Proof.
  split.
  - apply (proj1 (employee_lookup_failure_asymmetry directory_down
                    (store_with (rent_expense pending)))
             no_filters ["11111111-1111-1111-1111-111111111111"] directory_error
             _ (snd (getExpenses directory_down no_filters
                       (world0 (store_with (rent_expense pending)))))).
    + reflexivity.
    + reflexivity.
    + cbn. right. left. reflexivity.
    + reflexivity.
  - apply (proj1 (proj2 (employee_lookup_failure_asymmetry directory_down
                           (store_with (rent_expense pending))))
             "e-1" (rent_expense pending) directory_error);
      reflexivity.
Defined.

(** ** The router *)

Lemma substring_all (s : string) : substring 0 (String.length s) s = s.
Proof. induction s as [|c s IH]; simpl; [reflexivity|now rewrite IH]. Qed.

Lemma prefix_append (p t : string) : prefix p (p ++ t) = true.
Proof.
  induction p as [|c p IH]; simpl.
  - destruct t; reflexivity.
  - destruct (ascii_dec c c); [exact IH|congruence].
Qed.

Lemma substring_append (p t : string) :
  substring (String.length p) (String.length (p ++ t) - String.length p) (p ++ t) = t.
Proof.
  induction p as [|c p IH]; simpl.
  - rewrite Nat.sub_0_r. apply substring_all.
  - exact IH.
Qed.

Lemma prefix_split (p h : string) :
  prefix p h = true ->
  h = (p ++ substring (String.length p) (String.length h - String.length p) h)%string.
Proof.
  revert h. induction p as [|c p IH]; intros h H; simpl.
  - rewrite Nat.sub_0_r. symmetry. apply substring_all.
  - destruct h as [|d h]; simpl in H; [discriminate|].
    destruct (ascii_dec c d) as [->|]; [|discriminate].
    simpl. f_equal. apply IH, H.
Qed.

(** [getUserFromRequest] resolves a user exactly for a bearer token that
    the identity provider accepts. *)
Lemma getUserFromRequest_spec (env : Env.t) (req : Request.t) (u : User.t) :
  getUserFromRequest env req = Some u <-> bearer_token env req u.
Proof.
  unfold getUserFromRequest, bearer_token. split.
  - destruct (Request.authorization req) as [h|]; [|discriminate].
    destruct (h =? "") eqn:E; [discriminate|].
    destruct (prefix "Bearer " h) eqn:P; [|discriminate]. cbn [orb negb].
    intros G. exists (substring 7 (String.length h - 7) h). split; [|exact G].
    f_equal. exact (prefix_split "Bearer " h P).
  - intros (token & -> & G).
    rewrite (prefix_append "Bearer " token).
    change (("Bearer " ++ token) =? "") with false. cbn [orb negb].
    assert (S : substring 7 (String.length ("Bearer " ++ token) - 7)
                  ("Bearer " ++ token) = token)
      by exact (substring_append "Bearer " token).
    rewrite S. exact G.
Qed.

Lemma getUserFromRequest_none (env : Env.t) (req : Request.t) :
  getUserFromRequest env req = None <-> forall u, ~ bearer_token env req u.
Proof.
  split.
  - intros N u B. apply getUserFromRequest_spec in B. congruence.
  - intros H. destruct (getUserFromRequest env req) as [u|] eqn:G; [|reflexivity].
    apply getUserFromRequest_spec in G. now apply H in G.
Qed.

(** No segment of a split path begins with a slash. *)
Lemma split_slash_no_leading_slash (s x : string) :
  In x (split_slash s) ->
  match x with
  | String c _ => (nat_of_ascii c =? 47)%nat = false
  | EmptyString => True
  end.
Proof.
  revert x. induction s as [|c s IH]; intros x; simpl.
  - intros [<- | []]. exact I.
  - destruct (nat_of_ascii c =? 47)%nat eqn:C.
    + intros [<- | H]; [exact I|apply IH, H].
    + destruct (split_slash s) as [|y l].
      * intros [<- | []]. exact C.
      * intros [<- | H]; [exact C|]. apply IH. right. exact H.
Qed.

Lemma subRoute_no_leading_slash (req : Request.t) :
  match subRoute req with
  | String c _ => (nat_of_ascii c =? 47)%nat = false
  | EmptyString => True
  end.
Proof.
  unfold subRoute.
  destruct (nth_in_or_default 1 (pathParts req) "") as [H | ->]; [|exact I].
  exact (split_slash_no_leading_slash _ _ H).
Qed.

(** The three tests of the router that expect a sub-route with a leading
    slash never succeed. *)
Lemma subRoute_slash_tests (req : Request.t) :
  (subRoute req =? "/") = false
  /\ (subRoute req =? "/categories") = false
  /\ idRoute_match (subRoute req) = false.
Proof.
  pose proof (subRoute_no_leading_slash req) as H.
  destruct (subRoute req) as [|c r]; [repeat split|].
  assert (N : c <> "/"%char) by (intros ->; discriminate H).
  repeat split.
  - apply String.eqb_neq. congruence.
  - apply String.eqb_neq. congruence.
  - unfold idRoute_match. now rewrite H.
Qed.

(** The router, past the CORS helper and the test of the main route. *)
Lemma serve_dispatch (env : Env.t) (handleCors : Request.t -> option Response.t)
    (req : Request.t) :
  handleCors req = None ->
  mainRoute req = "expenses" ->
  serve env handleCors req =
  if subRoute req =? "summary" then
    if Request.method req =? "GET" then respond (new_Response SummaryBody 200)
    else respond (new_Response (ErrorBody "Method not allowed" None) 405)
  else
    match getUserFromRequest env req with
    | None => respond unauthorized
    | Some user =>
        try_catch
          (if Request.method req =? "GET" then
             if is_root (subRoute req) then
               let params := Request.searchParams req in
               getExpenses env
                 (ExpenseFilters.mk (params_get params "category")
                    (params_get params "start_date")
                    (params_get params "end_date")
                    (params_get params "payment_status"))
             else respond methodNotAllowed
           else if (Request.method req =? "POST") && is_root (subRoute req) then
             data <- parseRequestBody req ;;
             createExpense env data (User.id user)
           else respond methodNotAllowed)
          (fun error => respond (errorResponse error None))
    end.
Proof.
  intros C M. unfold serve. rewrite C.
  change (nth 0 (split_slash (strip_functions_prefix (Request.pathname req))) "")
    with (mainRoute req).
  change (nth 1 (split_slash (strip_functions_prefix (Request.pathname req))) "")
    with (subRoute req).
  rewrite M. cbn [String.eqb Ascii.eqb Bool.eqb negb].
  destruct (subRoute_slash_tests req) as (_ & C2 & C3).
  rewrite C2, C3, !andb_false_r. reflexivity.
Qed.

(** C3.  An authenticated GET request whose sub-route is an identifier
    (not empty, not "summary") is not dispatched to getExpenseById: the
    router answers 405 "Method not allowed" without a call to the store,
    whether or not an expense with that id exists. *)
Theorem get_by_id_route_answers_405 (env : Env.t)
    (handleCors : Request.t -> option Response.t) (req : Request.t)
    (u : User.t) (w : World.t) :
  handleCors req = None ->
  mainRoute req = "expenses" ->
  Request.method req = "GET" ->
  bearer_token env req u ->
  subRoute req <> "" ->
  subRoute req <> "summary" ->
  serve env handleCors req w
  = (inr (Response.mk 405
            (ErrorBody "Method not allowed"
               (Some (ErrorObject "Method not allowed" None)))),
     w).
Proof.
  intros C M G B N S.
  rewrite (serve_dispatch env handleCors req C M).
  apply String.eqb_neq in S. rewrite S.
  apply getUserFromRequest_spec in B. rewrite B, G.
  unfold is_root. apply String.eqb_neq in N. rewrite N.
  destruct (subRoute_slash_tests req) as (C1 & _). rewrite C1.
  reflexivity.
Qed.

(** [GET /functions/v1/expenses/does-not-exist-id] with a good token. *)
Lemma get_by_id_route_answers_405_witness :
  serve sample_env preflight_handleCors
    (get_request "/functions/v1/expenses/does-not-exist-id"
       (Some "Bearer good-token"))
    (world0 sample_store)
  = (inr (Response.mk 405
            (ErrorBody "Method not allowed"
               (Some (ErrorObject "Method not allowed" None)))),
     world0 sample_store).
Proof.
  apply (get_by_id_route_answers_405 sample_env preflight_handleCors _
           (User.mk "user-7")).
  - reflexivity.
  - reflexivity.
  - reflexivity.
  - exists "good-token". split; reflexivity.
  - discriminate.
  - discriminate.
Defined.

(** The handler itself, had it been called: 404 "Expense not found". *)
Lemma getExpenseById_not_found (env : Env.t) (s : Store.t) (id : string) :
  Env.fault env (SelectExpenseById id) = None ->
  filter (has_id id) (Store.expenses s) = [] ->
  getExpenseById env id (world0 s)
  = (inr (Response.mk 404
            (ErrorBody "Expense not found"
               (Some (ErrorObject "Expense not found" None)))),
     World.mk s [SelectExpenseById id]).
Proof.
  intros F N.
  unfold getExpenseById, try_catch, bind, call, throw, ret, respond, query,
    world0, select_expense_by_id.
  cbn. rewrite F, N. reflexivity.
Qed.

(** C6.  A request that reaches the router's dispatch on the sub-route
    (the CORS helper left it to the router and the main route is
    "expenses") and whose sub-route is not "summary" is answered 401 when
    it carries no bearer token that the identity provider accepts, and the
    store is not touched: the world after is the world before, trace
    included.  GET on "summary" is answered 200 whatever the Authorization
    header and the identity provider say. *)
Theorem unauthorized_before_store_access (env : Env.t)
    (handleCors : Request.t -> option Response.t) (req : Request.t) (w : World.t) :
  handleCors req = None ->
  mainRoute req = "expenses" ->
  (subRoute req <> "summary" ->
   (forall u, ~ bearer_token env req u) ->
   serve env handleCors req w
   = (inr (Response.mk 401
             (ErrorBody "Unauthorized" (Some (ErrorObject "Unauthorized" None)))),
      w))
  /\ (subRoute req = "summary" ->
      Request.method req = "GET" ->
      serve env handleCors req w = (inr (Response.mk 200 SummaryBody), w)).
Proof.
  intros C M. rewrite (serve_dispatch env handleCors req C M). split.
  - intros S B. apply String.eqb_neq in S. rewrite S.
    apply getUserFromRequest_none in B. rewrite B. reflexivity.
  - intros S G. rewrite S, G. reflexivity.
Qed.

(** No header at all, a token the provider rejects, and the summary. *)
Lemma unauthorized_before_store_access_witness :
  serve sample_env preflight_handleCors
    (get_request "/functions/v1/expenses" None) (world0 sample_store)
  = (inr (Response.mk 401
            (ErrorBody "Unauthorized" (Some (ErrorObject "Unauthorized" None)))),
     world0 sample_store)
  /\ serve sample_env preflight_handleCors
       (Request.mk "DELETE" "/functions/v1/expenses/e-1" []
          (Some "Bearer stale-token") None (inl "Unexpected end of JSON input"))
       (world0 (store_with (rent_expense pending)))
     = (inr (Response.mk 401
               (ErrorBody "Unauthorized" (Some (ErrorObject "Unauthorized" None)))),
        world0 (store_with (rent_expense pending)))
  /\ serve sample_env preflight_handleCors
       (get_request "/functions/v1/expenses/summary" None) (world0 sample_store)
     = (inr (Response.mk 200 SummaryBody), world0 sample_store).
Proof.
  split; [|split].
  - apply (proj1 (unauthorized_before_store_access sample_env preflight_handleCors
                    (get_request "/functions/v1/expenses" None)
                    (world0 sample_store) eq_refl eq_refl)).
    + discriminate.
    + intros u (token & A & _). discriminate A.
  - apply (proj1 (unauthorized_before_store_access sample_env preflight_handleCors
                    (Request.mk "DELETE" "/functions/v1/expenses/e-1" []
                       (Some "Bearer stale-token") None
                       (inl "Unexpected end of JSON input"))
                    (world0 (store_with (rent_expense pending)))
                    eq_refl eq_refl)).
    + discriminate.
    + intros u (token & A & G). cbn in A. inversion A; subst. discriminate G.
  - apply (proj2 (unauthorized_before_store_access sample_env preflight_handleCors
                    (get_request "/functions/v1/expenses/summary" None)
                    (world0 sample_store) eq_refl eq_refl));
      reflexivity.
Defined.

(** The same holds for the two other routes that expect an id: an
    authenticated PUT or DELETE on [/expenses/{id}] is answered 405 and
    neither [updateExpense] nor [deleteExpense] runs. *)
Lemma put_delete_routes_answer_405 (env : Env.t)
    (handleCors : Request.t -> option Response.t) (req : Request.t)
    (u : User.t) (w : World.t) :
  handleCors req = None ->
  mainRoute req = "expenses" ->
  Request.method req = "PUT" \/ Request.method req = "DELETE" ->
  bearer_token env req u ->
  subRoute req <> "summary" ->
  serve env handleCors req w
  = (inr (Response.mk 405
            (ErrorBody "Method not allowed"
               (Some (ErrorObject "Method not allowed" None)))),
     w).
Proof.
  intros C M G B S.
  rewrite (serve_dispatch env handleCors req C M).
  apply String.eqb_neq in S. rewrite S.
  apply getUserFromRequest_spec in B. rewrite B.
  destruct G as [-> | ->]; reflexivity.
Qed.

(** [createExpense] catches whatever is thrown inside: it always returns
    a response. *)
Lemma createExpense_returns (env : Env.t) (body : Partial.t) (userId : string)
    (w : World.t) :
  exists r w', createExpense env body userId w = (inr r, w').
Proof. exec; do 2 eexists; reflexivity. Qed.

(** An authenticated POST on the collection with a JSON body is
    [createExpense] on that body, in the name of the authenticated user. *)
Lemma serve_post_creates (env : Env.t)
    (handleCors : Request.t -> option Response.t) (req : Request.t)
    (u : User.t) (contentType : string) (body : Partial.t) (w : World.t) :
  handleCors req = None ->
  mainRoute req = "expenses" ->
  Request.method req = "POST" ->
  subRoute req = "" ->
  bearer_token env req u ->
  Request.content_type req = Some contentType ->
  includes "application/json" contentType = true ->
  Request.json req = inr body ->
  serve env handleCors req w = createExpense env body (User.id u) w.
Proof.
  intros C M P S B CT J D.
  rewrite (serve_dispatch env handleCors req C M).
  rewrite S, P. apply getUserFromRequest_spec in B. rewrite B.
  cbn [String.eqb Ascii.eqb Bool.eqb is_root orb andb].
  unfold parseRequestBody. rewrite CT, J, D.
  assert (N : (contentType =? "") = false)
    by (destruct contentType; [discriminate J|reflexivity]).
  rewrite N. cbn [orb negb].
  destruct (createExpense_returns env body (User.id u) w) as (r & w' & R).
  unfold try_catch at 1. unfold bind, try_catch at 1. unfold ret. cbn.
  rewrite R. reflexivity.
Qed.

(** ** Whose transaction *)

(** C10.  The employee_id of a triggered transaction depends on the path:
    a create writes the id of the caller, which the router takes from the
    authenticated user and which need not be the employee of the expense;
    an update writes the employee of the row as it was stored before the
    update, also when the update moves the expense to another employee. *)
Theorem transaction_employee_id_by_path :
  (forall env s body userId,
      let (r, w) := createExpense env body userId (world0 s) in
      map TransactionData.employee_id (transaction_inserts (World.trace w)) =
      match create_trigger r with
      | Some _ => [userId]
      | None => []
      end)
  /\ (forall env handleCors req u contentType body w,
      handleCors req = None ->
      mainRoute req = "expenses" ->
      Request.method req = "POST" ->
      subRoute req = "" ->
      bearer_token env req u ->
      Request.content_type req = Some contentType ->
      includes "application/json" contentType = true ->
      Request.json req = inr body ->
      serve env handleCors req w = createExpense env body (User.id u) w)
  /\ (forall env s id updates,
      let (r, w) := updateExpense env id updates (world0 s) in
      map TransactionData.employee_id (transaction_inserts (World.trace w)) =
      match update_trigger s id updates r with
      | Some (old, _) => [Expense.employee_id old]
      | None => []
      end)
  /\ (exists e,
      create_trigger
        (fst (createExpense sample_env completed_body "user-7" (world0 sample_store)))
      = Some e
      /\ Expense.employee_id e <> "user-7")
  /\ (exists old e,
      update_trigger (store_with (rent_expense pending)) "e-1" reassigned_body
        (fst (updateExpense sample_env "e-1" reassigned_body
                (world0 (store_with (rent_expense pending)))))
      = Some (old, e)
      /\ Expense.employee_id old <> Expense.employee_id e).
Proof.
  split; [|split; [|split; [|split]]].
  - intros env s body userId.
    pose proof (createExpense_transaction_inserts env s body userId) as H.
    destruct (createExpense env body userId (world0 s)) as [r w].
    rewrite H. destruct (create_trigger r); reflexivity.
  - intros env handleCors req u contentType body w.
    apply serve_post_creates.
  - intros env s id updates.
    pose proof (updateExpense_transaction_inserts env s id updates) as H.
    destruct (updateExpense env id updates (world0 s)) as [r w].
    rewrite H. destruct (update_trigger s id updates r) as [[old e]|]; reflexivity.
  - eexists. split; [vm_compute; reflexivity|]. vm_compute. discriminate.
  - eexists. eexists. split; [vm_compute; reflexivity|]. vm_compute. discriminate.
Qed.

(** [POST /functions/v1/expenses] by user-7 of a completed expense for
    another employee: the transaction carries user-7. *)
Lemma transaction_employee_id_by_path_witness :
  map TransactionData.employee_id
    (transaction_inserts
       (World.trace
          (snd (serve sample_env preflight_handleCors
                  (Request.mk "POST" "/functions/v1/expenses" []
                     (Some "Bearer good-token") (Some "application/json")
                     (inr completed_body))
                  (world0 sample_store)))))
  = ["user-7"].
Proof.
  rewrite (proj1 (proj2 transaction_employee_id_by_path)
             sample_env preflight_handleCors
             (Request.mk "POST" "/functions/v1/expenses" []
                (Some "Bearer good-token") (Some "application/json")
                (inr completed_body))
             (User.mk "user-7") "application/json" completed_body
             (world0 sample_store)).
  - reflexivity.
  - reflexivity.
  - reflexivity.
  - reflexivity.
  - reflexivity.
  - exists "good-token". split; reflexivity.
  - reflexivity.
  - reflexivity.
  - reflexivity.
Defined.

(* ================================================================== *)
(** * Further properties of the handlers *)
(* ================================================================== *)

(** ** No exception leaves a handler *)

Ltac answered := eexists; split; [reflexivity|cbn; tauto].

Lemma getExpenses_status (env : Env.t) (filters : ExpenseFilters.t) (w : World.t) :
  exists st, status_of (fst (getExpenses env filters w)) = Some st
             /\ In st [200; 400]%Z.
Proof.
  unfold getExpenses, try_catch, bind, call, throw, ret, respond, query. cbn.
  destruct (Env.fault env _); cbn; [answered|].
  destruct (select_expenses _ _); cbn; [answered|].
  destruct (dedup _); cbn; [answered|].
  destruct (Env.fault env _); cbn; answered.
Qed.

Lemma createExpense_status (env : Env.t) (body : Partial.t) (userId : string)
    (w : World.t) :
  exists st, status_of (fst (createExpense env body userId w)) = Some st
             /\ In st [201; 400]%Z.
Proof. exec; answered. Qed.

(** Every handler catches what is thrown inside it and answers with one
    of a few statuses: 200 or 400 for the list, 200, 400 or 404 for
    getById and update, 201 or 400 for create, 400 or 404 for delete (204
    is never among them), 200 for the categories. *)
Theorem handlers_always_answer (env : Env.t) (w : World.t) :
  (forall filters,
      exists st, status_of (fst (getExpenses env filters w)) = Some st
                 /\ In st [200; 400]%Z)
  /\ (forall id,
      exists st, status_of (fst (getExpenseById env id w)) = Some st
                 /\ In st [200; 400; 404]%Z)
  /\ (forall body userId,
      exists st, status_of (fst (createExpense env body userId w)) = Some st
                 /\ In st [201; 400]%Z)
  /\ (forall id updates,
      exists st, status_of (fst (updateExpense env id updates w)) = Some st
                 /\ In st [200; 400; 404]%Z)
  /\ (forall id,
      exists st, status_of (fst (deleteExpense env id w)) = Some st
                 /\ In st [400; 404]%Z)
  /\ status_of (fst (getExpenseCategories w)) = Some 200%Z.
Proof.
  split; [|split; [|split; [|split; [|split]]]].
  - intros filters. apply getExpenses_status.
  - intros id. exec; answered.
  - intros body userId. apply createExpense_status.
  - intros id updates. exec; answered.
  - intros id. exec; answered.
  - reflexivity.
Qed.

(** ** The router, case by case *)

Lemma serve_not_found (env : Env.t) (handleCors : Request.t -> option Response.t)
    (req : Request.t) (w : World.t) :
  handleCors req = None ->
  mainRoute req <> "expenses" ->
  serve env handleCors req w
  = (inr (Response.mk 404 (ErrorBody "Not found" None)), w).
Proof.
  intros C M. unfold serve. rewrite C.
  change (nth 0 (split_slash (strip_functions_prefix (Request.pathname req))) "")
    with (mainRoute req).
  apply String.eqb_neq in M. rewrite M. reflexivity.
Qed.

(** What [parseRequestBody] returns or throws. *)
Lemma parseRequestBody_outcome (req : Request.t) (w : World.t) :
  parseRequestBody req w =
  match Request.content_type req with
  | Some contentType =>
      if includes "application/json" contentType then
        match Request.json req with
        | inr body => (inr body, w)
        | inl syntaxError =>
            (inl (ErrorObject ("Failed to parse request body: " ++ syntaxError) None),
             w)
        end
      else
        (inl (ErrorObject
                "Failed to parse request body: Content-Type must be application/json"
                None), w)
  | None =>
      (inl (ErrorObject
              "Failed to parse request body: Content-Type must be application/json"
              None), w)
  end.
Proof.
  unfold parseRequestBody, try_catch, throw, ret.
  destruct (Request.content_type req) as [ct|]; [|reflexivity].
  destruct (includes "application/json" ct) eqn:I.
  - assert (N : (ct =? "") = false) by (destruct ct; [discriminate I|reflexivity]).
    rewrite N. cbn [orb negb].
    destruct (Request.json req); reflexivity.
  - rewrite orb_true_r. reflexivity.
Qed.

Lemma getExpenses_returns (env : Env.t) (filters : ExpenseFilters.t) (w : World.t) :
  exists r w', getExpenses env filters w = (inr r, w').
Proof.
  destruct (getExpenses_status env filters w) as (st & S & _).
  destruct (getExpenses env filters w) as [[e|r] w']; [discriminate S|eauto].
Qed.

(** An authenticated GET on the collection is [getExpenses] with the
    filters of the query string. *)
Lemma serve_get_lists (env : Env.t) (handleCors : Request.t -> option Response.t)
    (req : Request.t) (u : User.t) (w : World.t) :
  handleCors req = None ->
  mainRoute req = "expenses" ->
  Request.method req = "GET" ->
  subRoute req = "" ->
  bearer_token env req u ->
  serve env handleCors req w
  = getExpenses env
      (ExpenseFilters.mk (params_get (Request.searchParams req) "category")
         (params_get (Request.searchParams req) "start_date")
         (params_get (Request.searchParams req) "end_date")
         (params_get (Request.searchParams req) "payment_status")) w.
Proof.
  intros C M G S B.
  rewrite (serve_dispatch env handleCors req C M).
  rewrite S, G. apply getUserFromRequest_spec in B. rewrite B.
  cbn [String.eqb Ascii.eqb Bool.eqb is_root orb andb].
  destruct (getExpenses_returns env
              (ExpenseFilters.mk (params_get (Request.searchParams req) "category")
                 (params_get (Request.searchParams req) "start_date")
                 (params_get (Request.searchParams req) "end_date")
                 (params_get (Request.searchParams req) "payment_status")) w)
    as (r & w' & R).
  unfold try_catch at 1. cbn zeta. rewrite R. reflexivity.
Qed.

(** An authenticated POST on the collection whose body cannot be read. *)
Lemma serve_post_unreadable (env : Env.t)
    (handleCors : Request.t -> option Response.t) (req : Request.t) (u : User.t)
    (msg : string) (w : World.t) :
  handleCors req = None ->
  mainRoute req = "expenses" ->
  Request.method req = "POST" ->
  subRoute req = "" ->
  bearer_token env req u ->
  parseRequestBody req w = (inl (ErrorObject msg None), w) ->
  serve env handleCors req w
  = (inr (Response.mk 400 (ErrorBody msg (Some (ErrorObject msg None)))), w).
Proof.
  intros C M P S B E.
  rewrite (serve_dispatch env handleCors req C M).
  rewrite S, P. apply getUserFromRequest_spec in B. rewrite B.
  cbn [String.eqb Ascii.eqb Bool.eqb is_root orb andb].
  unfold try_catch at 1. unfold bind. rewrite E. reflexivity.
Qed.

(** A request the CORS helper leaves to the router is answered by the
    router itself, without a call to the store, or handed to the list or
    to the create handler: no other handler is reachable. *)
Lemma serve_outcome (env : Env.t) (handleCors : Request.t -> option Response.t)
    (req : Request.t) (w : World.t) :
  handleCors req = None ->
  (exists st body,
      serve env handleCors req w = (inr (Response.mk st body), w)
      /\ In st [200; 400; 401; 404; 405]%Z)
  \/ (exists filters, serve env handleCors req w = getExpenses env filters w)
  \/ (exists body u, serve env handleCors req w = createExpense env body (User.id u) w).
Proof.
  intros C.
  destruct (string_dec (mainRoute req) "expenses") as [M|M].
  2:{ left. do 2 eexists. split; [apply (serve_not_found _ _ _ _ C M)|cbn; tauto]. }
  pose proof (serve_dispatch env handleCors req C M) as D.
  destruct (subRoute req =? "summary") eqn:S.
  { left. rewrite D. destruct (Request.method req =? "GET");
      do 2 eexists; (split; [reflexivity|cbn; tauto]). }
  destruct (getUserFromRequest env req) as [u|] eqn:G.
  2:{ left. rewrite D. do 2 eexists. split; [reflexivity|cbn; tauto]. }
  destruct (Request.method req =? "GET") eqn:MG.
  { destruct (is_root (subRoute req)) eqn:R.
    - right. left. rewrite D. cbv beta iota zeta.
      match goal with
      | |- exists _, try_catch (getExpenses env ?f) _ w = _ =>
          exists f; destruct (getExpenses_returns env f w) as (r & w' & E);
          unfold try_catch; rewrite E; reflexivity
      end.
    - left. rewrite D. do 2 eexists. split; [reflexivity|cbn; tauto]. }
  destruct ((Request.method req =? "POST") && is_root (subRoute req)) eqn:P.
  2:{ left. rewrite D. do 2 eexists. split; [reflexivity|cbn; tauto]. }
  pose proof (parseRequestBody_outcome req w) as PB.
  assert (D' : serve env handleCors req w
               = match parseRequestBody req w with
                 | (inr a, w') =>
                     try_catch (createExpense env a (User.id u))
                       (fun error => respond (errorResponse error None)) w'
                 | (inl e, w') => respond (errorResponse e None) w'
                 end).
  { rewrite D. unfold try_catch, bind.
    destruct (parseRequestBody req w) as [[e|a] w']; reflexivity. }
  clear D. rewrite PB in D'.
  destruct (Request.content_type req) as [ct|].
  2:{ left. rewrite D'. do 2 eexists. split; [reflexivity|cbn; tauto]. }
  destruct (includes "application/json" ct).
  2:{ left. rewrite D'. do 2 eexists. split; [reflexivity|cbn; tauto]. }
  destruct (Request.json req) as [m|body].
  { left. rewrite D'. do 2 eexists. split; [reflexivity|cbn; tauto]. }
  right. right. exists body, u. rewrite D'.
  destruct (createExpense_returns env body (User.id u) w) as (r & w' & E).
  unfold try_catch. rewrite E. reflexivity.
Qed.



Lemma deleteExpense_adds_nothing (env : Env.t) (s : Store.t) (id : string)
    (e : Expense.t) :
  In e (Store.expenses (World.store (snd (deleteExpense env id (world0 s))))) ->
  In e (Store.expenses s).
Proof.
  exec; intros I; try exact I. apply filter_In in I. tauto.
Qed.

(** Whatever the store answers, a delete never removes a completed
    expense nor an expense with another id, adds nothing, and leaves the
    employees and the transactions alone. *)
Theorem delete_never_removes_completed (env : Env.t) (s : Store.t) (id : string) :
  (forall e, In e (Store.expenses s) ->
             Expense.payment_status e = completed \/ Expense.id e <> id ->
             In e (Store.expenses (World.store (snd (deleteExpense env id (world0 s))))))
  /\ (forall e,
         In e (Store.expenses (World.store (snd (deleteExpense env id (world0 s))))) ->
         In e (Store.expenses s))
  /\ Store.employees (World.store (snd (deleteExpense env id (world0 s))))
     = Store.employees s
  /\ Store.transactions (World.store (snd (deleteExpense env id (world0 s))))
     = Store.transactions s.
Proof.
  exec; (split; [|split; [|split; reflexivity]]); try (intros e I; exact I);
    try (intros e I _; exact I).
  - intros e I K. apply filter_In. split; [exact I|].
    destruct (has_id id e) eqn:H; [|reflexivity]. exfalso.
    match goal with
    | E : select_expense_by_id _ _ = inr ?t |- _ =>
        unfold select_expense_by_id in E; apply single_inr in E;
        assert (X : In e (filter (has_id id) (Store.expenses s)))
          by (apply filter_In; auto);
        rewrite E in X; destruct X as [<- | []]
    end.
    status_facts. destruct K as [K|K]; [congruence|].
    unfold has_id in H. apply String.eqb_eq in H. congruence.
  - intros e I. apply filter_In in I. tauto.
Qed.

Lemma delete_never_removes_completed_witness :
  In (rent_expense completed)
    (Store.expenses
       (World.store (snd (deleteExpense sample_env "e-1"
                            (world0 (store_with (rent_expense completed))))))).
Proof.
  apply (proj1 (delete_never_removes_completed sample_env
                  (store_with (rent_expense completed)) "e-1")).
  - left. reflexivity.
  - left. reflexivity.
Defined.


(** ** What the operations leave alone *)

Lemma getExpenses_store (env : Env.t) (filters : ExpenseFilters.t) (w : World.t) :
  World.store (snd (getExpenses env filters w)) = World.store w.
Proof.
  unfold getExpenses, try_catch, bind, call, throw, ret, respond, query. cbn.
  destruct (Env.fault env _); cbn; [reflexivity|].
  destruct (select_expenses _ _); cbn; [reflexivity|].
  destruct (dedup _); cbn; [reflexivity|].
  destruct (Env.fault env _); reflexivity.
Qed.

(** The read operations never change the store, whatever the store
    answers: after a list, a getById or a categories call the three tables
    are what they were. *)
Theorem reads_leave_store_unchanged (env : Env.t) (w : World.t) :
  (forall filters, World.store (snd (getExpenses env filters w)) = World.store w)
  /\ (forall id, World.store (snd (getExpenseById env id w)) = World.store w)
  /\ World.store (snd (getExpenseCategories w)) = World.store w.
Proof.
  split; [|split].
  - intros filters. apply getExpenses_store.
  - intros id. exec; reflexivity.
  - reflexivity.
Qed.

Lemma createExpense_appends (env : Env.t) (body : Partial.t) (userId : string)
    (w : World.t) :
  Store.employees (World.store (snd (createExpense env body userId w)))
  = Store.employees (World.store w)
  /\ exists new,
       Store.expenses (World.store (snd (createExpense env body userId w)))
       = Store.expenses (World.store w) ++ new
       /\ (length new <= 1)%nat.
Proof.
  exec; (split; [reflexivity|]);
    first [ exists []; split; [now rewrite app_nil_r|cbn; lia]
          | eexists [_]; split; [reflexivity|cbn; lia] ].
Qed.

(** Through the router no expense is ever updated or deleted: after any
    request the employees are untouched and the expenses are those stored
    before, in place and unchanged, followed by at most one new row. *)
Theorem router_only_appends (env : Env.t)
    (handleCors : Request.t -> option Response.t) (req : Request.t) (w : World.t) :
  handleCors req = None ->
  Store.employees (World.store (snd (serve env handleCors req w)))
  = Store.employees (World.store w)
  /\ exists new,
       Store.expenses (World.store (snd (serve env handleCors req w)))
       = Store.expenses (World.store w) ++ new
       /\ (length new <= 1)%nat.
Proof.
  intros C.
  destruct (serve_outcome env handleCors req w C)
    as [(st & b & E & I) | [(f & E) | (b & u & E)]]; rewrite E.
  - split; [reflexivity|]. exists []. split; [now rewrite app_nil_r|cbn; lia].
  - rewrite getExpenses_store. split; [reflexivity|].
    exists []. split; [now rewrite app_nil_r|cbn; lia].
  - apply createExpense_appends.
Qed.

(** An authenticated DELETE on an existing pending expense, sent through
    the router: the row is still there. *)
Lemma router_only_appends_witness :
  exists new,
    Store.expenses
      (World.store
         (snd (serve sample_env preflight_handleCors
                 (Request.mk "DELETE" "/functions/v1/expenses/e-1" []
                    (Some "Bearer good-token") None (inl "no body"))
                 (world0 (store_with (rent_expense pending))))))
    = [rent_expense pending] ++ new
    /\ (length new <= 1)%nat.
Proof.
  apply (router_only_appends sample_env preflight_handleCors
           (Request.mk "DELETE" "/functions/v1/expenses/e-1" []
              (Some "Bearer good-token") None (inl "no body"))
           (world0 (store_with (rent_expense pending))) eq_refl).
Defined.

(** ** What an update keeps *)

Lemma update_expense_keeps_ids (id : string) (u : Partial.t) (l : list Expense.t) :
  map Expense.id (map (fun e => if has_id id e then apply_updates u e else e) l)
  = map Expense.id l
  /\ map Expense.created_at
       (map (fun e => if has_id id e then apply_updates u e else e) l)
     = map Expense.created_at l.
Proof.
  rewrite !map_map. split; apply map_ext; intros e;
    destruct (has_id id e); reflexivity.
Qed.

(** Whatever the store answers and whatever the payload, an update keeps
    the number and the order of the rows, their ids and their creation
    times; rows with another id are not touched; no employee is touched. *)
Theorem update_keeps_rows_and_ids (env : Env.t) (s : Store.t) (id : string)
    (updates : Partial.t) :
  map Expense.id
    (Store.expenses (World.store (snd (updateExpense env id updates (world0 s)))))
  = map Expense.id (Store.expenses s)
  /\ map Expense.created_at
       (Store.expenses (World.store (snd (updateExpense env id updates (world0 s)))))
     = map Expense.created_at (Store.expenses s)
  /\ filter (fun e => negb (has_id id e))
       (Store.expenses (World.store (snd (updateExpense env id updates (world0 s)))))
     = filter (fun e => negb (has_id id e)) (Store.expenses s)
  /\ Store.employees (World.store (snd (updateExpense env id updates (world0 s))))
     = Store.employees s.
Proof.
  assert (F : forall l,
             filter (fun e => negb (has_id id e))
               (map (fun e => if has_id id e then apply_updates updates e else e) l)
             = filter (fun e => negb (has_id id e)) l).
  { induction l as [|e l IH]; [reflexivity|]. cbn [map filter].
    destruct (has_id id e) eqn:H.
    - change (has_id id (apply_updates updates e)) with (has_id id e).
      rewrite H. exact IH.
    - rewrite H. cbn [negb]. now rewrite IH. }
  exec; repeat split; try reflexivity;
    try apply (proj1 (update_expense_keeps_ids id updates _));
    try apply (proj2 (update_expense_keeps_ids id updates _));
    apply F.
Qed.

(** ** Refusals and failures *)

(** A payload the validator refuses is answered 400 with the validator's
    message before the store is called at all, by create and by update
    alike: an update answers 400, not 404, also for an id that names no
    row. *)
Theorem invalid_payload_makes_no_store_call (env : Env.t) (w : World.t)
    (body : Partial.t) :
  ExpenseValidation.isValid (validateExpense body) = false ->
  exists msg,
    ExpenseValidation.message (validateExpense body) = Some msg
    /\ (forall userId,
           createExpense env body userId w
           = (inr (Response.mk 400 (ErrorBody msg (Some (ErrorObject msg None)))), w))
    /\ (forall id,
           updateExpense env id body w
           = (inr (Response.mk 400 (ErrorBody msg (Some (ErrorObject msg None)))), w)).
Proof.
  intros V. destruct (validation_error_400 body V) as (msg & E & R).
  exists msg. split; [now rewrite E|]. split.
  - intros userId. unfold createExpense, try_catch, respond, ret.
    rewrite V. cbn [negb]. now rewrite R.
  - intros id. unfold updateExpense, try_catch, respond, ret.
    rewrite V. cbn [negb]. now rewrite R.
Qed.

Lemma invalid_payload_makes_no_store_call_witness :
  exists msg,
    ExpenseValidation.message (validateExpense only_payment_status) = Some msg
    /\ (forall userId,
           createExpense ledger_down only_payment_status userId (world0 sample_store)
           = (inr (Response.mk 400 (ErrorBody msg (Some (ErrorObject msg None)))),
              world0 sample_store))
    /\ (forall id,
           updateExpense ledger_down id only_payment_status (world0 sample_store)
           = (inr (Response.mk 400 (ErrorBody msg (Some (ErrorObject msg None)))),
              world0 sample_store)).
Proof.
  apply (invalid_payload_makes_no_store_call ledger_down (world0 sample_store)
           only_payment_status).
  reflexivity.
Defined.

(** The outcome of the employee lookup of a handler: the failure of the
    call, or what the table gives. *)
Lemma create_insert_then_lookup (env : Env.t) (s : Store.t) (body : Partial.t)
    (userId : string) (e : Expense.t) (j : JsError) :
  ExpenseValidation.isValid (validateExpense body) = true ->
  Env.fault env (InsertExpense (with_default_status body)) = None ->
  new_row (Env.generated_id env) (Env.db_now env) (with_default_status body)
  = Some e ->
  Env.fault env (SelectEmployeeById (Expense.employee_id e)) = Some j
  \/ (Env.fault env (SelectEmployeeById (Expense.employee_id e)) = None
      /\ select_employee_by_id (Expense.employee_id e) s = inl j) ->
  createExpense env body userId (world0 s)
  = (inr (Response.mk 400 (handleError j)),
     World.mk (Store.mk (Store.expenses s ++ [e]) (Store.employees s)
                        (Store.transactions s))
              [InsertExpense (with_default_status body);
               SelectEmployeeById (Expense.employee_id e)]).
Proof.
  intros V F N L.
  unfold createExpense, try_catch, bind, call, throw, ret, respond, query,
    insert_expense, world0.
  rewrite V. cbn [negb].
  change (if falsy_enum (Partial.payment_status body)
          then Partial.set_payment_status body pending else body)
    with (with_default_status body).
  rewrite F, N. cbn.
  destruct L as [L | [L1 L2]].
  - rewrite L. reflexivity.
  - rewrite L1. unfold select_employee_by_id in *. cbn. rewrite L2. reflexivity.
Qed.

(** A create is not atomic.  When the insert is accepted and the lookup
    of the employee then fails (the call fails, or the table has no such
    employee), the caller gets 400 with that error, but the new row stays
    in the store, and no transaction is written for it even when its
    payment is completed. *)
Theorem create_keeps_row_when_lookup_fails (env : Env.t) (s : Store.t)
    (body : Partial.t) (userId : string) (e : Expense.t) (j : JsError) :
  ExpenseValidation.isValid (validateExpense body) = true ->
  Env.fault env (InsertExpense (with_default_status body)) = None ->
  new_row (Env.generated_id env) (Env.db_now env) (with_default_status body)
  = Some e ->
  Env.fault env (SelectEmployeeById (Expense.employee_id e)) = Some j
  \/ (Env.fault env (SelectEmployeeById (Expense.employee_id e)) = None
      /\ select_employee_by_id (Expense.employee_id e) s = inl j) ->
  exists w,
    createExpense env body userId (world0 s) = (inr (Response.mk 400 (handleError j)), w)
    /\ Store.expenses (World.store w) = Store.expenses s ++ [e]
    /\ transaction_inserts (World.trace w) = []
    /\ Store.transactions (World.store w) = Store.transactions s.
Proof.
  intros V F N L. eexists. split.
  - apply (create_insert_then_lookup env s body userId e j V F N L).
  - cbn. auto.
Qed.

(** A completed expense for an employee the table does not have. *)
Lemma create_keeps_row_when_lookup_fails_witness :
  exists w,
    createExpense sample_env reassigned_body "user-7" (world0 sample_store)
    = (inr (Response.mk 400 (handleError PGRST116)), w)
    /\ Store.expenses (World.store w)
       = Store.expenses sample_store
         ++ [Expense.mk "e-1" "2024-01-01" (100 # 1) rent "Office rent" completed
               None None None "22222222-2222-2222-2222-222222222222"
               (Some "2024-01-01T00:00:00Z")]
    /\ transaction_inserts (World.trace w) = []
    /\ Store.transactions (World.store w) = Store.transactions sample_store.
Proof.
  apply (create_keeps_row_when_lookup_fails sample_env sample_store reassigned_body
           "user-7" _ PGRST116).
  - reflexivity.
  - reflexivity.
  - reflexivity.
  - right. split; reflexivity.
Defined.

Lemma single_inl {A : Type} (l : list A) (j : JsError) :
  single l = inl j -> j = PGRST116 /\ length l <> 1%nat.
Proof.
  destruct l as [|x [|y l]]; cbn; intros H; inversion H; split;
    try reflexivity; discriminate.
Qed.

(** The three handlers that start by looking the expense up answer a
    failed lookup alike and stop there: 404 "Expense not found" when the
    error has the code PGRST116, which is what the store gives when the
    id names no row or more than one, and 400 with the message of the
    error otherwise.  No further call is made and nothing is changed. *)
Theorem failed_lookup_answer (env : Env.t) (s : Store.t) (id : string)
    (j : JsError) :
  expense_lookup env id s = inl j ->
  getExpenseById env id (world0 s)
  = (inr (lookup_failure_answer j), World.mk s [SelectExpenseById id])
  /\ deleteExpense env id (world0 s)
     = (inr (lookup_failure_answer j), World.mk s [SelectExpenseById id])
  /\ (forall updates,
         ExpenseValidation.isValid (validateExpense updates) = true ->
         updateExpense env id updates (world0 s)
         = (inr (lookup_failure_answer j), World.mk s [SelectExpenseById id]))
  /\ (Env.fault env (SelectExpenseById id) = None ->
      length (filter (has_id id) (Store.expenses s)) <> 1%nat
      /\ lookup_failure_answer j
         = Response.mk 404 (ErrorBody "Expense not found"
                              (Some (ErrorObject "Expense not found" None)))).
Proof.
  unfold expense_lookup, lookup_failure_answer. intros L.
  split; [|split; [|split]].
  - unfold getExpenseById, try_catch, bind, call, throw, ret, respond, query, world0.
    cbn. destruct (Env.fault env (SelectExpenseById id)) as [k|].
    + inversion L; subst. cbn. destruct (is_PGRST116 j); reflexivity.
    + rewrite L. cbn. destruct (is_PGRST116 j); reflexivity.
  - unfold deleteExpense, try_catch, bind, call, throw, ret, respond, query, world0.
    cbn. destruct (Env.fault env (SelectExpenseById id)) as [k|].
    + inversion L; subst. cbn. destruct (is_PGRST116 j); reflexivity.
    + rewrite L. cbn. destruct (is_PGRST116 j); reflexivity.
  - intros updates V.
    unfold updateExpense, try_catch, bind, call, throw, ret, respond, query, world0.
    rewrite V. cbn. destruct (Env.fault env (SelectExpenseById id)) as [k|].
    + inversion L; subst. cbn. destruct (is_PGRST116 j); reflexivity.
    + rewrite L. cbn. destruct (is_PGRST116 j); reflexivity.
  - intros F. rewrite F in L. unfold select_expense_by_id in L.
    apply single_inl in L as [-> N]. split; [exact N|reflexivity].
Qed.

(** Two rows under the id "e-1": the lookup fails and the answer is 404. *)
Lemma failed_lookup_answer_witness :
  deleteExpense sample_env "e-1" (world0 twin_store)
  = (inr (Response.mk 404 (ErrorBody "Expense not found"
                             (Some (ErrorObject "Expense not found" None)))),
     World.mk twin_store [SelectExpenseById "e-1"]).
Proof.
  apply (proj1 (proj2 (failed_lookup_answer sample_env twin_store "e-1" PGRST116
                         eq_refl))).
Defined.

(** ** What the ledger row says *)

Lemma create_trigger_mutated (r : JsError + Response.t) (e : Expense.t) :
  create_trigger r = Some e -> mutated_expense 201 r = Some e.
Proof.
  unfold create_trigger. destruct (mutated_expense 201 r) as [x|]; [|discriminate].
  destruct (PaymentStatus_eqb _ _); [|discriminate]. congruence.
Qed.

Lemma update_trigger_mutated (s : Store.t) (id : string) (u : Partial.t)
    (r : JsError + Response.t) (old e : Expense.t) :
  update_trigger s id u r = Some (old, e) -> mutated_expense 200 r = Some e.
Proof.
  unfold update_trigger. destruct (mutated_expense 200 r) as [x|]; [|discriminate].
  destruct (select_expense_by_id id s); [discriminate|].
  destruct (_ && _); [|discriminate]. congruence.
Qed.

(** A transaction a create or an update writes describes the expense the
    caller gets back: its amount, its payment method (cash when the
    expense has none), the status completed, the text
    "Expense: <description> (<category>)" and the time of the clock.  For
    an update these are the values after the update. *)
Theorem transaction_describes_returned_expense (env : Env.t) (s : Store.t) :
  (forall body userId row,
      In row (transaction_inserts
                (World.trace (snd (createExpense env body userId (world0 s))))) ->
      exists e,
        mutated_expense 201 (fst (createExpense env body userId (world0 s))) = Some e
        /\ TransactionData.amount row = Expense.amount e
        /\ TransactionData.payment_method row
           = match Expense.payment_method e with Some m => m | None => cash end
        /\ TransactionData.payment_status row = completed
        /\ TransactionData.description row
           = ("Expense: " ++ Expense.description e ++ " ("
                ++ ExpenseCategory_to_string (Expense.category e) ++ ")")%string
        /\ TransactionData.updated_at row = Env.js_now env)
  /\ (forall id updates row,
      In row (transaction_inserts
                (World.trace (snd (updateExpense env id updates (world0 s))))) ->
      exists e,
        mutated_expense 200 (fst (updateExpense env id updates (world0 s))) = Some e
        /\ TransactionData.amount row = Expense.amount e
        /\ TransactionData.payment_method row
           = match Expense.payment_method e with Some m => m | None => cash end
        /\ TransactionData.payment_status row = completed
        /\ TransactionData.description row
           = ("Expense: " ++ Expense.description e ++ " ("
                ++ ExpenseCategory_to_string (Expense.category e) ++ ")")%string
        /\ TransactionData.updated_at row = Env.js_now env).
Proof.
  split.
  - intros body userId row.
    pose proof (createExpense_transaction_inserts env s body userId) as H.
    destruct (createExpense env body userId (world0 s)) as [r w]. cbn [fst snd].
    rewrite H. destruct (create_trigger r) as [e|] eqn:T; [|intros []].
    intros [<- | []]. exists e. split; [now apply create_trigger_mutated|].
    cbn. auto 10.
  - intros id updates row.
    pose proof (updateExpense_transaction_inserts env s id updates) as H.
    destruct (updateExpense env id updates (world0 s)) as [r w]. cbn [fst snd].
    rewrite H. destruct (update_trigger s id updates r) as [[old e]|] eqn:T;
      [|intros []].
    intros [<- | []]. exists e.
    split; [now apply (update_trigger_mutated s id updates r old)|].
    cbn. auto 10.
Qed.

(** A pending rent of 100 is updated to 250, paid by card: the ledger row
    says 250 and card. *)
Lemma transaction_describes_returned_expense_witness :
  exists e,
    mutated_expense 200
      (fst (updateExpense sample_env "e-1" repriced_body
              (world0 (store_with (rent_expense pending))))) = Some e
    /\ TransactionData.amount
         (transactionData sample_env
            (apply_updates repriced_body (rent_expense pending))
            "11111111-1111-1111-1111-111111111111")
       = Expense.amount e
    /\ Expense.amount e = (250 # 1)
    /\ Expense.payment_method e = Some card.
Proof.
  destruct (proj2 (transaction_describes_returned_expense sample_env
                     (store_with (rent_expense pending)))
              "e-1" repriced_body
              (transactionData sample_env
                 (apply_updates repriced_body (rent_expense pending))
                 "11111111-1111-1111-1111-111111111111"))
    as (e & M & A & _).
  - cbn. left. reflexivity.
  - exists e. split; [exact M|]. split; [exact A|].
    cbn in M. inversion M; subst e. split; reflexivity.
Defined.

(** ** Paths *)

Lemma split_slash_nonempty (s : string) : split_slash s <> [].
Proof.
  destruct s as [|c s]; cbn; [discriminate|].
  destruct (nat_of_ascii c =? 47)%nat; [discriminate|].
  destruct (split_slash s); discriminate.
Qed.

Lemma split_slash_segment (x t : string) :
  no_slash x = true ->
  split_slash (x ++ String "/" t) = x :: split_slash t.
Proof.
  induction x as [|c x IH]; cbn; [reflexivity|].
  intros H. apply andb_true_iff in H as [C N]. apply negb_true_iff in C.
  rewrite C, (IH N). reflexivity.
Qed.

Lemma split_slash_last (x : string) : no_slash x = true -> split_slash x = [x].
Proof.
  induction x as [|c x IH]; cbn; [reflexivity|].
  intros H. apply andb_true_iff in H as [C N]. apply negb_true_iff in C.
  rewrite C, (IH N). reflexivity.
Qed.

Lemma split_slash_parts_no_slash (s x : string) :
  In x (split_slash s) -> no_slash x = true.
Proof.
  revert x. induction s as [|c s IH]; intros x; cbn.
  - intros [<- | []]. reflexivity.
  - destruct (nat_of_ascii c =? 47)%nat eqn:C.
    + intros [<- | H]; [reflexivity|apply IH, H].
    + destruct (split_slash s) as [|y l] eqn:S.
      * intros [<- | []]. cbn. now rewrite C.
      * intros [<- | H].
        -- cbn. rewrite C. cbn. apply IH. left. reflexivity.
        -- apply IH. right. exact H.
Qed.

Lemma slash_char (c : ascii) :
  (nat_of_ascii c =? 47)%nat = true <-> c = "/"%char.
Proof.
  rewrite Nat.eqb_eq. split.
  - intros H. rewrite <- (ascii_nat_embedding c), H. reflexivity.
  - intros ->. reflexivity.
Qed.

Lemma concat_cons2 (sep x y : string) (l : list string) :
  String.concat sep (x :: y :: l) = (x ++ sep ++ String.concat sep (y :: l))%string.
Proof. reflexivity. Qed.

Lemma join_split_slash (s : string) : join_slash (split_slash s) = s.
Proof.
  unfold join_slash. induction s as [|c s IH]; [reflexivity|]. cbn [split_slash].
  pose proof (split_slash_nonempty s) as NE.
  destruct (nat_of_ascii c =? 47)%nat eqn:C.
  - apply slash_char in C. subst c.
    destruct (split_slash s) as [|y l]; [congruence|].
    rewrite concat_cons2, IH. reflexivity.
  - destruct (split_slash s) as [|y l]; [congruence|].
    destruct l as [|z l].
    + cbn in *. now rewrite IH.
    + rewrite concat_cons2. rewrite concat_cons2 in IH. rewrite <- IH. reflexivity.
Qed.

Lemma strip_functions_prefix_append (r : string) :
  strip_functions_prefix ("/functions/v1/" ++ r) = r.
Proof.
  unfold strip_functions_prefix. rewrite (prefix_append "/functions/v1/" r).
  exact (substring_append "/functions/v1/" r).
Qed.

(** How the router reads a path.  Under the prefix [/functions/v1/] the
    main route and the sub-route are the next two segments, whatever
    follows them: so [/functions/v1/expenses/x/more] has the sub-route
    [x], and [/functions/v1/expenses//x] the empty one.  A path that does
    not begin with that prefix has the empty main route.  Splitting loses
    nothing: the segments have no slash and joined by slashes they give
    the path back. *)
Theorem path_segments (req : Request.t) :
  (forall x tail,
      no_slash x = true ->
      tail = "" \/ (exists t, tail = String "/" t) ->
      Request.pathname req = ("/functions/v1/expenses/" ++ x ++ tail)%string ->
      mainRoute req = "expenses" /\ subRoute req = x)
  /\ (Request.pathname req = "/functions/v1/expenses" ->
      mainRoute req = "expenses" /\ subRoute req = "")
  /\ (forall r,
      Request.pathname req = String "/" r ->
      prefix "/functions/v1/" (Request.pathname req) = false ->
      mainRoute req = "")
  /\ (forall x, In x (pathParts req) -> no_slash x = true)
  /\ join_slash (pathParts req) = strip_functions_prefix (Request.pathname req).
Proof.
  unfold mainRoute, subRoute, pathParts.
  split; [|split; [|split; [|split]]].
  - intros x tail N T P. rewrite P.
    assert (S : strip_functions_prefix ("/functions/v1/expenses/" ++ x ++ tail)
                = ("expenses" ++ String "/" (x ++ tail))%string)
      by exact (strip_functions_prefix_append
                  ("expenses" ++ String "/" (x ++ tail))).
    rewrite S, (split_slash_segment "expenses" (x ++ tail) eq_refl).
    destruct T as [-> | (t & ->)].
    + rewrite append_empty_r, (split_slash_last x N). auto.
    + rewrite (split_slash_segment x t N). auto.
  - intros P. rewrite P. split; reflexivity.
  - intros r P F. unfold strip_functions_prefix. rewrite F, P. cbn.
    reflexivity.
  - intros x. apply split_slash_parts_no_slash.
  - apply join_split_slash.
Qed.

Lemma path_segments_witness :
  (mainRoute (get_request "/functions/v1/expenses/e-1/receipts" None) = "expenses"
   /\ subRoute (get_request "/functions/v1/expenses/e-1/receipts" None) = "e-1")
  /\ mainRoute (get_request "/expenses/e-1" None) = "".
Proof.
  split.
  - apply (proj1 (path_segments (get_request "/functions/v1/expenses/e-1/receipts" None))
             "e-1" "/receipts").
    + reflexivity.
    + right. eexists. reflexivity.
    + reflexivity.
  - apply (proj1 (proj2 (proj2 (path_segments (get_request "/expenses/e-1" None))))
             "expenses/e-1");
      reflexivity.
Defined.

(** ** What the router answers by itself *)

(** Two answers come before the authentication and without a call to the
    store, whatever the Authorization header says: 404 "Not found" when
    the main route is not "expenses", and 405 for any method but GET on
    the sub-route "summary".  Both carry the bare error, without
    details. *)
Theorem answers_before_authentication (env : Env.t)
    (handleCors : Request.t -> option Response.t) (req : Request.t) (w : World.t) :
  handleCors req = None ->
  (mainRoute req <> "expenses" ->
   serve env handleCors req w
   = (inr (Response.mk 404 (ErrorBody "Not found" None)), w))
  /\ (mainRoute req = "expenses" ->
      subRoute req = "summary" ->
      Request.method req <> "GET" ->
      serve env handleCors req w
      = (inr (Response.mk 405 (ErrorBody "Method not allowed" None)), w)).
Proof.
  intros C. split.
  - apply serve_not_found, C.
  - intros M S G. rewrite (serve_dispatch env handleCors req C M), S.
    apply String.eqb_neq in G. rewrite G. reflexivity.
Qed.

Lemma answers_before_authentication_witness :
  serve sample_env preflight_handleCors
    (get_request "/expenses" (Some "Bearer good-token")) (world0 sample_store)
  = (inr (Response.mk 404 (ErrorBody "Not found" None)), world0 sample_store)
  /\ serve sample_env preflight_handleCors
       (Request.mk "POST" "/functions/v1/expenses/summary" [] None None
          (inl "no body"))
       (world0 sample_store)
     = (inr (Response.mk 405 (ErrorBody "Method not allowed" None)),
        world0 sample_store).
Proof.
  split.
  - apply (proj1 (answers_before_authentication sample_env preflight_handleCors
                    (get_request "/expenses" (Some "Bearer good-token"))
                    (world0 sample_store) eq_refl)).
    discriminate.
  - apply (proj2 (answers_before_authentication sample_env preflight_handleCors
                    (Request.mk "POST" "/functions/v1/expenses/summary" [] None None
                       (inl "no body"))
                    (world0 sample_store) eq_refl)).
    + reflexivity.
    + reflexivity.
    + discriminate.
Defined.

(** An authenticated request that is neither a GET nor a POST on the
    collection is answered 405 without a call to the store: any other
    method, a POST on a sub-route, a GET on a sub-route. *)
Theorem other_routes_answer_405 (env : Env.t)
    (handleCors : Request.t -> option Response.t) (req : Request.t)
    (u : User.t) (w : World.t) :
  handleCors req = None ->
  mainRoute req = "expenses" ->
  subRoute req <> "summary" ->
  bearer_token env req u ->
  subRoute req <> ""
  \/ (Request.method req <> "GET" /\ Request.method req <> "POST") ->
  serve env handleCors req w
  = (inr (Response.mk 405
            (ErrorBody "Method not allowed"
               (Some (ErrorObject "Method not allowed" None)))),
     w).
Proof.
  intros C M S B H.
  rewrite (serve_dispatch env handleCors req C M).
  apply String.eqb_neq in S. rewrite S.
  apply getUserFromRequest_spec in B. rewrite B.
  destruct (subRoute_slash_tests req) as (T & _).
  unfold is_root. rewrite T, orb_false_r.
  destruct H as [N | [G P]].
  - apply String.eqb_neq in N. rewrite N, andb_false_r.
    destruct (Request.method req =? "GET"); reflexivity.
  - apply String.eqb_neq in G, P. rewrite G, P. reflexivity.
Qed.

Lemma other_routes_answer_405_witness :
  serve sample_env preflight_handleCors
    (Request.mk "POST" "/functions/v1/expenses/e-1" []
       (Some "Bearer good-token") (Some "application/json") (inr rent_body))
    (world0 sample_store)
  = (inr (Response.mk 405
            (ErrorBody "Method not allowed"
               (Some (ErrorObject "Method not allowed" None)))),
     world0 sample_store).
Proof.
  apply (other_routes_answer_405 sample_env preflight_handleCors
           (Request.mk "POST" "/functions/v1/expenses/e-1" []
              (Some "Bearer good-token") (Some "application/json") (inr rent_body))
           (User.mk "user-7")).
  - reflexivity.
  - reflexivity.
  - discriminate.
  - exists "good-token". split; reflexivity.
  - left. discriminate.
Defined.

(** ** The body of a POST *)

(** An authenticated POST on the collection whose body cannot be read is
    answered 400 and the store is not called: without a Content-Type that
    contains "application/json" the body is not even looked at, and a
    body that is not JSON is reported with the message of the parser. *)
Theorem unreadable_body_is_400 (env : Env.t)
    (handleCors : Request.t -> option Response.t) (req : Request.t)
    (u : User.t) (w : World.t) :
  handleCors req = None ->
  mainRoute req = "expenses" ->
  Request.method req = "POST" ->
  subRoute req = "" ->
  bearer_token env req u ->
  ((Request.content_type req = None
    \/ exists ct, Request.content_type req = Some ct
                  /\ includes "application/json" ct = false) ->
   serve env handleCors req w
   = (inr (Response.mk 400
             (handleError
                (ErrorObject
                   "Failed to parse request body: Content-Type must be application/json"
                   None))), w))
  /\ (forall ct syntaxError,
         Request.content_type req = Some ct ->
         includes "application/json" ct = true ->
         Request.json req = inl syntaxError ->
         serve env handleCors req w
         = (inr (Response.mk 400
                   (handleError
                      (ErrorObject
                         ("Failed to parse request body: " ++ syntaxError) None))),
            w)).
Proof.
  intros C M P S B. split.
  - intros H.
    apply (serve_post_unreadable env handleCors req u _ w C M P S B).
    rewrite parseRequestBody_outcome.
    destruct H as [-> | (ct & -> & ->)]; reflexivity.
  - intros ct m CT I J.
    apply (serve_post_unreadable env handleCors req u _ w C M P S B).
    rewrite parseRequestBody_outcome, CT, I, J. reflexivity.
Qed.

Lemma unreadable_body_is_400_witness :
  serve sample_env preflight_handleCors
    (Request.mk "POST" "/functions/v1/expenses" []
       (Some "Bearer good-token") (Some "text/plain") (inr rent_body))
    (world0 sample_store)
  = (inr (Response.mk 400
            (handleError
               (ErrorObject
                  "Failed to parse request body: Content-Type must be application/json"
                  None))),
     world0 sample_store).
Proof.
  apply (proj1 (unreadable_body_is_400 sample_env preflight_handleCors
                  (Request.mk "POST" "/functions/v1/expenses" []
                     (Some "Bearer good-token") (Some "text/plain") (inr rent_body))
                  (User.mk "user-7") (world0 sample_store)
                  eq_refl eq_refl eq_refl eq_refl
                  (ex_intro _ "good-token" (conj eq_refl eq_refl)))).
  right. exists "text/plain". split; reflexivity.
Defined.

(** ** The list *)

Lemma insert_date_desc_perm (e : Expense.t) (l : list Expense.t) :
  Permutation (insert_date_desc e l) (e :: l).
Proof.
  induction l as [|x l IH]; cbn; [reflexivity|].
  destruct (String.leb (Expense.date x) (Expense.date e)); [reflexivity|].
  rewrite IH. apply perm_swap.
Qed.

Lemma order_date_desc_perm (l : list Expense.t) :
  Permutation (order_date_desc l) l.
Proof.
  induction l as [|e l IH]; cbn; [reflexivity|].
  rewrite insert_date_desc_perm. now constructor.
Qed.

Lemma insert_date_desc_sorted (e : Expense.t) (l : list Expense.t) :
  Sorted date_desc l -> Sorted date_desc (insert_date_desc e l).
Proof.
  induction l as [|x l IH]; cbn; intros S.
  - repeat constructor.
  - destruct (String.leb (Expense.date x) (Expense.date e)) eqn:L.
    + constructor; [exact S|]. constructor. exact L.
    + inversion S as [|? ? S' H]; subst. constructor; [apply IH, S'|].
      assert (X : date_desc x e).
      { unfold date_desc.
        destruct (String.leb_total (Expense.date x) (Expense.date e)) as [T|T];
          [congruence|exact T]. }
      destruct l as [|y l]; cbn.
      * constructor. exact X.
      * destruct (String.leb (Expense.date y) (Expense.date e));
          constructor; [exact X|]. now inversion H.
Qed.

Lemma order_date_desc_sorted (l : list Expense.t) :
  Sorted date_desc (order_date_desc l).
Proof.
  induction l as [|e l IH]; cbn; [constructor|].
  apply insert_date_desc_sorted, IH.
Qed.

Lemma when_truthy_forallb (o : option string) (p : string -> Predicate)
    (e : Expense.t) :
  forallb (satisfies e) (when_truthy o p)
  = passes_filter o (fun v => satisfies e (p v)).
Proof.
  destruct o as [v|]; cbn; [|reflexivity].
  destruct (v =? ""); cbn; [reflexivity|]. apply andb_true_r.
Qed.

Lemma filters_query_matches (f : ExpenseFilters.t) (e : Expense.t) :
  forallb (satisfies e) (filters_query f) = matches_filters f e.
Proof.
  unfold filters_query, matches_filters.
  rewrite !forallb_app, !when_truthy_forallb, !andb_assoc. reflexivity.
Qed.

Lemma getExpenses_listed (env : Env.t) (s : Store.t) (filters : ExpenseFilters.t) :
  Env.fault env (SelectExpenses (filters_query filters)) = None ->
  status_of (fst (getExpenses env filters (world0 s))) = Some 200%Z
  /\ listed_expenses (fst (getExpenses env filters (world0 s)))
     = Some (select_expenses (filters_query filters) s).
Proof.
  intros F.
  unfold getExpenses, try_catch, bind, call, throw, ret, respond, query, world0.
  cbn. rewrite F. cbn.
  destruct (select_expenses (filters_query filters) s) as [|x l]; cbn; [auto|].
  destruct (dedup _) as [|i rest]; cbn; [auto|].
  destruct (Env.fault env (SelectEmployeesIn (i :: rest))); cbn; [auto|].
  split; [reflexivity|]. rewrite map_map. cbn. now rewrite map_id.
Qed.

(** When the store answers the expense query, the list is answered 200
    and carries exactly the stored expenses that match the filters (each
    as often as it is stored), by date descending.  An absent or empty
    filter lets everything through; the date bounds are inclusive.  This
    holds whether or not the employees could be looked up. *)
Theorem list_returns_matching_by_date (env : Env.t) (s : Store.t)
    (filters : ExpenseFilters.t) :
  Env.fault env (SelectExpenses (filters_query filters)) = None ->
  exists l,
    listed_expenses (fst (getExpenses env filters (world0 s))) = Some l
    /\ status_of (fst (getExpenses env filters (world0 s))) = Some 200%Z
    /\ Permutation l (filter (matches_filters filters) (Store.expenses s))
    /\ Sorted date_desc l.
Proof.
  intros F. destruct (getExpenses_listed env s filters F) as [S L].
  exists (select_expenses (filters_query filters) s).
  split; [exact L|]. split; [exact S|]. unfold select_expenses. split.
  - rewrite order_date_desc_perm.
    rewrite (filter_ext _ (matches_filters filters)); [reflexivity|].
    intros e. apply filters_query_matches.
  - apply order_date_desc_sorted.
Qed.

(** All the expenses of February 2024 or later, with the employees table
    out of reach. *)
Lemma list_returns_matching_by_date_witness :
  exists l,
    listed_expenses
      (fst (getExpenses directory_down
              (ExpenseFilters.mk (Some "") (Some "2024-02-01") None None)
              (world0 two_expenses))) = Some l
    /\ status_of
         (fst (getExpenses directory_down
                 (ExpenseFilters.mk (Some "") (Some "2024-02-01") None None)
                 (world0 two_expenses))) = Some 200%Z
    /\ Permutation l [february_expense]
    /\ Sorted date_desc l.
Proof.
  apply (list_returns_matching_by_date directory_down two_expenses
           (ExpenseFilters.mk (Some "") (Some "2024-02-01") None None)).
  reflexivity.
Defined.

Lemma dedup_In (l : list string) (x : string) : In x (dedup l) <-> In x l.
Proof.
  induction l as [|y l IH]; cbn; [tauto|].
  rewrite filter_In, IH, negb_true_iff, String.eqb_neq.
  destruct (string_dec y x) as [->|N]; [tauto|].
  split; [tauto|]. intros [H|H]; [tauto|]. right. split; [exact H|congruence].
Qed.

Lemma dedup_NoDup (l : list string) : NoDup (dedup l).
Proof.
  induction l as [|y l IH]; cbn; constructor.
  - rewrite filter_In, negb_true_iff, String.eqb_neq. tauto.
  - apply NoDup_filter, IH.
Qed.

(** The ids of the batch lookup, and the two ways a list can end once the
    expense query has answered. *)
Lemma getExpenses_run (env : Env.t) (s : Store.t) (filters : ExpenseFilters.t) :
  let expenses := select_expenses (filters_query filters) s in
  let ids := dedup (filter (fun i => negb (i =? ""))
                           (map Expense.employee_id expenses)) in
  Env.fault env (SelectExpenses (filters_query filters)) = None ->
  (batch_lookups (World.trace (snd (getExpenses env filters (world0 s)))) = []
   /\ listed_relations (fst (getExpenses env filters (world0 s))) = None
   /\ ids = [])
  \/ (batch_lookups (World.trace (snd (getExpenses env filters (world0 s)))) = [ids]
      /\ ids <> []
      /\ (listed_relations (fst (getExpenses env filters (world0 s))) = None
          \/ listed_relations (fst (getExpenses env filters (world0 s)))
             = Some (map (fun expense =>
                            ExpenseWithRelations.mk expense
                              (if Expense.employee_id expense =? "" then None
                               else employeeMap_get (select_employees_in ids s)
                                      (Expense.employee_id expense)))
                         expenses))).
Proof.
  intros expenses ids F. subst expenses ids.
  unfold getExpenses, try_catch, bind, call, throw, ret, respond, query, world0.
  cbn. rewrite F. cbn.
  destruct (select_expenses (filters_query filters) s) as [|x l]; cbn; [auto|].
  change (if negb (Expense.employee_id x =? "")
          then Expense.employee_id x
               :: filter (fun i => negb (i =? "")) (map Expense.employee_id l)
          else filter (fun i => negb (i =? "")) (map Expense.employee_id l))
    with (filter (fun i => negb (i =? "")) (map Expense.employee_id (x :: l))).
  destruct (dedup (filter (fun i => negb (i =? ""))
                     (map Expense.employee_id (x :: l)))) as [|i rest] eqn:D;
    cbn; [auto|].
  right. destruct (Env.fault env (SelectEmployeesIn (i :: rest))); cbn.
  - split; [reflexivity|]. split; [discriminate|]. left. reflexivity.
  - split; [reflexivity|]. split; [discriminate|]. right. reflexivity.
Qed.

(** A list asks the employees table at most once, and then for each
    employee id of the listed expenses exactly once, the empty ones left
    out; when no listed expense has an employee id it does not ask at
    all. *)
Theorem list_looks_each_employee_up_once (env : Env.t) (s : Store.t)
    (filters : ExpenseFilters.t) :
  Env.fault env (SelectExpenses (filters_query filters)) = None ->
  exists l,
    listed_expenses (fst (getExpenses env filters (world0 s))) = Some l
    /\ (length (batch_lookups
                  (World.trace (snd (getExpenses env filters (world0 s))))) <= 1)%nat
    /\ (forall ids,
           In ids (batch_lookups
                     (World.trace (snd (getExpenses env filters (world0 s))))) ->
           NoDup ids
           /\ forall i, In i ids <->
                        i <> "" /\ exists e, In e l /\ Expense.employee_id e = i)
    /\ (batch_lookups (World.trace (snd (getExpenses env filters (world0 s)))) = []
        <-> forall e, In e l -> Expense.employee_id e = "").
Proof.
  intros F. destruct (getExpenses_listed env s filters F) as [_ L].
  exists (select_expenses (filters_query filters) s). split; [exact L|].
  set (l := select_expenses (filters_query filters) s).
  assert (I : forall i,
             In i (dedup (filter (fun i => negb (i =? ""))
                            (map Expense.employee_id l)))
             <-> i <> "" /\ exists e, In e l /\ Expense.employee_id e = i).
  { intros i. rewrite dedup_In, filter_In, in_map_iff, negb_true_iff, String.eqb_neq.
    split.
    - intros [(e & E & H) N]. split; [exact N|]. exists e. auto.
    - intros [N (e & H & E)]. split; [exists e; auto|exact N]. }
  destruct (getExpenses_run env s filters F) as [(B & _ & D) | (B & D & _)];
    fold l in D; rewrite B.
  - split; [cbn; lia|]. split; [intros ids []|]. split; [|reflexivity].
    intros _ e H. destruct (string_dec (Expense.employee_id e) "") as [E|N];
      [exact E|]. exfalso.
    assert (X : In (Expense.employee_id e)
                  (dedup (filter (fun i => negb (i =? ""))
                            (map Expense.employee_id l))))
      by (apply I; eauto).
    fold l in X. rewrite D in X. destruct X.
  - split; [cbn; lia|]. split.
    + intros ids [<- | []]. split; [apply dedup_NoDup|exact I].
    + split; [discriminate|]. intros H. exfalso.
      destruct (dedup (filter (fun i => negb (i =? ""))
                         (map Expense.employee_id l))) as [|i rest] eqn:X;
        [congruence|].
      destruct (proj1 (I i) (or_introl eq_refl)) as [N (e & H1 & H2)].
      apply H in H1. congruence.
Qed.

Lemma list_looks_each_employee_up_once_witness :
  exists l,
    listed_expenses (fst (getExpenses sample_env no_filters (world0 two_expenses)))
    = Some l
    /\ (length (batch_lookups
                  (World.trace
                     (snd (getExpenses sample_env no_filters (world0 two_expenses)))))
        <= 1)%nat
    /\ (forall ids,
           In ids (batch_lookups
                     (World.trace
                        (snd (getExpenses sample_env no_filters
                                (world0 two_expenses))))) ->
           NoDup ids
           /\ forall i, In i ids <->
                        i <> "" /\ exists e, In e l /\ Expense.employee_id e = i)
    /\ (batch_lookups
          (World.trace (snd (getExpenses sample_env no_filters (world0 two_expenses))))
        = []
        <-> forall e, In e l -> Expense.employee_id e = "").
Proof.
  apply (list_looks_each_employee_up_once sample_env two_expenses no_filters).
  reflexivity.
Defined.

Lemma employeeMap_get_Some (employees : list Employee.t) (id : string)
    (emp : Employee.t) :
  employeeMap_get employees id = Some emp ->
  In emp employees /\ Employee.id emp = id.
Proof.
  unfold employeeMap_get. intros H. apply find_some in H as [I E].
  apply in_rev in I. apply String.eqb_eq in E. auto.
Qed.

Lemma employeeMap_get_None (employees : list Employee.t) (id : string) :
  employeeMap_get employees id = None ->
  forall emp, In emp employees -> Employee.id emp <> id.
Proof.
  unfold employeeMap_get. intros H emp I.
  apply String.eqb_neq. apply (find_none _ _ H). now apply in_rev in I.
Qed.

(** When a list attaches employees, every expense gets an employee of the
    store whose id is the employee id of the expense, and gets none only
    if it has no employee id or the store has no employee with that id. *)
Theorem list_attaches_matching_employee (env : Env.t) (s : Store.t)
    (filters : ExpenseFilters.t) (l : list ExpenseWithRelations.t) :
  Env.fault env (SelectExpenses (filters_query filters)) = None ->
  listed_relations (fst (getExpenses env filters (world0 s))) = Some l ->
  Forall (fun x =>
            match ExpenseWithRelations.employee x with
            | Some emp =>
                In emp (Store.employees s)
                /\ Employee.id emp
                   = Expense.employee_id (ExpenseWithRelations.expense x)
            | None =>
                Expense.employee_id (ExpenseWithRelations.expense x) = ""
                \/ forall emp, In emp (Store.employees s) ->
                               Employee.id emp
                               <> Expense.employee_id (ExpenseWithRelations.expense x)
            end) l.
Proof.
  intros F L.
  destruct (getExpenses_run env s filters F) as [(_ & N & _) | (_ & _ & [N|R])];
    try congruence.
  rewrite R in L. inversion L; subst l. clear L R.
  apply Forall_forall. intros x I. apply in_map_iff in I as (e & <- & I). cbn.
  destruct (Expense.employee_id e =? "") eqn:E.
  { left. now apply String.eqb_eq. }
  destruct (employeeMap_get _ _) as [emp|] eqn:G.
  - apply employeeMap_get_Some in G as [G1 G2]. split; [|exact G2].
    unfold select_employees_in in G1. apply filter_In in G1. tauto.
  - right. intros emp H K.
    apply (employeeMap_get_None _ _ G emp); [|exact K].
    unfold select_employees_in. apply filter_In. split; [exact H|].
    apply existsb_exists. exists (Expense.employee_id e).
    split; [|now apply String.eqb_eq].
    apply dedup_In, filter_In. split; [apply in_map, I|now rewrite E].
Qed.

(** Alice's rent gets Alice; the water bill, which names no employee,
    gets none. *)
Lemma list_attaches_matching_employee_witness :
  Forall (fun x =>
            match ExpenseWithRelations.employee x with
            | Some emp =>
                In emp (Store.employees two_expenses)
                /\ Employee.id emp
                   = Expense.employee_id (ExpenseWithRelations.expense x)
            | None =>
                Expense.employee_id (ExpenseWithRelations.expense x) = ""
                \/ forall emp, In emp (Store.employees two_expenses) ->
                               Employee.id emp
                               <> Expense.employee_id (ExpenseWithRelations.expense x)
            end)
    [ExpenseWithRelations.mk february_expense None;
     ExpenseWithRelations.mk (rent_expense pending) (Some alice)].
Proof.
  apply (list_attaches_matching_employee sample_env two_expenses no_filters);
    reflexivity.
Defined.

(** ** The query string and the bearer token *)

(** The filters of a list request.  An authenticated GET on the
    collection is the list with the filters [category], [start_date],
    [end_date] and [payment_status] of the query string.  Of a repeated
    parameter the first value decides; a parameter whose (first) value is
    empty counts as not given.  A filter restricts the query exactly when
    it is given. *)
Theorem list_filters_come_from_query (env : Env.t)
    (handleCors : Request.t -> option Response.t) (req : Request.t)
    (u : User.t) (w : World.t) :
  handleCors req = None ->
  mainRoute req = "expenses" ->
  Request.method req = "GET" ->
  subRoute req = "" ->
  bearer_token env req u ->
  serve env handleCors req w
  = getExpenses env
      (ExpenseFilters.mk (params_get (Request.searchParams req) "category")
         (params_get (Request.searchParams req) "start_date")
         (params_get (Request.searchParams req) "end_date")
         (params_get (Request.searchParams req) "payment_status")) w
  /\ (forall k v rest,
         params_get ((k, v) :: rest) k = if v =? "" then None else Some v)
  /\ (forall k k' v rest,
         k' <> k -> params_get ((k', v) :: rest) k = params_get rest k)
  /\ (forall params k, params_get params k <> Some "")
  /\ (forall f e,
         forallb (satisfies e) (filters_query f) = matches_filters f e).
Proof.
  intros C M G S B. split; [apply (serve_get_lists env handleCors req u w C M G S B)|].
  split; [|split; [|split]].
  - intros k v rest. unfold params_get. cbn. now rewrite String.eqb_refl.
  - intros k k' v rest N. unfold params_get. cbn.
    apply String.eqb_neq in N. now rewrite N.
  - intros params k. unfold params_get.
    destruct (find _ params) as [[k' v]|]; [|discriminate]. cbn.
    destruct (v =? "") eqn:E; [discriminate|].
    apply String.eqb_neq in E. congruence.
  - intros f e. apply filters_query_matches.
Qed.

(** [GET /functions/v1/expenses?category=&category=rent]: no filter. *)
Lemma list_filters_come_from_query_witness :
  serve sample_env preflight_handleCors
    (Request.mk "GET" "/functions/v1/expenses" [("category", ""); ("category", "rent")]
       (Some "Bearer good-token") None (inl "no body"))
    (world0 two_expenses)
  = getExpenses sample_env no_filters (world0 two_expenses).
Proof.
  apply (proj1 (list_filters_come_from_query sample_env preflight_handleCors
                  (Request.mk "GET" "/functions/v1/expenses"
                     [("category", ""); ("category", "rent")]
                     (Some "Bearer good-token") None (inl "no body"))
                  (User.mk "user-7") (world0 two_expenses)
                  eq_refl eq_refl eq_refl eq_refl
                  (ex_intro _ "good-token" (conj eq_refl eq_refl)))).
Defined.

(** Who is authenticated.  [getUserFromRequest] gives a user exactly when
    the Authorization header is "Bearer " followed by a token that the
    identity provider resolves to that user.  Without the header, or with
    a header that does not begin with "Bearer " (another scheme, another
    case, the bare token), nobody is authenticated, whatever the provider
    would say of the token. *)
Theorem bearer_header_decides (env : Env.t) (req : Request.t) :
  (forall u, getUserFromRequest env req = Some u <-> bearer_token env req u)
  /\ (Request.authorization req = None -> getUserFromRequest env req = None)
  /\ (forall h,
         Request.authorization req = Some h ->
         prefix "Bearer " h = false ->
         getUserFromRequest env req = None)
  /\ (forall token,
         Request.authorization req = Some ("Bearer " ++ token)%string ->
         getUserFromRequest env req = Env.auth_getUser env token).
Proof.
  split; [intros u; apply getUserFromRequest_spec|].
  split; [|split].
  - intros A. unfold getUserFromRequest. now rewrite A.
  - intros h A P. unfold getUserFromRequest. rewrite A, P.
    now rewrite orb_true_r.
  - intros token A.
    destruct (Env.auth_getUser env token) as [u|] eqn:G.
    + apply getUserFromRequest_spec. exists token. auto.
    + apply getUserFromRequest_none. intros u (t & A' & G').
      rewrite A in A'. inversion A'. subst t. congruence.
Qed.

(** The good token sent under a scheme in lower case. *)
Lemma bearer_header_decides_witness :
  getUserFromRequest sample_env
    (get_request "/functions/v1/expenses" (Some "bearer good-token")) = None.
Proof.
  apply (proj1 (proj2 (proj2 (bearer_header_decides sample_env
                                (get_request "/functions/v1/expenses"
                                   (Some "bearer good-token")))))
           "bearer good-token");
    reflexivity.
Defined.

(** ** The invariant of the stored expenses *)

Lemma new_row_fields (i c : string) (p : Partial.t) (e : Expense.t) :
  new_row i c p = Some e ->
  Partial.date p = Some (Expense.date e)
  /\ Partial.amount p = Some (Expense.amount e)
  /\ Partial.description p = Some (Expense.description e)
  /\ Partial.employee_id p = Some (Expense.employee_id e).
Proof.
  unfold new_row.
  destruct (Partial.date p), (Partial.amount p), (Partial.category p),
    (Partial.description p), (Partial.payment_status p), (Partial.employee_id p);
    try discriminate.
  intros H. inversion H; subst; cbn. auto.
Qed.

(** What a payload the validator accepts says about a row that has its
    date, amount, description and employee id. *)
Lemma valid_fields_well_formed (p : Partial.t) (e : Expense.t) :
  ExpenseValidation.isValid (validateExpense p) = true ->
  Partial.date p = Some (Expense.date e) ->
  Partial.amount p = Some (Expense.amount e) ->
  Partial.description p = Some (Expense.description e) ->
  Partial.employee_id p = Some (Expense.employee_id e) ->
  well_formed e.
Proof.
  intros V D A Ds E. rewrite validateExpense_valid_iff in V.
  pose proof (proj1 (passes_check FieldDate p) (V _)) as (d & Hd & Nd).
  pose proof (proj1 (passes_check FieldAmount p) (V _)) as (a & Ha & Pa).
  pose proof (proj1 (passes_check FieldDescription p) (V _)) as (ds & Hds & Nds).
  pose proof (proj1 (passes_check FieldEmployeeId p) (V _)) as (_ & (u & Hu & Su)).
  rewrite D in Hd. rewrite A in Ha. rewrite Ds in Hds. rewrite E in Hu.
  inversion Hd; inversion Ha; inversion Hds; inversion Hu; subst.
  repeat split; assumption.
Qed.

Lemma apply_updates_well_formed (u : Partial.t) (old : Expense.t) :
  ExpenseValidation.isValid (validateExpense u) = true ->
  well_formed (apply_updates u old).
Proof.
  intros V. pose proof V as V'. rewrite validateExpense_valid_iff in V'.
  pose proof (proj1 (passes_check FieldDate u) (V' _)) as (d & Hd & _).
  pose proof (proj1 (passes_check FieldAmount u) (V' _)) as (a & Ha & _).
  pose proof (proj1 (passes_check FieldDescription u) (V' _)) as (ds & Hds & _).
  pose proof (proj1 (passes_check FieldEmployeeId u) (V' _)) as (_ & (i & Hi & _)).
  apply (valid_fields_well_formed u); [exact V|..]; cbn;
    [rewrite Hd|rewrite Ha|rewrite Hds|rewrite Hi]; reflexivity.
Qed.

(** The writes keep the invariant of the stored expenses, whatever the
    store answers: if every stored expense has a date, a positive amount,
    a description and an employee id of the UUID shape, this is still so
    after a create, after an update and after a delete. *)
Theorem writes_keep_expenses_well_formed (env : Env.t) (s : Store.t) :
  Forall well_formed (Store.expenses s) ->
  (forall body userId,
      Forall well_formed
        (Store.expenses
           (World.store (snd (createExpense env body userId (world0 s))))))
  /\ (forall id updates,
      Forall well_formed
        (Store.expenses
           (World.store (snd (updateExpense env id updates (world0 s))))))
  /\ (forall id,
      Forall well_formed
        (Store.expenses (World.store (snd (deleteExpense env id (world0 s)))))).
Proof.
  intros W. split; [|split].
  - intros body userId. exec; try exact W;
      apply Forall_app; (split; [exact W|]);
      (apply Forall_cons; [|apply Forall_nil]);
      match goal with
      | N : new_row _ _ ?p = Some ?e |- well_formed ?e =>
          destruct (new_row_fields _ _ _ _ N) as (D & A & Ds & E);
          apply (valid_fields_well_formed body); assumption
      end.
  - intros id updates. exec; try exact W;
      apply Forall_forall; intros x I; apply in_map_iff in I as (e & <- & I);
      (destruct (has_id id e);
       [apply apply_updates_well_formed; assumption
       |exact (proj1 (Forall_forall _ _) W e I)]).
  - intros id.
    apply Forall_forall. intros x I.
    exact (proj1 (Forall_forall _ _) W x (deleteExpense_adds_nothing env s id x I)).
Qed.

Lemma writes_keep_expenses_well_formed_witness :
  Forall well_formed
    (Store.expenses
       (World.store (snd (updateExpense ledger_down "e-1" repriced_body
                            (world0 (store_with (rent_expense pending))))))).
Proof.
  assert (W : Forall well_formed (Store.expenses (store_with (rent_expense pending)))).
  { apply Forall_cons; [|apply Forall_nil].
    apply (valid_fields_well_formed rent_body); reflexivity. }
  exact (proj1 (proj2 (writes_keep_expenses_well_formed ledger_down
                         (store_with (rent_expense pending)) W))
           "e-1" repriced_body).
Defined.

(** ** The shape of an accepted employee id *)

Lemma length_app (a b : string) :
  String.length (a ++ b) = (String.length a + String.length b)%nat.
Proof. induction a as [|c a IH]; cbn; [reflexivity|now rewrite IH]. Qed.

Lemma uuid_shape_length (s : string) : uuid_shape s -> String.length s = 36%nat.
Proof.
  intros (a & b & c & d & e & -> & [La _] & [Lb _] & [Lc _] & [Ld _] & [Le _]).
  rewrite !length_app. cbn. lia.
Qed.

(** The pattern is anchored at both ends and nothing is trimmed: an
    accepted employee id has exactly 36 characters, so an accepted id
    with anything before or after it (a space, a line end, braces) is
    refused, and so is every string of another length. *)
Theorem accepted_id_has_36_characters (s : string) :
  uuidRegex_test s = true ->
  String.length s = 36%nat
  /\ forall t, t <> "" ->
               uuidRegex_test (s ++ t) = false /\ uuidRegex_test (t ++ s) = false.
Proof.
  intros U. apply uuidRegex_test_spec, uuid_shape_length in U.
  split; [exact U|]. intros t N.
  assert (L : String.length t <> 0%nat) by (destruct t; [congruence|discriminate]).
  split.
  - destruct (uuidRegex_test (s ++ t)) eqn:X; [|reflexivity].
    apply uuidRegex_test_spec, uuid_shape_length in X.
    rewrite length_app in X. lia.
  - destruct (uuidRegex_test (t ++ s)) eqn:X; [|reflexivity].
    apply uuidRegex_test_spec, uuid_shape_length in X.
    rewrite length_app in X. lia.
Qed.

Lemma accepted_id_has_36_characters_witness :
  String.length "11111111-1111-1111-1111-111111111111" = 36%nat
  /\ forall t, t <> "" ->
               uuidRegex_test ("11111111-1111-1111-1111-111111111111" ++ t) = false
               /\ uuidRegex_test (t ++ "11111111-1111-1111-1111-111111111111") = false.
Proof.
  apply (accepted_id_has_36_characters "11111111-1111-1111-1111-111111111111").
  reflexivity.
Defined.

(* ================================================================== *)
(** * The expenses service of the front end *)
(* ================================================================== *)

(** What an update of the service sends.  The outcome of
    [updateExpense(id, request)] depends on the request only through its
    category, amount, description, payment status, date and invoice
    number, and through those only when they are not empty and not zero:
    the notes and the payment method never reach the API, and an amount
    of 0 or an empty text is sent as if the field were absent. *)
Theorem service_update_forwards_six_fields (Expense : Type)
    (api : string -> ExpensesService.UpdateData.t
           -> JsError + ExpensesService.ApiResponse.t Expense)
    (id : string) (a b : ExpensesService.UpdateExpenseRequest.t) :
  (ExpensesService.same_update a b ->
   ExpensesService.updateExpense Expense api id a
   = ExpensesService.updateExpense Expense api id b)
  /\ (forall method notes,
         ExpensesService.same_update a
           (ExpensesService.UpdateExpenseRequest.mk
              (ExpensesService.UpdateExpenseRequest.date a)
              (ExpensesService.UpdateExpenseRequest.amount a)
              (ExpensesService.UpdateExpenseRequest.category a)
              (ExpensesService.UpdateExpenseRequest.description a)
              (ExpensesService.UpdateExpenseRequest.payment_status a)
              method
              (ExpensesService.UpdateExpenseRequest.invoice_number a)
              notes))
  /\ (forall q,
         ExpensesService.UpdateExpenseRequest.amount a = Some q ->
         (q == 0)%Q ->
         ExpensesService.same_update a
           (ExpensesService.UpdateExpenseRequest.mk
              (ExpensesService.UpdateExpenseRequest.date a)
              None
              (ExpensesService.UpdateExpenseRequest.category a)
              (ExpensesService.UpdateExpenseRequest.description a)
              (ExpensesService.UpdateExpenseRequest.payment_status a)
              (ExpensesService.UpdateExpenseRequest.payment_method a)
              (ExpensesService.UpdateExpenseRequest.invoice_number a)
              (ExpensesService.UpdateExpenseRequest.notes a))).
Proof.
  split; [|split].
  - intros (C & A & D & P & Dt & I).
    unfold ExpensesService.updateExpense, ExpensesService.update_data.
    now rewrite C, A, D, P, Dt, I.
  - intros method notes. repeat split.
  - intros q A Z. unfold ExpensesService.same_update. cbn.
    rewrite A. cbn. apply Qeq_bool_iff in Z. rewrite Z. repeat split.
Qed.

(** Against an API that answers with the data it was sent: a request
    with an amount of 0 and notes gives what the request without them but
    with a payment method gives. *)
Lemma service_update_forwards_six_fields_witness :
  ExpensesService.updateExpense ExpensesService.UpdateData.t
    (fun _ data => inr (ExpensesService.ApiResponse.mk (Some data) None)) "e-1"
    (ExpensesService.UpdateExpenseRequest.mk None (Some (0 # 1)) None None
       (Some "paid") None None (Some "checked"))
  = ExpensesService.updateExpense ExpensesService.UpdateData.t
      (fun _ data => inr (ExpensesService.ApiResponse.mk (Some data) None)) "e-1"
      (ExpensesService.UpdateExpenseRequest.mk None None None None
         (Some "paid") (Some "card") None None).
Proof.
  apply (proj1 (service_update_forwards_six_fields ExpensesService.UpdateData.t
                  (fun _ data => inr (ExpensesService.ApiResponse.mk (Some data) None))
                  "e-1" _ _)).
  repeat split.
Defined.

(** The outcome of the service functions.  Each throws exactly when the
    call of the API rejects, with what the API rejected with, or when the
    response carries an error, with an Error of that message and whatever
    data the response carries besides; otherwise it returns the data.  The
    two list functions return the empty list for a response without
    data. *)
Theorem service_throws_on_api_error (Expense Filters : Type)
    (api_getExpenses : option Filters
                       -> JsError + ExpensesService.ApiResponse.t (list Expense))
    (api_getExpenseCategories : JsError + ExpensesService.ApiResponse.t (list string))
    (api_getExpenseById : string -> JsError + ExpensesService.ApiResponse.t Expense)
    (api_deleteExpense : string -> JsError + ExpensesService.ApiResponse.t unit) :
  (forall filters j,
      ExpensesService.fetchExpenses Expense Filters api_getExpenses filters = inl j <->
      api_getExpenses filters = inl j
      \/ exists data message,
           api_getExpenses filters
           = inr (ExpensesService.ApiResponse.mk data (Some message))
           /\ j = ErrorObject message None)
  /\ (forall filters l,
      ExpensesService.fetchExpenses Expense Filters api_getExpenses filters = inr l <->
      api_getExpenses filters = inr (ExpensesService.ApiResponse.mk (Some l) None)
      \/ (api_getExpenses filters = inr (ExpensesService.ApiResponse.mk None None)
          /\ l = []))
  /\ (forall l,
      ExpensesService.fetchExpenseCategories api_getExpenseCategories = inr l <->
      api_getExpenseCategories = inr (ExpensesService.ApiResponse.mk (Some l) None)
      \/ (api_getExpenseCategories = inr (ExpensesService.ApiResponse.mk None None)
          /\ l = []))
  /\ (forall id found,
      ExpensesService.fetchExpenseById Expense api_getExpenseById id = inr found <->
      api_getExpenseById id = inr (ExpensesService.ApiResponse.mk found None))
  /\ (forall id,
      ExpensesService.deleteExpense api_deleteExpense id = inr tt <->
      exists data,
        api_deleteExpense id = inr (ExpensesService.ApiResponse.mk data None)).
Proof.
  unfold ExpensesService.fetchExpenses, ExpensesService.fetchExpenseCategories,
    ExpensesService.fetchExpenseById, ExpensesService.deleteExpense,
    ExpensesService.settle.
  split; [|split; [|split; [|split]]].
  - intros filters j. destruct (api_getExpenses filters) as [k|[d [m|]]]; cbn.
    + split; [intros H; left; inversion H; reflexivity|].
      intros [H | (d & m & H & _)]; [inversion H; reflexivity|discriminate H].
    + split.
      * intros H. inversion H; subst. right. eauto.
      * intros [H | (d' & m' & H & ->)]; [discriminate H|]. now inversion H.
    + split; [discriminate|].
      intros [H | (d' & m' & H & _)]; discriminate H.
  - intros filters l. destruct (api_getExpenses filters) as [k|[[d|] [m|]]]; cbn;
      (split; [intros H; inversion H; subst; auto
              |intros [H | [H E]]; inversion H; subst; reflexivity]).
  - intros l. destruct api_getExpenseCategories as [k|[[d|] [m|]]]; cbn;
      (split; [intros H; inversion H; subst; auto
              |intros [H | [H E]]; inversion H; subst; reflexivity]).
  - intros id found. destruct (api_getExpenseById id) as [k|[d [m|]]]; cbn;
      (split; intros H; inversion H; subst; reflexivity).
  - intros id. destruct (api_deleteExpense id) as [k|[d [m|]]]; cbn;
      (split; [intros H; inversion H; eauto|intros (d' & H); inversion H; reflexivity]).
Qed.

(* ================================================================== *)
(** * The form field components *)
(* ================================================================== *)

(** What [FormMessage] shows inside a [FormField].  Children that are
    truthy are shown, whatever the errors.  Otherwise the message comes
    from the [error] prop when that prop is given, and from the error of
    the form for the field only when it is not: an [error] prop without a
    message hides the error of the form.  Nothing is rendered exactly when
    there are no truthy children and no message that is not empty.
    Outside a [FormField] the component throws. *)
Theorem form_message_shows (Node : Type) (truthy : Node -> bool)
    (c : FormField.Context.t) (error : option FormField.FieldError.t)
    (children : option Node) :
  (forall n, children = Some n -> truthy n = true ->
             FormField.FormMessage Node truthy (Some c) error children
             = inr (FormField.Children Node n))
  /\ (forall e, error = Some e ->
         FormField.shown_children Node truthy children = None ->
         FormField.FormMessage Node truthy (Some c) error children
         = inr (match ExpensesService.truthy_string (FormField.FieldError.message e) with
                | Some m => FormField.Message Node m
                | None => FormField.Nothing Node
                end))
  /\ (error = None ->
      FormField.shown_children Node truthy children = None ->
      FormField.FormMessage Node truthy (Some c) error children
      = inr (match FormField.Context.errors c (FormField.Context.name c) with
             | Some e =>
                 match ExpensesService.truthy_string (FormField.FieldError.message e) with
                 | Some m => FormField.Message Node m
                 | None => FormField.Nothing Node
                 end
             | None => FormField.Nothing Node
             end))
  /\ FormField.FormMessage Node truthy None error children
     = inl (ErrorObject "useFormField must be used within a FormField" None).
Proof.
  unfold FormField.FormMessage. cbn. split; [|split; [|split]].
  - intros n -> T. cbn. rewrite T. reflexivity.
  - intros e -> S. rewrite S.
    destruct (ExpensesService.truthy_string (FormField.FieldError.message e));
      reflexivity.
  - intros -> S. rewrite S.
    destruct (FormField.Context.errors c (FormField.Context.name c)) as [e|];
      [|reflexivity].
    destruct (ExpensesService.truthy_string (FormField.FieldError.message e));
      reflexivity.
  - reflexivity.
Qed.

(** The form says "Amount is required" for the field; an [error] prop
    without a message is passed: nothing is shown. *)
Lemma form_message_shows_witness :
  FormField.FormMessage nat (fun n => negb (n =? 0)%nat)
    (Some (FormField.Context.mk "amount"
             (fun _ => Some (FormField.FieldError.mk (Some "Amount is required")))))
    (Some (FormField.FieldError.mk None)) None
  = inr (FormField.Nothing nat).
Proof.
  apply (proj1 (proj2 (form_message_shows nat (fun n => negb (n =? 0)%nat)
                         (FormField.Context.mk "amount"
                            (fun _ => Some (FormField.FieldError.mk
                                              (Some "Amount is required"))))
                         (Some (FormField.FieldError.mk None)) None))
           (FormField.FieldError.mk None));
    reflexivity.
Defined.

(* ================================================================== *)
(** * Round trips through the store *)
(* ================================================================== *)




